(** * Plant state engine of the Digital Plant Growth & Care System

    A shallow embedding of [main.py]: the numeric helpers ([clamp],
    [compute_health], [apply_decay], [apply_growth]) and the three
    endpoints that drive them ([care_action], [run_growth],
    [ingest_sensor]) over an explicit document store.

    Python [int] is [Z].  Python [float] is IEEE 754 binary64, taken from
    the executable specification [SpecFloat] (precision 53, emax 1024,
    round to nearest even), so that [50 * 0.95], [x / 3.0] or
    [(light / 1000.0) * 100] evaluate here to the very double Python
    computes.  Exceptions are values of [exn]; an endpoint is a function
    from the store to a result and a store.

    Conventions.  The clock reads of one request ([datetime.now]) are
    one instant, passed to the endpoint as [now].  [serialize] only
    renders ids and instants as text; an answer carries the documents
    themselves.  [find] lists the matching plants in the order of the
    map's enumeration. *)

From Stdlib Require Import ZArith Lia List Bool Ascii String.
From Stdlib Require Import SpecFloat.
From stdpp Require Import base option gmap strings.

Local Open Scope Z_scope.

(** ** Exceptions and results *)

Inductive exn : Type :=
  | AttributeError   (* [None.get] *)
  | OverflowError    (* int too large for a float, or [int]/[round] of an infinity *)
  | ValueError       (* [int]/[round] of a NaN *)
  | InvalidId.       (* [bson.ObjectId] of a malformed string *)

Inductive result (A : Type) : Type :=
  | Ok (a : A)
  | Raise (e : exn).
Arguments Ok {A} a.
Arguments Raise {A} e.

Definition rbind {A B} (r : result A) (k : A -> result B) : result B :=
  match r with
  | Ok a => k a
  | Raise e => Raise e
  end.

Declare Scope res_scope.
Delimit Scope res_scope with res.
Notation "'let*' x ':=' r 'in' k" := (rbind r (fun x => k))
  (at level 10, x name, r at level 100, k at level 200) : res_scope.

(** ** Python numbers *)

Module PyNum.

Definition prec : Z := 53.
Definition emax : Z := 1024.

(** A Python number as the engine meets them: an [int] or a [float]. *)
Inductive num : Type :=
  | PyInt (z : Z)
  | PyFloat (f : spec_float).

(** [float(z)]: the nearest double, ties to even; Python raises
    [OverflowError] when that would be an infinity. *)
Definition float_of_int (z : Z) : result spec_float :=
  match binary_normalize prec emax z 0 false with
  | S754_infinity _ => Raise OverflowError
  | f => Ok f
  end.

(** The float literals of the source.  Each is the double nearest to
    the decimal, obtained by a correctly rounded operation on exactly
    representable integers. *)
Definition lit (z : Z) : spec_float := binary_normalize prec emax z 0 false.
Definition f0_95 : spec_float := Eval vm_compute in SFdiv prec emax (lit 95) (lit 100).
Definition f3_0 : spec_float := Eval vm_compute in lit 3.
Definition f1000_0 : spec_float := Eval vm_compute in lit 1000.
Definition f100 : spec_float := Eval vm_compute in lit 100.

(** Exact value of a finite float as a signed mantissa. *)
Definition signed (s : bool) (m : positive) : Z := if s then Z.neg m else Z.pos m.

(** Python compares a float with an int exactly, on the mathematical
    values; a NaN is unordered. *)
Definition cmp_float_int (f : spec_float) (z : Z) : option comparison :=
  match f with
  | S754_nan => None
  | S754_infinity s => Some (if s then Lt else Gt)
  | S754_zero _ => Some (0 ?= z)
  | S754_finite s m e =>
      if 0 <=? e then Some (signed s m * 2 ^ e ?= z)
      else Some (signed s m ?= z * 2 ^ (- e))
  end.

(** [a < b] *)
Definition num_lt (a b : num) : bool :=
  match a, b with
  | PyInt x, PyInt y => x <? y
  | PyFloat f, PyInt y =>
      match cmp_float_int f y with Some Lt => true | _ => false end
  | PyInt x, PyFloat g =>
      match cmp_float_int g x with Some Gt => true | _ => false end
  | PyFloat f, PyFloat g => SFltb f g
  end.

(** [a > b] is [b < a] on numbers (both are false on a NaN). *)
Definition num_gt (a b : num) : bool := num_lt b a.

(** Built-in [min(a, b)] and [max(a, b)]: keep the first argument unless
    the second compares strictly better. *)
Definition py_min (a b : num) : num := if num_lt b a then b else a.
Definition py_max (a b : num) : num := if num_gt b a then b else a.

(** [int(x)]: truncation toward zero. *)
Definition py_int (x : num) : result Z :=
  match x with
  | PyInt z => Ok z
  | PyFloat S754_nan => Raise ValueError
  | PyFloat (S754_infinity _) => Raise OverflowError
  | PyFloat (S754_zero _) => Ok 0
  | PyFloat (S754_finite s m e) =>
      let mag := if 0 <=? e then Z.pos m * 2 ^ e else Z.pos m / 2 ^ (- e) in
      Ok (if s then - mag else mag)
  end.

(** [round(f)] of a float: the nearest integer, ties to even. *)
Definition py_round (f : spec_float) : result Z :=
  match f with
  | S754_nan => Raise ValueError
  | S754_infinity _ => Raise OverflowError
  | S754_zero _ => Ok 0
  | S754_finite s m e =>
      let mag :=
        if 0 <=? e then Z.pos m * 2 ^ e
        else
          let d := 2 ^ (- e) in
          let q := Z.pos m / d in
          let r := Z.pos m mod d in
          match 2 * r ?= d with
          | Lt => q
          | Gt => q + 1
          | Eq => if Z.even q then q else q + 1
          end in
      Ok (if s then - mag else mag)
  end.

End PyNum.
Import PyNum.

(** ** Utility helpers *)

(** [clamp(v, lo=0, hi=100) = max(lo, min(hi, v))] *)
Definition clamp_in (v lo hi : num) : num := py_max lo (py_min hi v).
Definition clamp (v : num) : num := clamp_in v (PyInt 0) (PyInt 100).

(** The pattern [int(clamp(...))] on an integer argument. *)
Definition int_clamp (z : Z) : result Z := py_int (clamp (PyInt z)).

(** ** Documents of the store *)

(** [dict.get(key, default)] on a field that may be absent. *)
Definition get {A : Type} (field : option A) (dflt : A) : A :=
  match field with
  | Some v => v
  | None => dflt
  end.

(** A document of [planttemplates].  Every field is optional because the
    engine also runs on the empty dict [{}]. *)
Record template_doc : Type := {
  template_name : option string;
  scientific_name : option string;
  ideal_moisture : option Z;
  ideal_light : option Z;
  ideal_temperature : option Z;
  growth_days : option Z;
  instructions : option string;
  example_images : option (list string)
}.

(** [{}] *)
Definition empty_dict : template_doc :=
  {| template_name := None; scientific_name := None; ideal_moisture := None;
     ideal_light := None; ideal_temperature := None; growth_days := None;
     instructions := None; example_images := None |}.

(** An entry of [action_log]; instants are seconds on some clock. *)
Record log_entry : Type := {
  le_type : string;
  le_value : Z;
  le_xp_reward : Z;
  le_date : Z
}.

(** A document of [userplants].  The fields the engine reads with
    [plant.get(...)] are optional; [owner] is read with [plant["owner"]]. *)
Record plant : Type := {
  owner : string;
  template : option string;
  nickname : string;
  planted_on : Z;
  growth_points : option Z;
  hydration : option Z;
  nutrition : option Z;
  sunlight : option Z;
  health_score : option Z;
  stage : option string;
  last_action_date : option Z;
  action_log : option (list log_entry);
  created_at : option Z;
  updated_at : option Z
}.

(** Item assignment [plant[key] = v], one function per key the engine
    writes. *)
Definition set_hydration (v : Z) (p : plant) : plant :=
  {| owner := owner p; template := template p; nickname := nickname p;
     planted_on := planted_on p; growth_points := growth_points p;
     hydration := Some v; nutrition := nutrition p; sunlight := sunlight p;
     health_score := health_score p; stage := stage p;
     last_action_date := last_action_date p; action_log := action_log p;
     created_at := created_at p; updated_at := updated_at p |}.

Definition set_nutrition (v : Z) (p : plant) : plant :=
  {| owner := owner p; template := template p; nickname := nickname p;
     planted_on := planted_on p; growth_points := growth_points p;
     hydration := hydration p; nutrition := Some v; sunlight := sunlight p;
     health_score := health_score p; stage := stage p;
     last_action_date := last_action_date p; action_log := action_log p;
     created_at := created_at p; updated_at := updated_at p |}.

Definition set_sunlight (v : Z) (p : plant) : plant :=
  {| owner := owner p; template := template p; nickname := nickname p;
     planted_on := planted_on p; growth_points := growth_points p;
     hydration := hydration p; nutrition := nutrition p; sunlight := Some v;
     health_score := health_score p; stage := stage p;
     last_action_date := last_action_date p; action_log := action_log p;
     created_at := created_at p; updated_at := updated_at p |}.

Definition set_health_score (v : Z) (p : plant) : plant :=
  {| owner := owner p; template := template p; nickname := nickname p;
     planted_on := planted_on p; growth_points := growth_points p;
     hydration := hydration p; nutrition := nutrition p; sunlight := sunlight p;
     health_score := Some v; stage := stage p;
     last_action_date := last_action_date p; action_log := action_log p;
     created_at := created_at p; updated_at := updated_at p |}.

Definition set_growth_points (v : Z) (p : plant) : plant :=
  {| owner := owner p; template := template p; nickname := nickname p;
     planted_on := planted_on p; growth_points := Some v;
     hydration := hydration p; nutrition := nutrition p; sunlight := sunlight p;
     health_score := health_score p; stage := stage p;
     last_action_date := last_action_date p; action_log := action_log p;
     created_at := created_at p; updated_at := updated_at p |}.

Definition set_stage (v : string) (p : plant) : plant :=
  {| owner := owner p; template := template p; nickname := nickname p;
     planted_on := planted_on p; growth_points := growth_points p;
     hydration := hydration p; nutrition := nutrition p; sunlight := sunlight p;
     health_score := health_score p; stage := Some v;
     last_action_date := last_action_date p; action_log := action_log p;
     created_at := created_at p; updated_at := updated_at p |}.

Definition set_last_action_date (v : Z) (p : plant) : plant :=
  {| owner := owner p; template := template p; nickname := nickname p;
     planted_on := planted_on p; growth_points := growth_points p;
     hydration := hydration p; nutrition := nutrition p; sunlight := sunlight p;
     health_score := health_score p; stage := stage p;
     last_action_date := Some v; action_log := action_log p;
     created_at := created_at p; updated_at := updated_at p |}.

Definition set_action_log (v : list log_entry) (p : plant) : plant :=
  {| owner := owner p; template := template p; nickname := nickname p;
     planted_on := planted_on p; growth_points := growth_points p;
     hydration := hydration p; nutrition := nutrition p; sunlight := sunlight p;
     health_score := health_score p; stage := stage p;
     last_action_date := last_action_date p; action_log := Some v;
     created_at := created_at p; updated_at := updated_at p |}.

Definition set_updated_at (v : Z) (p : plant) : plant :=
  {| owner := owner p; template := template p; nickname := nickname p;
     planted_on := planted_on p; growth_points := growth_points p;
     hydration := hydration p; nutrition := nutrition p; sunlight := sunlight p;
     health_score := health_score p; stage := stage p;
     last_action_date := last_action_date p; action_log := action_log p;
     created_at := created_at p; updated_at := Some v |}.

(** A document of [users]. *)
Record user : Type := {
  name : string;
  email : string;
  xp : Z;
  level : Z;
  streak : Z;
  badges : list string
}.

Definition inc_xp (d : Z) (u : user) : user :=
  {| name := name u; email := email u; xp := xp u + d; level := level u;
     streak := streak u; badges := badges u |}.

(** Request body of the sensor endpoint, [SensorIn]. *)
Record SensorIn : Type := {
  plant_id : string;
  moisture : option spec_float;
  temp : option spec_float;
  light : option spec_float;
  humidity : option spec_float
}.

(** A document of [sensordata]. *)
Record sensor_doc : Type := {
  sd_plant : string;
  sd_moisture : option spec_float;
  sd_temperature : option spec_float;
  sd_humidity : option spec_float;
  sd_light : option spec_float;
  sd_timestamp : Z
}.

(** ** The engine *)

Definition STAGE_THRESHOLDS (k : string) : Z :=
  if decide (k = "seed")%string then 0
  else if decide (k = "sprout")%string then 100
  else if decide (k = "juvenile")%string then 250
  else if decide (k = "mature")%string then 500
  else 0.

Definition compute_health (p : plant) (t : option template_doc) : result Z :=
  match t with
  | None => Raise AttributeError
  | Some t =>
      let dev_m := Z.abs (get (hydration p) 0 - get (ideal_moisture t) 50) in
      let dev_l := Z.abs (get (sunlight p) 0 - get (ideal_light t) 50) in
      let dev_n := Z.abs (get (nutrition p) 0 - 60) in
      (let* total := float_of_int (dev_m + dev_l + dev_n) in
       let avg_dev := SFdiv prec emax total f3_0 in
       let score := SFsub prec emax f100 avg_dev in
       py_int (clamp (PyFloat score)))%res
  end.

Definition apply_decay (p : plant) : result plant :=
  (let* h := int_clamp (get (hydration p) 0 - 5) in
   let p := set_hydration h p in
   let* n := int_clamp (get (nutrition p) 0 - 2) in
   let p := set_nutrition n p in
   let* f := float_of_int (get (sunlight p) 0) in
   let* r := py_round (SFmul prec emax f f0_95) in
   let* s := int_clamp r in
   Ok (set_sunlight s p))%res.

Definition apply_growth (p : plant) (t : option template_doc) : plant :=
  let p :=
    if 70 <? get (health_score p) 0
    then set_growth_points (get (growth_points p) 0 + 10) p
    else p in
  let gp := get (growth_points p) 0 in
  let stage :=
    if STAGE_THRESHOLDS "mature" <=? gp then "mature"%string
    else if STAGE_THRESHOLDS "juvenile" <=? gp then "juvenile"%string
    else if STAGE_THRESHOLDS "sprout" <=? gp then "sprout"%string
    else "seed"%string in
  set_stage stage p.

(** ** The document store and the monad of an endpoint *)

(** Modelled from the spec: the document store [db] that [database.py]
    (not among the sources) exports, "a document store with collections
    for users, plant templates, user plants, sensor readings".  A
    collection read by id is a finite map from the id to the document;
    [sensordata], only ever appended to, is the list of its documents. *)
Record store : Type := {
  userplants : gmap string plant;
  planttemplates : gmap string template_doc;
  users : gmap string user;
  sensordata : list sensor_doc
}.

(** An endpoint reads and writes the store and returns or raises; what
    was written before an exception stays written. *)
Definition M (A : Type) : Type := store -> result A * store.

Definition ret {A} (a : A) : M A := fun d => (Ok a, d).
Definition bind {A B} (c : M A) (k : A -> M B) : M B :=
  fun d =>
    match c d with
    | (Ok a, d') => k a d'
    | (Raise e, d') => (Raise e, d')
    end.
Definition lift {A} (r : result A) : M A := fun d => (r, d).
Definition read : M store := fun d => (Ok d, d).
Definition write (d' : store) : M unit := fun _ => (Ok tt, d').

Declare Scope st_scope.
Delimit Scope st_scope with st.
Notation "'let*' x ':=' c 'in' k" := (bind c (fun x => k))
  (at level 10, x name, c at level 100, k at level 200) : st_scope.

(** [db["userplants"].update_one({"_id": k}, {"$set": p})]: without
    upsert, only an existing document is replaced. *)
Definition update_plant (k : string) (p : plant) : M unit :=
  fun d =>
    (Ok tt,
     match userplants d !! k with
     | Some _ =>
         {| userplants := <[k := p]> (userplants d);
            planttemplates := planttemplates d;
            users := users d; sensordata := sensordata d |}
     | None => d
     end).

(** [db["users"].update_one({"_id": k}, {"$inc": {"xp": n}})] *)
Definition inc_user_xp (k : string) (n : Z) : M unit :=
  fun d =>
    (Ok tt,
     {| userplants := userplants d; planttemplates := planttemplates d;
        users := alter (inc_xp n) k (users d); sensordata := sensordata d |}).

(** [db["sensordata"].insert_one(doc)] *)
Definition insert_sensor (doc : sensor_doc) : M unit :=
  fun d =>
    (Ok tt,
     {| userplants := userplants d; planttemplates := planttemplates d;
        users := users d; sensordata := sensordata d ++ [doc] |}).

(** What an endpoint answers. *)
Inductive response : Type :=
  | PlantJSON (doc : plant) (template_data : option template_doc)
  | ErrorJSON (status_code : Z) (error : string)
  | UpdatedJSON (updated : Z).

(** Request body of the care endpoint, [CareAction]. *)
Record CareAction : Type := { type : string }.

(** Truth value of [plant.get("template")]: present and not empty. *)
Definition truthy (o : option string) : bool :=
  match o with
  | Some s => negb (String.eqb s "")
  | None => false
  end.

(** The [if]/[elif] chain of [care_action]: the plant after the action
    and the xp reward, or [None] for the final [else]. *)
Definition dispatch (action : CareAction) (p : plant) : result (option (plant * Z)) :=
  (if String.eqb (type action) "water" then
     let* v := int_clamp (get (hydration p) 0 + 20) in
     Ok (Some (set_hydration v p, 5))
   else if String.eqb (type action) "fertilize" then
     let* v := int_clamp (get (nutrition p) 0 + 15) in
     Ok (Some (set_nutrition v p, 7))
   else if String.eqb (type action) "sunlight_add" then
     let* v := int_clamp (get (sunlight p) 0 + 10) in
     Ok (Some (set_sunlight v p, 4))
   else if String.eqb (type action) "trim" then
     let* v := int_clamp (get (health_score p) 0 + 5) in
     Ok (Some (set_health_score v p, 6))
   else if String.eqb (type action) "repot" then
     let* v := int_clamp (get (health_score p) 0 + 10) in
     Ok (Some (set_health_score v p, 10))
   else Ok None)%res.

(** ** Endpoints *)

Section Endpoints.

(** [bson.ObjectId]: parses an id string to the key of a document, or
    rejects it. *)
Variable ObjectId : string -> option string.

Definition oid (id_str : string) : result string :=
  match ObjectId id_str with
  | Some k => Ok k
  | None => Raise InvalidId
  end.

(** [db["planttemplates"].find_one({"_id": oid(plant["template"])})
     if plant.get("template") else otherwise]; [find_one] answers [None]
    when no document has the id. *)
Definition find_template (p : plant) (otherwise : option template_doc)
  : M (option template_doc) :=
  if truthy (template p) then
    (let* tid := lift (oid (get (template p) "")) in
     let* d := read in
     ret (planttemplates d !! tid))%st
  else ret otherwise.

Definition get_plant (plant_id : string) : M response :=
  (let* k := lift (oid plant_id) in
   let* d := read in
   match userplants d !! k with
   | None => ret (ErrorJSON 404 "Not found")
   | Some doc =>
       let* t := find_template doc None in
       ret (PlantJSON doc t)
   end)%st.

Definition care_action (plant_id : string) (action : CareAction) (now : Z)
  : M response :=
  (let* k := lift (oid plant_id) in
   let* d := read in
   match userplants d !! k with
   | None => ret (ErrorJSON 404 "Plant not found")
   | Some p =>
       let* t := find_template p (Some empty_dict) in
       let* p := lift (apply_decay p) in
       let* r := lift (dispatch action p) in
       match r with
       | None => ret (ErrorJSON 400 "Unknown action")
       | Some (p, xp_reward) =>
           let* h := lift (compute_health p t) in
           let p := set_health_score h p in
           let p := apply_growth p t in
           let entry := {| le_type := type action; le_value := 1;
                           le_xp_reward := xp_reward; le_date := now |} in
           let p := set_action_log (entry :: get (action_log p) []) p in
           let p := set_last_action_date now p in
           let p := set_updated_at now p in
           let* _ := update_plant k p in
           let* u := lift (oid (owner p)) in
           let* _ := inc_user_xp u xp_reward in
           get_plant plant_id
       end
   end)%st.

(** The loop of [run_growth] over the plants found for the user. *)
Fixpoint growth_loop (plants : list (string * plant)) (now : Z) (updated : Z)
  : M Z :=
  match plants with
  | [] => ret updated
  | (k, p) :: rest =>
      (let* t := find_template p (Some empty_dict) in
       let* p := lift (apply_decay p) in
       let* h := lift (compute_health p t) in
       let p := set_health_score h p in
       let p := apply_growth p t in
       let p := set_updated_at now p in
       let* _ := update_plant k p in
       growth_loop rest now (updated + 1))%st
  end.

Definition run_growth (user_id : string) (now : Z) : M response :=
  (let* d := read in
   let plants :=
     filter (fun kp => owner (snd kp) = user_id) (map_to_list (userplants d)) in
   let* updated := growth_loop plants now 0 in
   ret (UpdatedJSON updated))%st.

Definition ingest_sensor (data : SensorIn) (now : Z) : M response :=
  (let* k := lift (oid (plant_id data)) in
   let* d := read in
   match userplants d !! k with
   | None => ret (ErrorJSON 404 "Plant not found")
   | Some p =>
       let* tmpl := find_template p (Some empty_dict) in
       let* p :=
         lift (match moisture data with
               | Some m => (let* v := py_int (clamp (PyFloat m)) in
                            Ok (set_hydration v p))%res
               | None => Ok p
               end) in
       let* p :=
         lift (match light data with
               | Some l =>
                   let normalized_light :=
                     clamp (PyFloat (SFmul prec emax (SFdiv prec emax l f1000_0) f100)) in
                   (let* v := py_int normalized_light in
                    Ok (set_sunlight v p))%res
               | None => Ok p
               end) in
       let* h := lift (compute_health p tmpl) in
       let p := set_health_score h p in
       let p := apply_growth p tmpl in
       let p := set_updated_at now p in
       let* _ := update_plant k p in
       let doc := {| sd_plant := plant_id data; sd_moisture := moisture data;
                     sd_temperature := temp data; sd_humidity := humidity data;
                     sd_light := light data; sd_timestamp := now |} in
       let* _ := insert_sensor doc in
       get_plant (plant_id data)
   end)%st.

End Endpoints.

(** ** The other endpoints on plants *)

(** Request body of plant creation, [PlantCreate]. *)
Module PlantCreate.
Record t : Type := { user_id : string; template_id : string; nickname : string }.
End PlantCreate.

(** Request body of the chat endpoint, [ChatIn]. *)
Module ChatIn.
Record t : Type := { plant_id : string; question : option string }.
End ChatIn.

(** What [create_user_plant] answers: the new id, or an error. *)
Inductive creation : Type :=
  | CreatedJSON (_id : string)
  | InvalidJSON (status_code : Z) (error : string).

(** [db["userplants"].insert_one(doc)] under the id [new_id] that the
    driver generates for the document (an id no document has yet). *)
Definition insert_plant (new_id : string) (doc : plant) : M unit :=
  fun d =>
    (Ok tt,
     {| userplants := <[new_id := doc]> (userplants d);
        planttemplates := planttemplates d;
        users := users d; sensordata := sensordata d |}).

(** The tips of [ai_chat], appended in the order of the source. *)
Definition chat_tips (p : plant) (tmpl : template_doc) : list string :=
  let tips := [] in
  let tips :=
    if get (hydration p) 0 <? get (ideal_moisture tmpl) 50 - 10
    then tips ++ ["Your plant looks thirsty. Consider watering it."%string]
    else tips in
  let tips :=
    if get (nutrition p) 0 <? 50
    then tips ++ ["A small dose of fertilizer can boost growth."%string]
    else tips in
  let tips :=
    if get (sunlight p) 0 <? get (ideal_light tmpl) 60 - 10
    then tips ++ ["Move it to a brighter spot for more light."%string]
    else tips in
  let tips :=
    if get (health_score p) 100 <? 70
    then tips ++ ["Overall health is low; adjust watering, light, and nutrition."%string]
    else tips in
  match tips with
  | [] => tips ++ ["Your plant is doing great! Keep up the consistent care."%string]
  | _ :: _ => tips
  end.

Section PlantEndpoints.

Variable ObjectId : string -> option string.

Definition create_user_plant (payload : PlantCreate.t) (now : Z) (new_id : string)
  : M creation :=
  (let* ku := lift (oid ObjectId (PlantCreate.user_id payload)) in
   let* d := read in
   let user := users d !! ku in
   let* kt := lift (oid ObjectId (PlantCreate.template_id payload)) in
   let template_found := planttemplates d !! kt in
   match user, template_found with
   | Some _, Some _ =>
       let plant_doc :=
         {| owner := ku; template := Some kt;
            nickname := PlantCreate.nickname payload;
            planted_on := now; growth_points := Some 0;
            hydration := Some 50; nutrition := Some 50; sunlight := Some 50;
            health_score := Some 100; stage := Some "seed"%string;
            last_action_date := None; action_log := Some [];
            created_at := Some now; updated_at := Some now |} in
       let* _ := insert_plant new_id plant_doc in
       ret (CreatedJSON new_id)
   | _, _ => ret (InvalidJSON 400 "Invalid user or template")
   end)%st.

(** [find({"owner": user_id}).limit(200)] *)
Definition list_user_plants (user_id : string) : M (list (string * plant)) :=
  (let* d := read in
   ret (take 200 (filter (fun kp => owner (snd kp) = user_id)
                    (map_to_list (userplants d)))))%st.

(** [find({}).limit(100)] *)
Definition list_templates : M (list (string * template_doc)) :=
  (let* d := read in ret (take 100 (map_to_list (planttemplates d))))%st.

(** The answer of [ai_chat], the value under ["answer"]. *)
Definition ai_chat (body : ChatIn.t) : M string :=
  (let* k := lift (oid ObjectId (ChatIn.plant_id body)) in
   let* d := read in
   match userplants d !! k with
   | None => ret "I couldn't find that plant."%string
   | Some p =>
       let* tmpl := find_template ObjectId p (Some empty_dict) in
       match tmpl with
       | None => lift (Raise AttributeError)
       | Some tmpl => ret (String.concat " " (chat_tips p tmpl))
       end
   end)%st.

End PlantEndpoints.

(** ** Notions used to state the properties *)

(** [int(clamp(z))] as a closed form on integers. *)
Definition clampZ (z : Z) : Z := Z.max 0 (Z.min 100 z).

(** The sunlight line of [apply_decay] alone:
    [int(clamp(round(s * 0.95)))]. *)
Definition decay_sunlight (s : Z) : result Z :=
  (let* f := float_of_int s in
   let* r := py_round (SFmul prec emax f f0_95) in
   int_clamp r)%res.

(** [compute_health] as a function of the summed deviations. *)
Definition health_of_total (total : Z) : result Z :=
  (let* f := float_of_int total in
   py_int (clamp (PyFloat (SFsub prec emax f100 (SFdiv prec emax f f3_0)))))%res.

Definition total_deviation (p : plant) (t : template_doc) : Z :=
  Z.abs (get (hydration p) 0 - get (ideal_moisture t) 50)
  + Z.abs (get (sunlight p) 0 - get (ideal_light t) 50)
  + Z.abs (get (nutrition p) 0 - 60).

(** The valid range of a stat. *)
Definition in_range (z : Z) : Prop := 0 <= z <= 100.
Definition field_in_range (o : option Z) : Prop := forall v, o = Some v -> in_range v.

Definition stats_in_range (p : plant) : Prop :=
  field_in_range (hydration p) /\ field_in_range (nutrition p)
  /\ field_in_range (sunlight p) /\ field_in_range (health_score p).

Definition ideals_in_range (t : template_doc) : Prop :=
  field_in_range (ideal_moisture t) /\ field_in_range (ideal_light t).

(** The integers [lo, lo+1, ..., lo+n-1]. *)
Definition Zrange (lo : Z) (n : nat) : list Z := map (fun i => lo + Z.of_nat i) (seq 0 n).

Definition is_ok_with {A} (test : A -> bool) (r : result A) : bool :=
  match r with Ok a => test a | Raise _ => false end.

(** The two overwrites of [ingest_sensor], in the order of the source. *)
Definition sensor_update (data : SensorIn) (p : plant) : result plant :=
  (let* p :=
     match moisture data with
     | Some m => let* v := py_int (clamp (PyFloat m)) in Ok (set_hydration v p)
     | None => Ok p
     end in
   match light data with
   | Some l =>
       let* v := py_int (clamp (PyFloat (SFmul prec emax (SFdiv prec emax l f1000_0) f100))) in
       Ok (set_sunlight v p)
   | None => Ok p
   end)%res.

(** The bookkeeping at the end of a care action. *)
Definition log_action (action : CareAction) (xp_reward now : Z) (p : plant) : plant :=
  let entry := {| le_type := type action; le_value := 1;
                  le_xp_reward := xp_reward; le_date := now |} in
  set_updated_at now
    (set_last_action_date now
       (set_action_log (entry :: get (action_log p) []) p)).

(** What one successful engine operation does to the plant it is run
    on: a care action, a growth tick, or a sensor ingest. *)
Inductive engine_step : plant -> plant -> Prop :=
  | step_care p t pd pa xp_reward h action now :
      apply_decay p = Ok pd ->
      dispatch action pd = Ok (Some (pa, xp_reward)) ->
      compute_health pa t = Ok h ->
      engine_step p (log_action action xp_reward now (apply_growth (set_health_score h pa) t))
  | step_tick p t pd h now :
      apply_decay p = Ok pd ->
      compute_health pd t = Ok h ->
      engine_step p (set_updated_at now (apply_growth (set_health_score h pd) t))
  | step_sensor p t data ps h now :
      sensor_update data p = Ok ps ->
      compute_health ps t = Ok h ->
      engine_step p (set_updated_at now (apply_growth (set_health_score h ps) t)).

(** A request to one of the three endpoints of the engine. *)
Inductive request : Type :=
  | Care (plant_id : string) (action : CareAction)
  | Sensor (data : SensorIn)
  | Growth (user_id : string).

Definition handle (ObjectId : string -> option string) (r : request) (now : Z)
  : M response :=
  match r with
  | Care plant_id action => care_action ObjectId plant_id action now
  | Sensor data => ingest_sensor ObjectId data now
  | Growth user_id => run_growth ObjectId user_id now
  end.

(** The store after a sequence of requests, each with its instant. *)
Fixpoint run (ObjectId : string -> option string) (rs : list (request * Z))
  (d : store) : store :=
  match rs with
  | [] => d
  | (r, now) :: rs' => run ObjectId rs' (snd (handle ObjectId r now d))
  end.

(** The stage that [apply_growth] derives from the growth points. *)
Definition stage_of_points (gp : Z) : string :=
  if 500 <=? gp then "mature"
  else if 250 <=? gp then "juvenile"
  else if 100 <=? gp then "sprout"
  else "seed".

(** Position of a stage in seed < sprout < juvenile < mature. *)
Definition stage_rank (s : option string) : Z :=
  match s with
  | Some s =>
      if String.eqb s "mature" then 3
      else if String.eqb s "juvenile" then 2
      else if String.eqb s "sprout" then 1
      else 0
  | None => 0
  end.

(** The action types the dispatch knows. *)
Definition recognized (ty : string) : Prop :=
  ty = "water"%string \/ ty = "fertilize"%string \/ ty = "sunlight_add"%string
  \/ ty = "trim"%string \/ ty = "repot"%string.

(** [m * 2^e >= T] on the exact value, without leaving the integers. *)
Definition value_ge (m e T : Z) : Prop :=
  if 0 <=? e then T <= m * 2 ^ e else T * 2 ^ (- e) <= m.

(** A rounded non-negative magnitude is a zero, a finite float or an
    infinity of the requested sign, never a NaN. *)
Inductive signed_as (s : bool) : spec_float -> Prop :=
  | sa_zero : signed_as s (S754_zero s)
  | sa_inf : signed_as s (S754_infinity s)
  | sa_finite m e : signed_as s (S754_finite s m e).

(** Rounding to nearest is monotone against a threshold that is itself
    a float: a magnitude of at least [T] rounds to at least [T]. *)
Inductive at_least (T : Z) : spec_float -> Prop :=
  | al_inf : at_least T (S754_infinity false)
  | al_finite m e : value_ge (Z.pos m) e T -> at_least T (S754_finite false m e).

(** [l > 1000] on the exact value of a positive finite float. *)
Definition above_1000 (m : positive) (e : Z) : Prop :=
  if 0 <=? e then 1000 < Z.pos m * 2 ^ e else 1000 * 2 ^ (- e) < Z.pos m.

(** The normalisation of [ingest_sensor]: [int(clamp((light / 1000.0) * 100))] *)
Definition normalize_light (l : spec_float) : result Z :=
  py_int (clamp (PyFloat (SFmul prec emax (SFdiv prec emax l f1000_0) f100))).

Definition stage_consistent (p : plant) : Prop :=
  stage p = Some (stage_of_points (get (growth_points p) 0)).

(** The store a successful care action or sensor ingest leaves. *)
Definition store_after_care (d : store) (k : string) (p : plant) (u : string)
  (xp_reward : Z) : store :=
  {| userplants := <[k := p]> (userplants d);
     planttemplates := planttemplates d;
     users := alter (inc_xp xp_reward) u (users d);
     sensordata := sensordata d |}.

Definition store_after_sensor (d : store) (k : string) (p : plant)
  (doc : sensor_doc) : store :=
  {| userplants := <[k := p]> (userplants d);
     planttemplates := planttemplates d;
     users := users d;
     sensordata := sensordata d ++ [doc] |}.

Definition sensor_doc_of (data : SensorIn) (now : Z) : sensor_doc :=
  {| sd_plant := plant_id data; sd_moisture := moisture data;
     sd_temperature := temp data; sd_humidity := humidity data;
     sd_light := light data; sd_timestamp := now |}.

(** [template_data] in the answer of [get_plant]. *)
Definition template_data_of (p : plant) (t : option template_doc) : option template_doc :=
  if truthy (template p) then t else None.

(** [n] applications of [apply_decay] in a row. *)
Fixpoint decay_n (n : nat) (p : plant) : result plant :=
  match n with
  | O => Ok p
  | S n' => (let* q := decay_n n' p in apply_decay q)%res
  end.

(** Python [x == z] for a number and an int: equality of the values. *)
Definition same_value (x : num) (z : Z) : Prop :=
  match x with
  | PyInt y => y = z
  | PyFloat f => cmp_float_int f z = Some Eq
  end.

(** The doubles nearest to 45.7 and to 50.5. *)
Definition f45_7 : spec_float := Eval vm_compute in SFdiv prec emax (lit 457) (lit 10).
Definition f50_5 : spec_float := Eval vm_compute in SFdiv prec emax (lit 505) (lit 10).

(** The same reading with other temperature and humidity values. *)
Definition with_ambient (data : SensorIn) (temp' humidity' : option spec_float) : SensorIn :=
  {| plant_id := plant_id data; moisture := moisture data; temp := temp';
     light := light data; humidity := humidity' |}.

(** ** Notions used for the further properties *)

(** The store after a plant alone was written. *)
Definition store_plant_only (d : store) (k : string) (p : plant) : store :=
  {| userplants := <[k := p]> (userplants d);
     planttemplates := planttemplates d;
     users := users d;
     sensordata := sensordata d |}.

(** An outcome that is not a plant: an exception or an error answer. *)
Definition no_plant_answer (r : result response) : Prop :=
  match r with
  | Ok (PlantJSON _ _) => False
  | _ => True
  end.

(** The reward [care_action] pairs with an action type. *)
Definition reward_of (ty : string) : Z :=
  if String.eqb ty "water" then 5
  else if String.eqb ty "fertilize" then 7
  else if String.eqb ty "sunlight_add" then 4
  else if String.eqb ty "trim" then 6
  else if String.eqb ty "repot" then 10
  else 0.


(** The plant a request is addressed to: by id for a care action or a
    sensor reading, by owner for a growth run. *)
Definition addressed (ObjectId : string -> option string) (r : request)
  (k : string) (p : plant) : Prop :=
  match r with
  | Care id _ => oid ObjectId id = Ok k
  | Sensor data => oid ObjectId (plant_id data) = Ok k
  | Growth user_id => owner p = user_id
  end.

(** What a growth tick stores for a plant. *)
Definition tick (p : plant) (t : option template_doc) (now : Z) : result plant :=
  (let* pd := apply_decay p in
   let* h := compute_health pd t in
   Ok (set_updated_at now (apply_growth (set_health_score h pd) t)))%res.

(** The number of requests of a run that are sensor readings. *)
Fixpoint sensor_requests (rs : list (request * Z)) : nat :=
  match rs with
  | [] => 0
  | (Sensor _, _) :: rs' => S (sensor_requests rs')
  | _ :: rs' => sensor_requests rs'
  end.

(** ** Sample data

    The plant that [create_user_plant] inserts, one seeded template, and
    a store holding them; used to run the endpoints on concrete input. *)

Definition new_plant (owner_id template_id : string) : plant :=
  {| owner := owner_id; template := Some template_id; nickname := "Rosie";
     planted_on := 0; growth_points := Some 0;
     hydration := Some 50; nutrition := Some 50; sunlight := Some 50;
     health_score := Some 100; stage := Some "seed"%string;
     last_action_date := None; action_log := Some [];
     created_at := Some 0; updated_at := Some 0 |}.

(** The "Rose" entry of [seed_templates]. *)
Definition rose : template_doc :=
  {| template_name := Some "Rose"%string; scientific_name := Some "Rosa"%string;
     ideal_moisture := Some 60; ideal_light := Some 70;
     ideal_temperature := Some 22; growth_days := Some 180;
     instructions := Some "Water when top soil is dry. Needs bright light."%string;
     example_images := Some [] |}.

Definition demo_user : user :=
  {| name := "Demo Gardener"; email := "demo@plants.app"; xp := 0; level := 1;
     streak := 0; badges := [] |}.

Definition demo_store : store :=
  {| userplants := {[ "p1"%string := new_plant "u1" "t1" ]};
     planttemplates := {[ "t1"%string := rose ]};
     users := {[ "u1"%string := demo_user ]};
     sensordata := [] |}.

(** An [ObjectId] parser that accepts every string as its own key. *)
Definition any_id (s : string) : option string := Some s.

Definition reading (id : string) (m l : option spec_float) : SensorIn :=
  {| plant_id := id; moisture := m; temp := None; light := l; humidity := None |}.

Definition demo_requests : list (request * Z) :=
  [ (Care "p1" {| type := "water" |}, 1);
    (Sensor (reading "p1" None (Some (lit 500))), 2);
    (Growth "u1", 3);
    (Care "p1" {| type := "prune" |}, 4);
    (Care "p1" {| type := "repot" |}, 5) ].

(** A plant five points short of the sprout stage, whose stored health
    score (75) is not the one its stats give. *)
Definition seedling : plant :=
  {| owner := "u1"; template := Some "t1"%string; nickname := "Sprig";
     planted_on := 0; growth_points := Some 95;
     hydration := Some 50; nutrition := Some 50; sunlight := Some 50;
     health_score := Some 75; stage := Some "seed"%string;
     last_action_date := None; action_log := Some [];
     created_at := Some 0; updated_at := Some 0 |}.

Definition seedling_store : store :=
  {| userplants := {[ "p2"%string := seedling ]};
     planttemplates := {[ "t1"%string := rose ]};
     users := {[ "u1"%string := demo_user ]};
     sensordata := [] |}.

(** A plant whose template id names no document of [planttemplates],
    and one that carries no template reference at all. *)
Definition dangling_store : store :=
  {| userplants := {[ "p1"%string := new_plant "u1" "t9" ]};
     planttemplates := {[ "t1"%string := rose ]};
     users := {[ "u1"%string := demo_user ]};
     sensordata := [] |}.

Definition untemplated : plant :=
  {| owner := "u1"; template := None; nickname := "Stray";
     planted_on := 0; growth_points := Some 0;
     hydration := Some 50; nutrition := Some 50; sunlight := Some 50;
     health_score := Some 100; stage := Some "seed"%string;
     last_action_date := None; action_log := Some [];
     created_at := Some 0; updated_at := Some 0 |}.

Definition untemplated_store : store :=
  {| userplants := {[ "p3"%string := untemplated ]};
     planttemplates := {[ "t1"%string := rose ]};
     users := {[ "u1"%string := demo_user ]};
     sensordata := [] |}.

(** A store with two plants of one user, the second with a template id
    that names no template. *)
Definition mixed_store : store :=
  {| userplants := {[ "p1"%string := new_plant "u1" "t1";
                      "p9"%string := new_plant "u1" "t9" ]};
     planttemplates := {[ "t1"%string := rose ]};
     users := {[ "u1"%string := demo_user ]};
     sensordata := [] |}.

(** A store whose only plant names an owner that is no id. *)
Definition orphan_store : store :=
  {| userplants := {[ "p1"%string := new_plant "" "t1" ]};
     planttemplates := {[ "t1"%string := rose ]};
     users := {[ "u1"%string := demo_user ]};
     sensordata := [] |}.

(** A store whose only plant belongs to a user that is not stored. *)
Definition ownerless_store : store :=
  {| userplants := {[ "p1"%string := new_plant "u7" "t1" ]};
     planttemplates := {[ "t1"%string := rose ]};
     users := {[ "u1"%string := demo_user ]};
     sensordata := [] |}.

(** ** Notions for creation, listing and chat *)

(** The document [create_user_plant] inserts for the user under [ku]
    and the template under [kt]. *)
Definition created_doc (ku kt : string) (payload : PlantCreate.t) (now : Z) : plant :=
  {| owner := ku; template := Some kt;
     nickname := PlantCreate.nickname payload;
     planted_on := now; growth_points := Some 0;
     hydration := Some 50; nutrition := Some 50; sunlight := Some 50;
     health_score := Some 100; stage := Some "seed"%string;
     last_action_date := None; action_log := Some [];
     created_at := Some now; updated_at := Some now |}.

(** [str] of an id parses back to that id, and the empty string is no
    id. *)
Definition ids_round_trip (ObjectId : string -> option string) : Prop :=
  (forall s k, ObjectId s = Some k -> ObjectId k = Some k)
  /\ ObjectId ""%string = None.

(** An [ObjectId] parser that accepts every string but the empty one. *)
Definition nonempty_id (s : string) : option string :=
  if String.eqb s "" then None else Some s.

(** A request to plant a rose. *)
Definition rosie : PlantCreate.t :=
  {| PlantCreate.user_id := "u1"; PlantCreate.template_id := "t1";
     PlantCreate.nickname := "Rosie" |}.

(** The last tip of [ai_chat], given when no other applies. *)
Definition doing_great : string :=
  "Your plant is doing great! Keep up the consistent care.".

(** No condition of [ai_chat] holds: the plant needs nothing. *)
Definition content (p : plant) (tmpl : template_doc) : Prop :=
  get (ideal_moisture tmpl) 50 - 10 <= get (hydration p) 0
  /\ 50 <= get (nutrition p) 0
  /\ get (ideal_light tmpl) 60 - 10 <= get (sunlight p) 0
  /\ 70 <= get (health_score p) 100.

(** The stat a care action is aimed at, if it is aimed at one. *)
Definition target_stat (ty : string) (p : plant) : option Z :=
  if String.eqb ty "water" then hydration p
  else if String.eqb ty "fertilize" then nutrition p
  else if String.eqb ty "sunlight_add" then sunlight p
  else None.

(** What the action adds to its stat, net of the decay before it, when
    decay takes its full toll (5, 2, and at most 5 of sunlight). *)
Definition net_gain (ty : string) : Z :=
  if String.eqb ty "water" then 15
  else if String.eqb ty "fertilize" then 13
  else if String.eqb ty "sunlight_add" then 5
  else 0.
(** * Supporting lemmas *)

(** ** [clamp] and [int] *)

Lemma int_clamp_eq (z : Z) : int_clamp z = Ok (Z.max 0 (Z.min 100 z)).
Proof.
  unfold int_clamp, clamp, clamp_in, py_max, py_min, num_gt, num_lt, py_int.
  destruct (z <? 100) eqn:Hhi.
  - apply Z.ltb_lt in Hhi.
    destruct (0 <? z) eqn:Hlo.
    + apply Z.ltb_lt in Hlo. f_equal. lia.
    + apply Z.ltb_ge in Hlo. f_equal. lia.
  - apply Z.ltb_ge in Hhi. simpl. f_equal. lia.
Qed.

Lemma clamp_float_cases (f : spec_float) :
  (clamp (PyFloat f) = PyInt 100 /\ num_lt (PyFloat f) (PyInt 100) = false)
  \/ (clamp (PyFloat f) = PyInt 0 /\ num_lt (PyFloat f) (PyInt 100) = true
      /\ num_lt (PyInt 0) (PyFloat f) = false)
  \/ (clamp (PyFloat f) = PyFloat f /\ num_lt (PyFloat f) (PyInt 100) = true
      /\ num_lt (PyInt 0) (PyFloat f) = true).
Proof.
  unfold clamp, clamp_in, py_max, py_min, num_gt.
  destruct (num_lt (PyFloat f) (PyInt 100)) eqn:Hhi.
  - destruct (num_lt (PyInt 0) (PyFloat f)) eqn:Hlo; auto.
  - left. split; reflexivity.
Qed.

Lemma py_int_open_interval (f : spec_float) :
  num_lt (PyFloat f) (PyInt 100) = true ->
  num_lt (PyInt 0) (PyFloat f) = true ->
  exists v, py_int (PyFloat f) = Ok v /\ 0 <= v < 100.
Proof.
  unfold num_lt, cmp_float_int, py_int.
  destruct f as [s|s| |s m e]; simpl.
  - discriminate.
  - destruct s; discriminate.
  - discriminate.
  - destruct (0 <=? e) eqn:He.
    + apply Z.leb_le in He.
      destruct (signed s m * 2 ^ e ?= 100) eqn:Hhi; try discriminate.
      destruct (signed s m * 2 ^ e ?= 0) eqn:Hlo; try discriminate.
      intros _ _. rewrite Z.compare_lt_iff in Hhi. rewrite Z.compare_gt_iff in Hlo.
      assert (0 < 2 ^ e) by (apply Z.pow_pos_nonneg; lia).
      destruct s; unfold signed in *.
      * exfalso. pose proof (Z.mul_neg_pos (Z.neg m) (2 ^ e) (Pos2Z.neg_is_neg m) H). lia.
      * eexists; split; [reflexivity|lia].
    + apply Z.leb_gt in He.
      destruct (signed s m ?= 100 * 2 ^ (- e)) eqn:Hhi; try discriminate.
      destruct (signed s m ?= 0 * 2 ^ (- e)) eqn:Hlo; try discriminate.
      intros _ _. rewrite Z.compare_lt_iff in Hhi. rewrite Z.compare_gt_iff in Hlo.
      assert (0 < 2 ^ (- e)) by (apply Z.pow_pos_nonneg; lia).
      destruct s; unfold signed in *.
      * exfalso. pose proof (Pos2Z.neg_is_neg m). lia.
      * eexists; split; [reflexivity|].
        split; [apply Z.div_pos; lia|].
        apply Z.div_lt_upper_bound; lia.
Qed.

Lemma py_int_clamp_float (f : spec_float) :
  exists v, py_int (clamp (PyFloat f)) = Ok v /\ 0 <= v <= 100.
Proof.
  destruct (clamp_float_cases f) as [[-> _]|[[-> _]|[-> [Hhi Hlo]]]].
  - exists 100. split; [reflexivity|lia].
  - exists 0. split; [reflexivity|lia].
  - destruct (py_int_open_interval f Hhi Hlo) as [v [Hv Hr]].
    exists v. split; [assumption|lia].
Qed.
(** ** Binary64 rounding: shifts and digit counts *)



Lemma shr_1_m (mrs : shr_record) :
  0 <= shr_m mrs -> shr_m (shr_1 mrs) = shr_m mrs / 2.
Proof.
  destruct mrs as [m r s]; simpl. intros Hm.
  destruct m as [|p|p]; [reflexivity| |lia].
  destruct p as [p|p|]; simpl.
  - rewrite (Pos2Z.inj_xI p). apply Z.div_unique with (r := 1); lia.
  - rewrite (Pos2Z.inj_xO p). apply Z.div_unique with (r := 0); lia.
  - reflexivity.
Qed.

Lemma iter_shr_1_m (p : positive) : forall mrs,
  0 <= shr_m mrs ->
  shr_m (SpecFloat.iter_pos shr_1 p mrs) = shr_m mrs / 2 ^ Z.pos p.
Proof.
  assert (Hnn : forall x, 0 <= x -> 0 <= x / 2) by (intros; apply Z.div_pos; lia).
  assert (Hpp : forall q x, 0 <= x -> 0 <= x / 2 ^ Z.pos q).
  { intros q x Hx. apply Z.div_pos; [lia|]. apply Z.pow_pos_nonneg; lia. }
  induction p as [p IH|p IH|]; intros mrs Hm; cbn [SpecFloat.iter_pos];
    try (assert (Hp2 : 0 < 2 ^ Z.pos p) by (apply Z.pow_pos_nonneg; lia)).
  - rewrite IH by (rewrite IH by (rewrite shr_1_m by lia; auto); rewrite shr_1_m by lia; auto).
    rewrite IH by (rewrite shr_1_m by lia; auto).
    rewrite shr_1_m by lia.
    rewrite !Z.div_div by lia.
    f_equal. rewrite (Pos2Z.inj_xI p).
    replace (2 * Z.pos p + 1) with (1 + Z.pos p + Z.pos p) by lia.
    rewrite !Z.pow_add_r by lia. lia.
  - rewrite IH by (rewrite IH by lia; auto).
    rewrite IH by lia.
    rewrite !Z.div_div by lia.
    f_equal. rewrite <- Z.pow_add_r by lia. f_equal. lia.
  - rewrite shr_1_m by lia. reflexivity.
Qed.


Lemma digits2_pos_lower (p : positive) :
  2 ^ (Z.pos (digits2_pos p) - 1) <= Z.pos p.
Proof.
  induction p as [p IH|p IH|]; simpl digits2_pos.
  - rewrite Pos2Z.inj_succ, (Pos2Z.inj_xI p).
    replace (Z.succ (Z.pos (digits2_pos p)) - 1) with (1 + (Z.pos (digits2_pos p) - 1)) by lia.
    rewrite Z.pow_add_r by lia. lia.
  - rewrite Pos2Z.inj_succ, (Pos2Z.inj_xO p).
    replace (Z.succ (Z.pos (digits2_pos p)) - 1) with (1 + (Z.pos (digits2_pos p) - 1)) by lia.
    rewrite Z.pow_add_r by lia. lia.
  - simpl. lia.
Qed.


Lemma value_ge_pos m e T : 0 < T -> value_ge m e T -> 0 < m.
Proof.
  unfold value_ge. intros HT.
  destruct (0 <=? e) eqn:He.
  - apply Z.leb_le in He. intros H.
    assert (0 < 2 ^ e) by (apply Z.pow_pos_nonneg; lia). nia.
  - apply Z.leb_gt in He. intros H.
    assert (0 < 2 ^ (- e)) by (apply Z.pow_pos_nonneg; lia). nia.
Qed.

Lemma value_ge_mono m m' e T : m <= m' -> value_ge m e T -> value_ge m' e T.
Proof.
  unfold value_ge. intros Hm.
  destruct (0 <=? e) eqn:He.
  - apply Z.leb_le in He. intros H.
    assert (0 < 2 ^ e) by (apply Z.pow_pos_nonneg; lia). nia.
  - lia.
Qed.

Lemma shr_fexp_value_ge (m e : Z) (l : location) (T : Z) :
  0 < T <= 2 ^ 53 ->
  value_ge m e T ->
  value_ge (shr_m (fst (shr_fexp prec emax m e l))) (snd (shr_fexp prec emax m e l)) T.
Proof.
  intros HT Hv. pose proof (value_ge_pos _ _ _ (proj1 HT) Hv) as Hm.
  unfold shr_fexp, shr.
  destruct (fexp prec emax (Zdigits2 m + e) - e) as [|n|n] eqn:Hn; simpl;
    try (destruct l as [|[]]; exact Hv).
  rewrite iter_shr_1_m by (destruct l as [|[]]; simpl; lia).
  replace (shr_m (shr_record_of_loc m l)) with m by (destruct l as [|[]]; reflexivity).
  destruct m as [|p|p]; try lia. simpl Zdigits2 in Hn.
  pose proof (digits2_pos_lower p) as Hd.
  set (d := Z.pos (digits2_pos p)) in *.
  assert (Hpow : 0 < 2 ^ Z.pos n) by (apply Z.pow_pos_nonneg; lia).
  unfold value_ge in *. unfold fexp, emin, prec, emax in Hn.
  destruct (0 <=? e + Z.pos n) eqn:He1.
  - apply Z.leb_le in He1.
    (* the new exponent is non-negative: the mantissa keeps 53 digits *)
    assert (Hnd : Z.pos n = d - 53) by lia.
    assert (Hq : 2 ^ 52 <= Z.pos p / 2 ^ Z.pos n).
    { apply Z.div_le_lower_bound; [lia|].
      rewrite <- Z.pow_add_r by lia.
      replace (Z.pos n + 52) with (d - 1) by lia. exact Hd. }
    assert (0 < 2 ^ (e + Z.pos n)) by (apply Z.pow_pos_nonneg; lia).
    change (2 ^ 53) with (2 ^ 52 * 2) in HT.
    destruct (Z.eq_dec (e + Z.pos n) 0) as [E0|E0].
    + (* exponent exactly 0 *)
      rewrite E0, Z.pow_0_r, Z.mul_1_r.
      destruct (0 <=? e) eqn:He; [apply Z.leb_le in He; lia|].
      apply Z.leb_gt in He.
      apply Z.div_le_lower_bound; [lia|].
      replace (- e) with (Z.pos n) in Hv by lia. lia.
    + assert (2 <= 2 ^ (e + Z.pos n)).
      { replace (e + Z.pos n) with (1 + (e + Z.pos n - 1)) by lia.
        rewrite Z.pow_add_r by lia.
        assert (0 < 2 ^ (e + Z.pos n - 1)) by (apply Z.pow_pos_nonneg; lia). lia. }
      nia.
  - apply Z.leb_gt in He1.
    destruct (0 <=? e) eqn:He; [apply Z.leb_le in He; lia|].
    apply Z.div_le_lower_bound; [lia|].
    replace (- e) with (Z.pos n + - (e + Z.pos n)) in Hv by lia.
    rewrite Z.pow_add_r in Hv by lia. lia.
Qed.


(** ** Rounding keeps the sign and a float lower bound *)
Lemma round_nearest_even_ge (m : Z) (l : location) : m <= round_nearest_even m l.
Proof.
  destruct l as [|[]]; simpl; try lia.
  destruct (Z.even m); lia.
Qed.

Lemma shr_fexp_nonneg (m e : Z) (l : location) :
  0 <= m -> 0 <= shr_m (fst (shr_fexp prec emax m e l)).
Proof.
  intros Hm. unfold shr_fexp, shr.
  assert (Hrec : shr_m (shr_record_of_loc m l) = m) by (destruct l as [|[]]; reflexivity).
  destruct (fexp prec emax (Zdigits2 m + e) - e) as [|n|n]; simpl; try lia.
  rewrite iter_shr_1_m by lia. rewrite Hrec.
  apply Z.div_pos; [lia|]. apply Z.pow_pos_nonneg; lia.
Qed.


Lemma binary_round_aux_sign (s : bool) (m e : Z) (l : location) :
  0 <= m -> signed_as s (binary_round_aux prec emax s m e l).
Proof.
  intros Hm. unfold binary_round_aux.
  pose proof (shr_fexp_nonneg m e l Hm) as H1.
  destruct (shr_fexp prec emax m e l) as [mrs' e'] eqn:E1. simpl in H1.
  pose proof (round_nearest_even_ge (shr_m mrs') (loc_of_shr_record mrs')) as H2.
  pose proof (shr_fexp_nonneg (round_nearest_even (shr_m mrs') (loc_of_shr_record mrs'))
                e' loc_Exact ltac:(lia)) as H3.
  destruct (shr_fexp prec emax _ e' loc_Exact) as [mrs'' e''] eqn:E2. simpl in H3.
  destruct (shr_m mrs'') as [|p|p]; try lia.
  - constructor.
  - destruct (e'' <=? emax - prec); constructor.
Qed.


Lemma binary_round_aux_at_least (m e : Z) (l : location) (T : Z) :
  0 < T <= 2 ^ 53 ->
  value_ge m e T ->
  at_least T (binary_round_aux prec emax false m e l).
Proof.
  intros HT Hv. unfold binary_round_aux.
  pose proof (shr_fexp_value_ge m e l T HT Hv) as H1.
  destruct (shr_fexp prec emax m e l) as [mrs' e'] eqn:E1. simpl in H1.
  pose proof (round_nearest_even_ge (shr_m mrs') (loc_of_shr_record mrs')) as H2.
  pose proof (shr_fexp_value_ge _ e' loc_Exact T HT (value_ge_mono _ _ _ _ H2 H1)) as H3.
  destruct (shr_fexp prec emax _ e' loc_Exact) as [mrs'' e''] eqn:E2. simpl in H3.
  pose proof (value_ge_pos _ _ _ (proj1 HT) H3) as Hp.
  destruct (shr_m mrs'') as [|p|p]; try lia.
  destruct (e'' <=? emax - prec); constructor. exact H3.
Qed.


(** ** Saturation of the light normalisation *)
Lemma pow2_pos (a : Z) : 0 <= a -> 0 < 2 ^ a.
Proof. intros. apply Z.pow_pos_nonneg; lia. Qed.

Lemma div_1000_at_least_1 (m : positive) (e : Z) :
  above_1000 m e ->
  at_least 1 (SFdiv prec emax (S754_finite false m e) f1000_0).
Proof.
  intros Hx. unfold f1000_0, SFdiv, SFdiv_core_binary.
  change (Zdigits2 8796093022208000) with 53.
  cbn [Zdigits2].
  pose proof (digits2_pos_lower m) as Hd.
  set (d := Z.pos (digits2_pos m)) in *.
  set (e' := Z.min (fexp prec emax (d + e - (53 + -43))) (e - -43)).
  set (s := e - -43 - e').
  set (m' := match s with Z.pos _ => Z.shiftl (Z.pos m) s | 0 => Z.pos m | Z.neg _ => 0 end).
  assert (Hs : 0 <= s) by (unfold s, e'; lia).
  assert (Hse : s = e + 43 - e') by (unfold s; lia).
  assert (He'b : e' <= e + 43) by (unfold e'; lia).
  assert (Hfe' : e' <= Z.max (d + e - 63) (- 1074)).
  { unfold e', fexp, emin, prec, emax. lia. }
  clearbody e' s.
  assert (Hm' : m' = Z.pos m * 2 ^ s).
  { unfold m'. destruct s as [|p|p]; try lia.
    rewrite Z.shiftl_mul_pow2 by lia. reflexivity. }
  clearbody m'.
  destruct (Z.div_eucl m' 8796093022208000) as [q r] eqn:Eq.
  assert (Hq : q = m' / 8796093022208000) by (unfold Z.div; rewrite Eq; reflexivity).
  cbn [xorb].
  apply binary_round_aux_at_least.
  { split; [lia|]. change (2 ^ 53) with 9007199254740992. lia. }
  pose proof (pow2_pos s Hs) as Hps.
  unfold value_ge. rewrite Z.mul_1_l.
  destruct (0 <=? e') eqn:He'.
  - (* the quotient keeps a non-negative exponent: the dividend has
       more than a hundred digits *)
    apply Z.leb_le in He'.
    assert (Hfe : e' <= d + e - 63) by lia.
    assert (Hbig : 2 ^ 105 <= m').
    { rewrite Hm'.
      destruct (Z_lt_le_dec d 106) as [Hlt|Hge].
      - assert (Hs' : 106 - d <= s) by lia.
        assert (2 ^ (106 - d) <= 2 ^ s) by (apply Z.pow_le_mono_r; lia).
        assert (0 < d) by (unfold d; lia).
        assert (2 ^ 105 = 2 ^ (d - 1) * 2 ^ (106 - d)).
        { rewrite <- Z.pow_add_r by lia. f_equal. lia. }
        pose proof (pow2_pos (d - 1) ltac:(lia)). nia.
      - assert (2 ^ 105 <= 2 ^ (d - 1)) by (apply Z.pow_le_mono_r; lia).
        nia. }
    assert (1 <= q).
    { rewrite Hq. apply Z.div_le_lower_bound; [lia|]. 
      change (2 ^ 105) with 40564819207303340847894502572032 in Hbig. lia. }
    pose proof (pow2_pos e' He'). nia.
  - apply Z.leb_gt in He'.
    rewrite Hq. apply Z.div_le_lower_bound; [lia|].
    rewrite Hm'. unfold above_1000 in Hx.
    destruct (Z_le_gt_dec 0 (e + 43)) as [HE|HE].
    + (* m * 2^(e+43) > 1000 * 2^43 *)
      assert (Hk : 8796093022208000 < Z.pos m * 2 ^ (e + 43)).
      { destruct (0 <=? e) eqn:He.
        - apply Z.leb_le in He. rewrite Z.pow_add_r by lia.
          change (2 ^ 43) with 8796093022208 in *. nia.
        - apply Z.leb_gt in He.
          assert (2 ^ 43 = 2 ^ (- e) * 2 ^ (e + 43)).
          { rewrite <- Z.pow_add_r by lia. f_equal. lia. }
          pose proof (pow2_pos (e + 43) HE).
          change (2 ^ 43) with 8796093022208 in *. nia. }
      replace s with ((e + 43) + - e') by lia.
      rewrite Z.pow_add_r by lia.
      pose proof (pow2_pos (- e') ltac:(lia)). nia.
    + destruct (0 <=? e) eqn:He; [apply Z.leb_le in He; lia|].
      assert (2 ^ (- e) = 2 ^ 43 * 2 ^ (- (e + 43))).
      { rewrite <- Z.pow_add_r by lia. f_equal. lia. }
      replace (- e') with (- (e + 43) + s) by lia.
      rewrite Z.pow_add_r by lia.
      change (2 ^ 43) with 8796093022208 in *. nia.
Qed.

Lemma mul_100_at_least_100 (f : spec_float) :
  at_least 1 f -> at_least 100 (SFmul prec emax f f100).
Proof.
  intros [|m e Hv]; [constructor|].
  unfold f100, SFmul. cbn [xorb].
  apply binary_round_aux_at_least.
  { split; [lia|]. change (2 ^ 53) with 9007199254740992. lia. }
  rewrite Pos2Z.inj_mul.
  unfold value_ge in *. rewrite Z.mul_1_l in Hv.
  destruct (0 <=? e) eqn:He.
  - apply Z.leb_le in He. clear Hv.
    destruct (0 <=? e + -46) eqn:He2.
    + apply Z.leb_le in He2. pose proof (pow2_pos _ He2). nia.
    + apply Z.leb_gt in He2.
      assert (2 ^ (- (e + -46)) <= 2 ^ 46) by (apply Z.pow_le_mono_r; lia).
      change (2 ^ 46) with 70368744177664 in *. nia.
  - apply Z.leb_gt in He.
    destruct (0 <=? e + -46) eqn:He2; [apply Z.leb_le in He2; lia|].
    replace (- (e + -46)) with (46 + - e) by lia.
    rewrite Z.pow_add_r by lia.
    change (2 ^ 46) with 70368744177664 in *. nia.
Qed.

Lemma at_least_100_clamp (f : spec_float) :
  at_least 100 f -> clamp (PyFloat f) = PyInt 100.
Proof.
  intros H.
  destruct (clamp_float_cases f) as [[-> _]|[[_ [Hhi _]]|[_ [Hhi _]]]];
    [reflexivity| |]; exfalso;
    destruct H as [|m e Hv]; unfold num_lt, cmp_float_int, value_ge, signed in *;
    try discriminate;
    destruct (0 <=? e);
    match type of Hhi with
    | context [?a ?= ?b] => destruct (Z.compare_spec a b); try discriminate; lia
    end.
Qed.



Lemma SFdiv_signed (s : bool) (m : positive) (e : Z) (my : positive) (ey : Z) :
  signed_as s (SFdiv prec emax (S754_finite s m e) (S754_finite false my ey)).
Proof.
  unfold SFdiv, SFdiv_core_binary.
  set (e' := Z.min _ _). set (sh := e - ey - e').
  set (m' := match sh with Z.pos _ => Z.shiftl (Z.pos m) sh | 0 => Z.pos m | Z.neg _ => 0 end).
  assert (Hm' : 0 <= m').
  { unfold m'. destruct sh; try lia. apply Z.shiftl_nonneg. lia. }
  clearbody m'.
  destruct (Z.div_eucl m' (Z.pos my)) as [q r] eqn:Eq.
  assert (Hq : q = m' / Z.pos my) by (unfold Z.div; rewrite Eq; reflexivity).
  replace (xorb s false) with s by (destruct s; reflexivity).
  apply binary_round_aux_sign. rewrite Hq. apply Z.div_pos; lia.
Qed.

Lemma SFmul_signed (s : bool) (f : spec_float) (my : positive) (ey : Z) :
  signed_as s f -> signed_as s (SFmul prec emax f (S754_finite false my ey)).
Proof.
  intros [| |m e]; unfold SFmul;
    replace (xorb s false) with s by (destruct s; reflexivity);
    try constructor.
  apply binary_round_aux_sign. lia.
Qed.

Lemma negative_clamp (f : spec_float) :
  signed_as true f -> clamp (PyFloat f) = PyInt 0.
Proof.
  intros H.
  destruct (clamp_float_cases f) as [[_ Hhi]|[[-> _]|[_ [_ Hlo]]]];
    [|reflexivity|]; exfalso;
    destruct H as [| |m e]; unfold num_lt, cmp_float_int, signed in *;
    try discriminate.
  - destruct (0 <=? e) eqn:He.
    + apply Z.leb_le in He. pose proof (pow2_pos e He).
      destruct (Z.compare_spec (Z.neg m * 2 ^ e) 100); try discriminate; nia.
    + apply Z.leb_gt in He. pose proof (pow2_pos (- e) ltac:(lia)).
      destruct (Z.compare_spec (Z.neg m) (100 * 2 ^ (- e))); try discriminate; nia.
  - destruct (0 <=? e) eqn:He.
    + apply Z.leb_le in He. pose proof (pow2_pos e He).
      destruct (Z.compare_spec (Z.neg m * 2 ^ e) 0); try discriminate; nia.
    + destruct (Z.compare_spec (Z.neg m) (0 * 2 ^ (- e))); try discriminate; lia.
Qed.


Lemma normalize_light_above (l : spec_float) :
  num_lt (PyInt 1000) (PyFloat l) = true -> normalize_light l = Ok 100.
Proof.
  intros Hl. unfold normalize_light.
  rewrite at_least_100_clamp; [reflexivity|].
  apply mul_100_at_least_100.
  unfold num_lt, cmp_float_int in Hl.
  destruct l as [s|s| |s m e]; try discriminate.
  - destruct s; [discriminate|]. constructor.
  - destruct s.
    + exfalso. unfold signed in Hl. destruct (0 <=? e) eqn:He.
      * apply Z.leb_le in He. pose proof (pow2_pos e He).
        destruct (Z.compare_spec (Z.neg m * 2 ^ e) 1000); try discriminate; nia.
      * apply Z.leb_gt in He. pose proof (pow2_pos (- e) ltac:(lia)).
        destruct (Z.compare_spec (Z.neg m) (1000 * 2 ^ (- e))); try discriminate; nia.
    + apply div_1000_at_least_1. unfold above_1000, signed in *.
      destruct (0 <=? e).
      * destruct (Z.compare_spec (Z.pos m * 2 ^ e) 1000); try discriminate; lia.
      * destruct (Z.compare_spec (Z.pos m) (1000 * 2 ^ (- e))); try discriminate; lia.
Qed.

Lemma normalize_light_below (l : spec_float) :
  num_lt (PyFloat l) (PyInt 0) = true -> normalize_light l = Ok 0.
Proof.
  intros Hl. unfold normalize_light.
  rewrite negative_clamp; [reflexivity|].
  unfold f100. apply SFmul_signed.
  unfold num_lt, cmp_float_int in Hl.
  destruct l as [s|s| |s m e]; try discriminate.
  - destruct s; [|discriminate]. constructor.
  - destruct s.
    + unfold f1000_0. apply SFdiv_signed.
    + exfalso. unfold signed in Hl. destruct (0 <=? e) eqn:He.
      * apply Z.leb_le in He. pose proof (pow2_pos e He).
        destruct (Z.compare_spec (Z.pos m * 2 ^ e) 0); try discriminate; nia.
      * destruct (Z.compare_spec (Z.pos m) (0 * 2 ^ (- e))); try discriminate; lia.
Qed.


(** ** Exhaustive checks on the range of a stat *)

Lemma Zrange_forallb (P : Z -> bool) (lo : Z) (n : nat) :
  forallb P (Zrange lo n) = true ->
  forall z, lo <= z < lo + Z.of_nat n -> P z = true.
Proof.
  intros H z Hz. rewrite forallb_forall in H. apply H.
  unfold Zrange. apply in_map_iff. exists (Z.to_nat (z - lo)).
  split; [lia|]. apply in_seq. lia.
Qed.

Lemma is_ok_with_inv {A} (test : A -> bool) (r : result A) :
  is_ok_with test r = true -> exists a, r = Ok a /\ test a = true.
Proof. destruct r as [a|e]; simpl; [eauto|discriminate]. Qed.

(** On [0..100] the binary64 product and [round] agree with the exact
    rule: a value of at most 10 is kept, a larger one drops but not
    below 10. *)
Lemma decay_sunlight_spec (s : Z) :
  0 <= s <= 100 ->
  exists s', decay_sunlight s = Ok s'
    /\ (s <= 10 -> s' = s) /\ (10 < s -> 10 <= s' < s).
Proof.
  intros Hs.
  pose proof (Zrange_forallb
    (fun s => is_ok_with (fun s' => if s <=? 10 then s' =? s else (10 <=? s') && (s' <? s))
                         (decay_sunlight s)) 0 101 ltac:(vm_compute; reflexivity) s ltac:(lia)) as H.
  apply is_ok_with_inv in H. destruct H as [s' [E H]]. exists s'. split; [exact E|].
  destruct (s <=? 10) eqn:C.
  - apply Z.leb_le in C. apply Z.eqb_eq in H. lia.
  - apply Z.leb_gt in C. apply andb_true_iff in H. destruct H as [H1 H2].
    apply Z.leb_le in H1. apply Z.ltb_lt in H2. lia.
Qed.

(** On the totals an in-range plant and template can produce, the
    binary64 score truncates to [100 - ceil(total / 3)]. *)
Lemma health_of_total_spec (total : Z) :
  0 <= total <= 300 -> health_of_total total = Ok (100 - (total + 2) / 3).
Proof.
  intros Ht.
  pose proof (Zrange_forallb
    (fun t => is_ok_with (fun h => h =? 100 - (t + 2) / 3) (health_of_total t))
    0 301 ltac:(vm_compute; reflexivity) total ltac:(lia)) as H.
  apply is_ok_with_inv in H. destruct H as [h [E H]].
  apply Z.eqb_eq in H. congruence.
Qed.

(** The literal [0.95] is the double 0x3FEE666666666666, a little below
    0.95; [50 * 0.95] is exactly 47.5 and rounds to the even 48, while
    [(290 / 1000.0) * 100] falls just short of 29. *)
Example f0_95_bits : f0_95 = S754_finite false 8556839292003942 (-53).
Proof. reflexivity. Qed.

Example decay_sunlight_50 : decay_sunlight 50 = Ok 48.
Proof. vm_compute. reflexivity. Qed.

Example decay_sunlight_10 : decay_sunlight 10 = Ok 10.
Proof. vm_compute. reflexivity. Qed.

Example normalize_light_290 : normalize_light (lit 290) = Ok 28.
Proof. vm_compute. reflexivity. Qed.

Lemma decay_sunlight_range (s s' : Z) : decay_sunlight s = Ok s' -> in_range s'.
Proof.
  unfold decay_sunlight, rbind.
  destruct (float_of_int s); [|discriminate].
  destruct (py_round _); [|discriminate].
  rewrite int_clamp_eq. intros [= <-]. unfold in_range. lia.
Qed.

Lemma health_of_total_range (total h : Z) : health_of_total total = Ok h -> in_range h.
Proof.
  unfold health_of_total, rbind.
  destruct (float_of_int total) as [f|]; [|discriminate].
  destruct (py_int_clamp_float (SFsub prec emax f100 (SFdiv prec emax f f3_0))) as [v [E Hv]].
  rewrite E. intros [= <-]. exact Hv.
Qed.

Lemma compute_health_total (p : plant) (t : template_doc) :
  compute_health p (Some t) = health_of_total (total_deviation p t).
Proof. reflexivity. Qed.

Lemma compute_health_range (p : plant) (t : option template_doc) (h : Z) :
  compute_health p t = Ok h -> in_range h.
Proof.
  destruct t as [t|]; [|discriminate].
  rewrite compute_health_total. apply health_of_total_range.
Qed.

Lemma apply_decay_eq (p : plant) :
  apply_decay p =
  (let* s' := decay_sunlight (get (sunlight p) 0) in
   Ok (set_sunlight s' (set_nutrition (clampZ (get (nutrition p) 0 - 2))
                          (set_hydration (clampZ (get (hydration p) 0 - 5)) p))))%res.
Proof.
  unfold apply_decay, decay_sunlight.
  rewrite int_clamp_eq. cbn [rbind]. cbn [nutrition sunlight set_hydration].
  rewrite int_clamp_eq. cbn [rbind]. cbn [nutrition sunlight set_nutrition].
  destruct (float_of_int _); [|reflexivity]. cbn [rbind].
  destruct (py_round _) as [r|]; [|reflexivity]. cbn [rbind].
  rewrite int_clamp_eq. reflexivity.
Qed.

(** ** Endpoints and the store *)

(** Replay the equations already known about the stages of an endpoint. *)
Ltac eval_with_eqs :=
  repeat (match goal with
          | H : ?x = _ |- context [match ?x with _ => _ end] => rewrite H
          end; cbv beta iota).
Ltac care_eval :=
  unfold care_action, bind, lift, read, ret; eval_with_eqs; reflexivity.

Ltac sensor_eval :=
  unfold ingest_sensor, bind, lift, read, ret; eval_with_eqs; reflexivity.

Ltac loop_eval :=
  cbn [growth_loop]; unfold bind, lift, read, ret; eval_with_eqs.

Section StoreLemmas.

Variable ObjectId : string -> option string.

Lemma find_template_store (p : plant) (o : option template_doc) (d : store) :
  snd (find_template ObjectId p o d) = d.
Proof.
  unfold find_template. destruct (truthy (template p)); [|reflexivity].
  unfold bind, lift, read, ret. destruct (oid ObjectId _); reflexivity.
Qed.

Lemma get_plant_store (id : string) (d : store) :
  snd (get_plant ObjectId id d) = d.
Proof.
  unfold get_plant, bind, lift, read, ret.
  destruct (oid ObjectId id) as [k|]; [|reflexivity].
  destruct (userplants d !! k) as [doc|]; [|reflexivity].
  pose proof (find_template_store doc None d) as H.
  destruct (find_template ObjectId doc None d) as [[t|e] d']; simpl in H; subst; reflexivity.
Qed.

Lemma update_plant_userplants (k : string) (p p0 : plant) (d : store) :
  userplants d !! k = Some p0 ->
  userplants (snd (update_plant k p d)) = <[k := p]> (userplants d).
Proof. intros H. unfold update_plant. simpl. rewrite H. reflexivity. Qed.

(** A care action either leaves [userplants] as it was or replaces one
    plant by the outcome of a care step on it. *)
Lemma care_action_userplants (id : string) (a : CareAction) (now : Z) (d : store) :
  userplants (snd (care_action ObjectId id a now d)) = userplants d
  \/ exists k p t pd pa xp_reward h,
       oid ObjectId id = Ok k /\ userplants d !! k = Some p
       /\ fst (find_template ObjectId p (Some empty_dict) d) = Ok t
       /\ apply_decay p = Ok pd
       /\ dispatch a pd = Ok (Some (pa, xp_reward))
       /\ compute_health pa t = Ok h
       /\ userplants (snd (care_action ObjectId id a now d))
          = <[k := log_action a xp_reward now (apply_growth (set_health_score h pa) t)]>
              (userplants d).
Proof.
  destruct (oid ObjectId id) as [k|] eqn:Ek; [|left; care_eval].
  destruct (userplants d !! k) as [p|] eqn:Ep; [|left; care_eval].
  pose proof (find_template_store p (Some empty_dict) d) as Hs.
  destruct (find_template ObjectId p (Some empty_dict) d) as [[t|e] d'] eqn:Et;
    simpl in Hs; subst d'; [|left; care_eval].
  destruct (apply_decay p) as [pd|] eqn:Ed; [|left; care_eval].
  destruct (dispatch a pd) as [[[pa xp_reward]|]|] eqn:Ea; try (left; care_eval).
  destruct (compute_health pa t) as [h|] eqn:Eh; [|left; care_eval].
  right. exists k, p, t, pd, pa, xp_reward, h.
  repeat (split; [first [assumption | reflexivity | rewrite Et; reflexivity]|]).
  unfold care_action, bind, lift, read, ret. eval_with_eqs.
  unfold log_action. cbv zeta. set (pf := set_updated_at now _).
  pose proof (update_plant_userplants k pf p d Ep) as Hu.
  destruct (update_plant k pf d) as [[[]|e] d1] eqn:Eu; simpl in Hu;
    [|unfold update_plant in Eu; discriminate].
  destruct (oid ObjectId (owner pf)) as [u|]; [|exact Hu].
  unfold inc_user_xp.
  change (get_plant ObjectId id ?x) with (get_plant ObjectId id x).
  match goal with |- context [get_plant ObjectId id ?x] =>
    pose proof (get_plant_store id x) as Hg;
    destruct (get_plant ObjectId id x) as [r d2]; simpl in Hg; subst d2
  end.
  simpl. exact Hu.
Qed.

Lemma ingest_sensor_userplants (data : SensorIn) (now : Z) (d : store) :
  userplants (snd (ingest_sensor ObjectId data now d)) = userplants d
  \/ exists k p t ps h,
       oid ObjectId (plant_id data) = Ok k /\ userplants d !! k = Some p
       /\ fst (find_template ObjectId p (Some empty_dict) d) = Ok t
       /\ sensor_update data p = Ok ps
       /\ compute_health ps t = Ok h
       /\ userplants (snd (ingest_sensor ObjectId data now d))
          = <[k := set_updated_at now (apply_growth (set_health_score h ps) t)]>
              (userplants d).
Proof.
  destruct (oid ObjectId (plant_id data)) as [k|] eqn:Ek; [|left; sensor_eval].
  destruct (userplants d !! k) as [p|] eqn:Ep; [|left; sensor_eval].
  pose proof (find_template_store p (Some empty_dict) d) as Hs.
  destruct (find_template ObjectId p (Some empty_dict) d) as [[t|e] d'] eqn:Et;
    simpl in Hs; subst d'; [|left; sensor_eval].
  assert (Hsu : sensor_update data p =
    rbind (match moisture data with
           | Some m => rbind (py_int (clamp (PyFloat m))) (fun v => Ok (set_hydration v p))
           | None => Ok p
           end)
      (fun p => match light data with
                | Some l =>
                    rbind (py_int (clamp (PyFloat (SFmul prec emax (SFdiv prec emax l f1000_0) f100))))
                      (fun v => Ok (set_sunlight v p))
                | None => Ok p
                end)) by reflexivity.
  destruct (match moisture data with
            | Some m => rbind (py_int (clamp (PyFloat m))) (fun v => Ok (set_hydration v p))
            | None => Ok p
            end) as [p1|] eqn:E1; [|left; sensor_eval].
  cbn [rbind] in Hsu.
  destruct (match light data with
            | Some l =>
                rbind (py_int (clamp (PyFloat (SFmul prec emax (SFdiv prec emax l f1000_0) f100))))
                  (fun v => Ok (set_sunlight v p1))
            | None => Ok p1
            end) as [ps|] eqn:E2; [|left; sensor_eval].
  destruct (compute_health ps t) as [h|] eqn:Eh; [|left; sensor_eval].
  right. exists k, p, t, ps, h.
  repeat (split; [first [assumption | reflexivity | rewrite Et; reflexivity]|]).
  unfold ingest_sensor, bind, lift, read, ret. eval_with_eqs.
  cbv zeta. set (pf := set_updated_at now _).
  pose proof (update_plant_userplants k pf p d Ep) as Hu.
  destruct (update_plant k pf d) as [[[]|e] d1] eqn:Eu; simpl in Hu;
    [|unfold update_plant in Eu; discriminate].
  unfold insert_sensor.
  match goal with |- context [get_plant ObjectId (plant_id data) ?x] =>
    pose proof (get_plant_store (plant_id data) x) as Hg;
    destruct (get_plant ObjectId (plant_id data) x) as [r d2]; simpl in Hg; subst d2
  end.
  simpl. exact Hu.
Qed.

(** After the loop, a plant of the store is either as it was or the
    outcome of a tick on one of the listed plants under its own key. *)
Lemma growth_loop_userplants (plants : list (string * plant)) (now : Z) :
  forall (updated : Z) (d : store) (k : string) (p' : plant),
  userplants (snd (growth_loop ObjectId plants now updated d)) !! k = Some p' ->
  userplants d !! k = Some p'
  \/ exists p, In (k, p) plants /\ engine_step p p'.
Proof.
  induction plants as [|[k1 p1] rest IH]; intros updated d k p' H.
  - left. exact H.
  - revert H.
    pose proof (find_template_store p1 (Some empty_dict) d) as Hs.
    destruct (find_template ObjectId p1 (Some empty_dict) d) as [[t|e] d'] eqn:Et;
      simpl in Hs; subst d'; [|loop_eval; auto].
    destruct (apply_decay p1) as [pd|] eqn:Ed; [|loop_eval; auto].
    destruct (compute_health pd t) as [h|] eqn:Eh; [|loop_eval; auto].
    loop_eval. cbv zeta. set (pf := set_updated_at now _).
    assert (Hstep : engine_step p1 pf) by (eapply step_tick; eassumption).
    destruct (update_plant k1 pf d) as [[[]|e] d1] eqn:Eu;
      [|unfold update_plant in Eu; discriminate].
    intros H. apply IH in H. destruct H as [H|[p [Hin Hp]]].
    + unfold update_plant in Eu. injection Eu as <-.
      destruct (userplants d !! k1) as [p0|] eqn:E0; [|left; exact H].
      simpl in H. destruct (decide (k1 = k)) as [->|Hne].
      * rewrite lookup_insert_eq in H. injection H as <-.
        right. exists p1. split; [left; reflexivity|exact Hstep].
      * rewrite lookup_insert_ne in H by exact Hne. left. exact H.
    + right. exists p. split; [right; exact Hin|exact Hp].
Qed.

Lemma run_growth_userplants (user_id : string) (now : Z) (d : store) (k : string) (p' : plant) :
  userplants (snd (run_growth ObjectId user_id now d)) !! k = Some p' ->
  exists p, userplants d !! k = Some p /\ (p' = p \/ engine_step p p').
Proof.
  unfold run_growth, bind, read, ret.
  set (plants := filter _ _).
  pose proof (growth_loop_userplants plants now 0 d k p') as Hl.
  destruct (growth_loop ObjectId plants now 0 d) as [[n|e] d1]; simpl in *;
    intros H; apply Hl in H; destruct H as [H|[p [Hin Hp]]]; eauto.
  - exists p. split; [|right; exact Hp].
    apply list_elem_of_In in Hin. unfold plants in Hin.
    apply list_elem_of_filter in Hin. destruct Hin as [_ Hin].
    apply elem_of_map_to_list in Hin. exact Hin.
  - exists p. split; [|right; exact Hp].
    apply list_elem_of_In in Hin. unfold plants in Hin.
    apply list_elem_of_filter in Hin. destruct Hin as [_ Hin].
    apply elem_of_map_to_list in Hin. exact Hin.
Qed.

(** Whatever the request, a plant of the store afterwards was in the
    store before, and is unchanged or one engine step later. *)
Lemma handle_userplants (r : request) (now : Z) (d : store) (k : string) (p' : plant) :
  userplants (snd (handle ObjectId r now d)) !! k = Some p' ->
  exists p, userplants d !! k = Some p /\ (p' = p \/ engine_step p p').
Proof.
  destruct r as [id a|data|uid]; simpl.
  - destruct (care_action_userplants id a now d)
      as [->|(k0 & p & t & pd & pa & xp_reward & h & Ek & Ep & Et & Ed & Ea & Eh & ->)];
      [eauto|].
    destruct (decide (k0 = k)) as [->|Hne].
    + rewrite lookup_insert_eq. intros [= <-]. exists p. split; [exact Ep|].
      right. eapply step_care; eassumption.
    + rewrite lookup_insert_ne by exact Hne. eauto.
  - destruct (ingest_sensor_userplants data now d)
      as [->|(k0 & p & t & ps & h & Ek & Ep & Et & Es & Eh & ->)]; [eauto|].
    destruct (decide (k0 = k)) as [->|Hne].
    + rewrite lookup_insert_eq. intros [= <-]. exists p. split; [exact Ep|].
      right. eapply step_sensor; eassumption.
    + rewrite lookup_insert_ne by exact Hne. eauto.
  - apply run_growth_userplants.
Qed.

(** Along a run, a plant follows a chain of engine steps. *)
Lemma run_userplants (rs : list (request * Z)) :
  forall (d : store) (k : string) (p' : plant),
  userplants (run ObjectId rs d) !! k = Some p' ->
  exists p, userplants d !! k = Some p /\ rtc engine_step p p'.
Proof.
  induction rs as [|[r now] rs IH]; intros d k p' H; simpl in H.
  - exists p'. split; [exact H|apply rtc_refl].
  - apply IH in H. destruct H as [p1 [H1 Hrtc]].
    apply handle_userplants in H1. destruct H1 as [p [Hp [->|Hstep]]].
    + eauto.
    + exists p. split; [exact Hp|]. eapply rtc_l; eassumption.
Qed.

End StoreLemmas.

(** ** What each stage of the engine touches *)

Lemma apply_growth_stats (p : plant) (t : option template_doc) :
  hydration (apply_growth p t) = hydration p
  /\ nutrition (apply_growth p t) = nutrition p
  /\ sunlight (apply_growth p t) = sunlight p
  /\ health_score (apply_growth p t) = health_score p.
Proof. unfold apply_growth. destruct (70 <? _); repeat split. Qed.

Lemma apply_growth_points (p : plant) (t : option template_doc) :
  growth_points (apply_growth p t) =
  if 70 <? get (health_score p) 0 then Some (get (growth_points p) 0 + 10)
  else growth_points p.
Proof. unfold apply_growth. destruct (70 <? _); reflexivity. Qed.

Lemma apply_growth_stage (p : plant) (t : option template_doc) :
  stage (apply_growth p t) =
  Some (stage_of_points (get (growth_points (apply_growth p t)) 0)).
Proof. unfold apply_growth. destruct (70 <? _); reflexivity. Qed.

Lemma apply_decay_inv (p pd : plant) :
  apply_decay p = Ok pd ->
  exists s', decay_sunlight (get (sunlight p) 0) = Ok s'
    /\ pd = set_sunlight s' (set_nutrition (clampZ (get (nutrition p) 0 - 2))
                               (set_hydration (clampZ (get (hydration p) 0 - 5)) p)).
Proof.
  rewrite apply_decay_eq. destruct (decay_sunlight _) as [s'|]; [|discriminate].
  intros [= <-]. eauto.
Qed.

Lemma clampZ_range (z : Z) : in_range (clampZ z).
Proof. unfold in_range, clampZ. lia. Qed.

Lemma dispatch_inv (a : CareAction) (p pa : plant) (xp_reward : Z) :
  dispatch a p = Ok (Some (pa, xp_reward)) ->
  (type a = "water"%string /\ xp_reward = 5
   /\ pa = set_hydration (clampZ (get (hydration p) 0 + 20)) p)
  \/ (type a = "fertilize"%string /\ xp_reward = 7
      /\ pa = set_nutrition (clampZ (get (nutrition p) 0 + 15)) p)
  \/ (type a = "sunlight_add"%string /\ xp_reward = 4
      /\ pa = set_sunlight (clampZ (get (sunlight p) 0 + 10)) p)
  \/ (type a = "trim"%string /\ xp_reward = 6
      /\ pa = set_health_score (clampZ (get (health_score p) 0 + 5)) p)
  \/ (type a = "repot"%string /\ xp_reward = 10
      /\ pa = set_health_score (clampZ (get (health_score p) 0 + 10)) p).
Proof.
  unfold dispatch. rewrite !int_clamp_eq. cbn [rbind]. fold (clampZ (get (hydration p) 0 + 20)).
  destruct (String.eqb_spec (type a) "water") as [E|_];
    [intros [= <- <-]; auto|].
  destruct (String.eqb_spec (type a) "fertilize") as [E|_];
    [intros [= <- <-]; auto 6|].
  destruct (String.eqb_spec (type a) "sunlight_add") as [E|_];
    [intros [= <- <-]; auto 6|].
  destruct (String.eqb_spec (type a) "trim") as [E|_];
    [intros [= <- <-]; auto 8|].
  destruct (String.eqb_spec (type a) "repot") as [E|_];
    [intros [= <- <-]; auto 8|].
  discriminate.
Qed.

Lemma dispatch_unrecognized (a : CareAction) (p : plant) :
  ~ recognized (type a) -> dispatch a p = Ok None.
Proof.
  unfold recognized, dispatch. intros H.
  destruct (String.eqb_spec (type a) "water"); [tauto|].
  destruct (String.eqb_spec (type a) "fertilize"); [tauto|].
  destruct (String.eqb_spec (type a) "sunlight_add"); [tauto|].
  destruct (String.eqb_spec (type a) "trim"); [tauto|].
  destruct (String.eqb_spec (type a) "repot"); [tauto|].
  reflexivity.
Qed.

Lemma sensor_update_inv (data : SensorIn) (p ps : plant) :
  sensor_update data p = Ok ps ->
  nutrition ps = nutrition p /\ health_score ps = health_score p
  /\ growth_points ps = growth_points p /\ stage ps = stage p
  /\ match moisture data with
     | Some m => exists v, py_int (clamp (PyFloat m)) = Ok v /\ hydration ps = Some v
     | None => hydration ps = hydration p
     end
  /\ match light data with
     | Some l => exists v, normalize_light l = Ok v /\ sunlight ps = Some v
     | None => sunlight ps = sunlight p
     end.
Proof.
  unfold sensor_update, normalize_light.
  destruct (moisture data) as [m|]; destruct (light data) as [l|]; cbn [rbind].
  - destruct (py_int (clamp (PyFloat m))) as [v|]; [|discriminate]. cbn [rbind].
    destruct (py_int _) as [w|]; [|discriminate]. cbn [rbind].
    intros [= <-]. repeat split; eauto.
  - destruct (py_int (clamp (PyFloat m))) as [v|]; [|discriminate]. cbn [rbind].
    intros [= <-]. repeat split; eauto.
  - destruct (py_int _) as [w|]; [|discriminate]. cbn [rbind].
    intros [= <-]. repeat split; eauto.
  - intros [= <-]. repeat split; eauto.
Qed.

(** ** Stats stay in range *)

Lemma field_in_range_Some (v : Z) : in_range v -> field_in_range (Some v).
Proof. intros H w [= <-]. exact H. Qed.

Lemma engine_step_in_range (p p' : plant) :
  engine_step p p' -> stats_in_range p -> stats_in_range p'.
Proof.
  intros Hstep (Hh & Hn & Hs & Hhs).
  destruct Hstep as [p t pd pa xp_reward h action now Ed Ea Eh
                    |p t pd h now Ed Eh
                    |p t data ps h now Es Eh].
  - apply apply_decay_inv in Ed. destruct Ed as [s' [Es ->]].
    apply decay_sunlight_range in Es. apply compute_health_range in Eh.
    unfold log_action, stats_in_range.
    destruct (apply_growth_stats (set_health_score h pa) t) as (E1 & E2 & E3 & E4).
    cbn [hydration nutrition sunlight health_score set_updated_at set_last_action_date
         set_action_log].
    rewrite E1, E2, E3, E4.
    apply dispatch_inv in Ea.
    destruct Ea as [(_ & _ & ->)|[(_ & _ & ->)|[(_ & _ & ->)|[(_ & _ & ->)|(_ & _ & ->)]]]];
      cbn [hydration nutrition sunlight health_score set_hydration set_nutrition
           set_sunlight set_health_score];
      split_and!; apply field_in_range_Some; auto using clampZ_range.
  - apply apply_decay_inv in Ed. destruct Ed as [s' [Es ->]].
    apply decay_sunlight_range in Es. apply compute_health_range in Eh.
    unfold stats_in_range.
    destruct (apply_growth_stats (set_health_score h
       (set_sunlight s' (set_nutrition (clampZ (get (nutrition p) 0 - 2))
          (set_hydration (clampZ (get (hydration p) 0 - 5)) p)))) t) as (E1 & E2 & E3 & E4).
    cbn [hydration nutrition sunlight health_score set_updated_at].
    rewrite E1, E2, E3, E4.
    cbn [hydration nutrition sunlight health_score set_hydration set_nutrition
         set_sunlight set_health_score];
    split_and!; apply field_in_range_Some; auto using clampZ_range.
  - apply sensor_update_inv in Es. destruct Es as (En & _ & _ & _ & Em & El).
    apply compute_health_range in Eh.
    unfold stats_in_range.
    destruct (apply_growth_stats (set_health_score h ps) t) as (E1 & E2 & E3 & E4).
    cbn [hydration nutrition sunlight health_score set_updated_at].
    rewrite E1, E2, E3, E4. cbn [hydration nutrition sunlight health_score set_health_score].
    rewrite En. split_and!; auto.
    + destruct (moisture data) as [m|].
      * destruct Em as [v [Ev ->]]. apply field_in_range_Some.
        destruct (py_int_clamp_float m) as [v' [Ev' Hv']].
        rewrite Ev in Ev'. injection Ev' as <-. exact Hv'.
      * rewrite Em. exact Hh.
    + destruct (light data) as [l|].
      * destruct El as [v [Ev ->]]. apply field_in_range_Some.
        unfold normalize_light in Ev.
        destruct (py_int_clamp_float (SFmul prec emax (SFdiv prec emax l f1000_0) f100))
          as [v' [Ev' Hv']].
        rewrite Ev in Ev'. injection Ev' as <-. exact Hv'.
      * rewrite El. exact Hs.
    + apply field_in_range_Some. exact Eh.
Qed.

(** ** Plants are never dropped *)

Section Keeps.

Variable ObjectId : string -> option string.

Lemma growth_loop_keeps (plants : list (string * plant)) (now : Z) (k : string) :
  forall (updated : Z) (d : store),
  is_Some (userplants d !! k) ->
  is_Some (userplants (snd (growth_loop ObjectId plants now updated d)) !! k).
Proof.
  induction plants as [|[k1 p1] rest IH]; intros updated d H.
  - exact H.
  - pose proof (find_template_store ObjectId p1 (Some empty_dict) d) as Hs.
    destruct (find_template ObjectId p1 (Some empty_dict) d) as [[t|e] d'] eqn:Et;
      simpl in Hs; subst d'; [|loop_eval; auto].
    destruct (apply_decay p1) as [pd|] eqn:Ed; [|loop_eval; auto].
    destruct (compute_health pd t) as [h|] eqn:Eh; [|loop_eval; auto].
    loop_eval. cbv zeta. set (pf := set_updated_at now _).
    destruct (update_plant k1 pf d) as [[[]|e] d1] eqn:Eu;
      [|unfold update_plant in Eu; discriminate].
    apply IH. unfold update_plant in Eu. injection Eu as <-.
    destruct (userplants d !! k1) as [p0|] eqn:E0; [|exact H].
    simpl. destruct (decide (k1 = k)) as [->|Hne].
    + rewrite lookup_insert_eq. eauto.
    + rewrite lookup_insert_ne by exact Hne. exact H.
Qed.

Lemma handle_keeps (r : request) (now : Z) (d : store) (k : string) :
  is_Some (userplants d !! k) ->
  is_Some (userplants (snd (handle ObjectId r now d)) !! k).
Proof.
  intros H. destruct r as [id a|data|uid]; simpl.
  - destruct (care_action_userplants ObjectId id a now d)
      as [->|(k0 & p & t & pd & pa & xp_reward & h & _ & _ & _ & _ & _ & _ & ->)];
      [exact H|].
    destruct (decide (k0 = k)) as [->|Hne].
    + rewrite lookup_insert_eq. eauto.
    + rewrite lookup_insert_ne by exact Hne. exact H.
  - destruct (ingest_sensor_userplants ObjectId data now d)
      as [->|(k0 & p & t & ps & h & _ & _ & _ & _ & _ & ->)]; [exact H|].
    destruct (decide (k0 = k)) as [->|Hne].
    + rewrite lookup_insert_eq. eauto.
    + rewrite lookup_insert_ne by exact Hne. exact H.
  - unfold run_growth, bind, read, ret.
    set (plants := filter _ _).
    pose proof (growth_loop_keeps plants now k 0 d H) as Hl.
    destruct (growth_loop ObjectId plants now 0 d) as [[n|e] d1]; exact Hl.
Qed.

Lemma run_keeps (rs : list (request * Z)) (k : string) :
  forall d : store,
  is_Some (userplants d !! k) -> is_Some (userplants (run ObjectId rs d) !! k).
Proof.
  induction rs as [|[r now] rs IH]; intros d H; simpl; [exact H|].
  apply IH. apply handle_keeps. exact H.
Qed.

Lemma run_app (rs1 rs2 : list (request * Z)) :
  forall d : store, run ObjectId (rs1 ++ rs2) d = run ObjectId rs2 (run ObjectId rs1 d).
Proof.
  induction rs1 as [|[r now] rs1 IH]; intros d; simpl; [reflexivity|apply IH].
Qed.

(** The plant under a key after a run: it exists and is reached from
    the plant before the run by engine steps. *)
Lemma run_reaches (rs : list (request * Z)) (d : store) (k : string) (p : plant) :
  userplants d !! k = Some p ->
  exists p', userplants (run ObjectId rs d) !! k = Some p' /\ rtc engine_step p p'.
Proof.
  intros H. destruct (run_keeps rs k d ltac:(eauto)) as [p' Hp'].
  exists p'. split; [exact Hp'|].
  destruct (run_userplants ObjectId rs d k p' Hp') as [p0 [H0 Hr]].
  congruence.
Qed.

End Keeps.

(** ** Growth only goes up *)

Lemma stage_rank_mono (a b : Z) :
  a <= b ->
  stage_rank (Some (stage_of_points a)) <= stage_rank (Some (stage_of_points b)).
Proof.
  intros H. unfold stage_of_points.
  destruct (500 <=? a) eqn:A1; destruct (500 <=? b) eqn:B1;
  destruct (250 <=? a) eqn:A2; destruct (250 <=? b) eqn:B2;
  destruct (100 <=? a) eqn:A3; destruct (100 <=? b) eqn:B3;
  cbn; try lia;
  repeat match goal with
  | H : (_ <=? _) = true |- _ => apply Z.leb_le in H
  | H : (_ <=? _) = false |- _ => apply Z.leb_gt in H
  end; lia.
Qed.


Lemma grown_points (h : Z) (px : plant) (t : option template_doc) :
  get (growth_points px) 0
  <= get (growth_points (apply_growth (set_health_score h px) t)) 0.
Proof.
  rewrite apply_growth_points. cbn [health_score set_health_score growth_points].
  cbn [get]. destruct (70 <? h); destruct (growth_points px); cbn [get]; lia.
Qed.

Lemma engine_step_growth (p p' : plant) :
  engine_step p p' ->
  get (growth_points p) 0 <= get (growth_points p') 0 /\ stage_consistent p'.
Proof.
  intros Hstep. unfold stage_consistent.
  destruct Hstep as [p t pd pa xp_reward h action now Ed Ea Eh
                    |p t pd h now Ed Eh
                    |p t data ps h now Es Eh].
  - assert (Hgp : growth_points pa = growth_points p).
    { apply apply_decay_inv in Ed. destruct Ed as [s' [_ ->]].
      apply dispatch_inv in Ea.
      destruct Ea as [(_ & _ & ->)|[(_ & _ & ->)|[(_ & _ & ->)|[(_ & _ & ->)|(_ & _ & ->)]]]];
        reflexivity. }
    unfold log_action.
    cbn [growth_points stage set_updated_at set_last_action_date set_action_log].
    split; [rewrite <- Hgp; apply grown_points|apply apply_growth_stage].
  - assert (Hgp : growth_points pd = growth_points p).
    { apply apply_decay_inv in Ed. destruct Ed as [s' [_ ->]]. reflexivity. }
    cbn [growth_points stage set_updated_at].
    split; [rewrite <- Hgp; apply grown_points|apply apply_growth_stage].
  - apply sensor_update_inv in Es. destruct Es as (_ & _ & Hgp & _).
    cbn [growth_points stage set_updated_at].
    split; [rewrite <- Hgp; apply grown_points|apply apply_growth_stage].
Qed.

Lemma rtc_engine_step_growth (p p' : plant) :
  rtc engine_step p p' ->
  get (growth_points p) 0 <= get (growth_points p') 0
  /\ (p' = p \/ stage_consistent p').
Proof.
  intros H. induction H as [p|p p1 p' Hstep Hrtc IH].
  - split; [lia|left; reflexivity].
  - apply engine_step_growth in Hstep. destruct Hstep as [Hle Hc].
    destruct IH as [Hle' [->|Hc']]; (split; [lia|right; assumption]).
Qed.

Lemma rtc_engine_step_in_range (p p' : plant) :
  rtc engine_step p p' -> stats_in_range p -> stats_in_range p'.
Proof.
  intros H. induction H as [p|p p1 p' Hstep Hrtc IH]; [auto|].
  intros Hp. apply IH. eapply engine_step_in_range; eassumption.
Qed.

(** ** Successful requests, stage by stage *)

Section Success.

Variable ObjectId : string -> option string.

Lemma find_template_pair (p : plant) (o t : option template_doc) (d : store) :
  fst (find_template ObjectId p o d) = Ok t ->
  find_template ObjectId p o d = (Ok t, d).
Proof.
  intros H. pose proof (find_template_store ObjectId p o d) as Hs.
  destruct (find_template ObjectId p o d) as [r d']. simpl in *. congruence.
Qed.

(** The template lookup depends on the plant's reference and on the
    templates only. *)
Lemma find_template_frame (p p' : plant) (o o' t : option template_doc) (d d' : store) :
  template p' = template p ->
  planttemplates d' = planttemplates d ->
  fst (find_template ObjectId p o d) = Ok t ->
  find_template ObjectId p' o' d'
  = (Ok (if truthy (template p) then t else o'), d').
Proof.
  unfold find_template. intros -> Hd'.
  destruct (truthy (template p)); [|reflexivity].
  unfold bind, lift, read, ret.
  destruct (oid ObjectId _) as [tid|]; simpl; [|discriminate].
  rewrite Hd'. intros [= <-]. reflexivity.
Qed.

Lemma apply_decay_frame (p pd : plant) :
  apply_decay p = Ok pd ->
  owner pd = owner p /\ template pd = template p
  /\ growth_points pd = growth_points p /\ health_score pd = health_score p
  /\ stage pd = stage p /\ action_log pd = action_log p.
Proof.
  intros H. apply apply_decay_inv in H. destruct H as [s' [_ ->]]. repeat split.
Qed.

Lemma dispatch_frame (a : CareAction) (p pa : plant) (xp_reward : Z) :
  dispatch a p = Ok (Some (pa, xp_reward)) ->
  owner pa = owner p /\ template pa = template p
  /\ growth_points pa = growth_points p
  /\ stage pa = stage p /\ action_log pa = action_log p.
Proof.
  intros H. apply dispatch_inv in H.
  destruct H as [(_ & _ & ->)|[(_ & _ & ->)|[(_ & _ & ->)|[(_ & _ & ->)|(_ & _ & ->)]]]];
    repeat split.
Qed.

Lemma apply_growth_frame (p : plant) (t : option template_doc) :
  owner (apply_growth p t) = owner p /\ template (apply_growth p t) = template p
  /\ action_log (apply_growth p t) = action_log p.
Proof. unfold apply_growth. destruct (70 <? _); repeat split. Qed.

(** A care action whose stages all succeed: the whole outcome. *)
Lemma care_action_ok (id : string) (a : CareAction) (now : Z) (d : store)
  (k u : string) (p pd pa : plant) (t : option template_doc) (xp_reward h : Z) :
  oid ObjectId id = Ok k ->
  userplants d !! k = Some p ->
  fst (find_template ObjectId p (Some empty_dict) d) = Ok t ->
  apply_decay p = Ok pd ->
  dispatch a pd = Ok (Some (pa, xp_reward)) ->
  compute_health pa t = Ok h ->
  oid ObjectId (owner p) = Ok u ->
  let pf := log_action a xp_reward now (apply_growth (set_health_score h pa) t) in
  care_action ObjectId id a now d
  = (Ok (PlantJSON pf (template_data_of p t)), store_after_care d k pf u xp_reward).
Proof.
  intros Ek Ep Et Ed Ea Eh Eu pf.
  pose proof (find_template_pair _ _ _ _ Et) as Et'.
  assert (Hown : owner pf = owner p /\ template pf = template p).
  { destruct (apply_decay_frame _ _ Ed) as (O1 & T1 & _).
    destruct (dispatch_frame _ _ _ _ Ea) as (O2 & T2 & _).
    destruct (apply_growth_frame (set_health_score h pa) t) as (O3 & T3 & _).
    unfold pf, log_action.
    cbn [owner template set_updated_at set_last_action_date set_action_log].
    rewrite O3, T3. cbn [owner template set_health_score]. split; congruence. }
  destruct Hown as [Hown Htmpl].
  unfold care_action, bind, lift, read, ret. eval_with_eqs.
  cbv zeta. fold (log_action a xp_reward now (apply_growth (set_health_score h pa) t)).
  fold pf. unfold update_plant. rewrite Ep, Hown, Eu. cbv beta iota.
  unfold inc_user_xp. cbn [userplants planttemplates users sensordata].
  fold (store_after_care d k pf u xp_reward).
  unfold get_plant, bind, lift, read, ret. rewrite Ek.
  cbn [store_after_care userplants]. rewrite lookup_insert_eq.
  fold (store_after_care d k pf u xp_reward).
  rewrite (find_template_frame p pf (Some empty_dict) None t d
             (store_after_care d k pf u xp_reward) Htmpl eq_refl Et).
  reflexivity.
Qed.

Lemma sensor_update_frame (data : SensorIn) (p ps : plant) :
  sensor_update data p = Ok ps ->
  owner ps = owner p /\ template ps = template p.
Proof.
  unfold sensor_update.
  destruct (moisture data) as [m|]; destruct (light data) as [l|]; cbn [rbind];
    repeat (match goal with |- context [py_int ?x] => destruct (py_int x); [|discriminate] end;
            cbn [rbind]);
    intros [= <-]; split; reflexivity.
Qed.

(** A sensor ingest whose stages all succeed: the whole outcome. *)
Lemma ingest_sensor_ok (data : SensorIn) (now : Z) (d : store)
  (k : string) (p ps : plant) (t : option template_doc) (h : Z) :
  oid ObjectId (plant_id data) = Ok k ->
  userplants d !! k = Some p ->
  fst (find_template ObjectId p (Some empty_dict) d) = Ok t ->
  sensor_update data p = Ok ps ->
  compute_health ps t = Ok h ->
  let pf := set_updated_at now (apply_growth (set_health_score h ps) t) in
  ingest_sensor ObjectId data now d
  = (Ok (PlantJSON pf (template_data_of p t)),
     store_after_sensor d k pf (sensor_doc_of data now)).
Proof.
  intros Ek Ep Et Es Eh pf.
  pose proof (find_template_pair _ _ _ _ Et) as Et'.
  assert (Htmpl : template pf = template p).
  { destruct (sensor_update_frame _ _ _ Es) as (_ & T1).
    destruct (apply_growth_frame (set_health_score h ps) t) as (_ & T3 & _).
    unfold pf. cbn [template set_updated_at]. rewrite T3. exact T1. }
  unfold sensor_update in Es.
  destruct (match moisture data with
            | Some m => rbind (py_int (clamp (PyFloat m))) (fun v => Ok (set_hydration v p))
            | None => Ok p
            end) as [p1|] eqn:E1; [|discriminate].
  cbn [rbind] in Es.
  unfold ingest_sensor, bind, lift, read, ret. eval_with_eqs.
  cbv zeta. fold pf. unfold update_plant. rewrite Ep. cbv beta iota.
  unfold insert_sensor. cbn [userplants planttemplates users sensordata].
  fold (sensor_doc_of data now). fold (store_after_sensor d k pf (sensor_doc_of data now)).
  unfold get_plant, bind, lift, read, ret. rewrite Ek.
  cbn [store_after_sensor userplants]. rewrite lookup_insert_eq.
  fold (store_after_sensor d k pf (sensor_doc_of data now)).
  rewrite (find_template_frame p pf (Some empty_dict) None t d
             (store_after_sensor d k pf (sensor_doc_of data now)) Htmpl eq_refl Et).
  reflexivity.
Qed.

End Success.

(** ** When the stages succeed *)

Lemma get_in_range (o : option Z) (dflt : Z) :
  field_in_range o -> in_range dflt -> in_range (get o dflt).
Proof. intros H Hd. destruct o as [v|]; simpl; auto. Qed.

Lemma apply_decay_succeeds (p : plant) :
  field_in_range (sunlight p) -> exists pd, apply_decay p = Ok pd.
Proof.
  intros Hs. rewrite apply_decay_eq.
  assert (Hr : in_range (get (sunlight p) 0)).
  { apply get_in_range; [exact Hs|unfold in_range; lia]. }
  destruct (decay_sunlight_spec _ Hr) as [s' [E _]]. rewrite E. simpl. eauto.
Qed.

(** With stats and ideals in range the score is the truncated
    [100 - total / 3], that is [100 - ceil(total / 3)]. *)
Lemma compute_health_in_range (p : plant) (t : template_doc) :
  field_in_range (hydration p) -> field_in_range (nutrition p) ->
  field_in_range (sunlight p) -> ideals_in_range t ->
  compute_health p (Some t) = Ok (100 - (total_deviation p t + 2) / 3).
Proof.
  intros Hh Hn Hs [Hm Hl].
  rewrite compute_health_total. apply health_of_total_spec.
  assert (R0 : in_range 0) by (unfold in_range; lia).
  assert (R50 : in_range 50) by (unfold in_range; lia).
  pose proof (get_in_range _ 0 Hh R0). pose proof (get_in_range _ 0 Hn R0).
  pose proof (get_in_range _ 0 Hs R0). pose proof (get_in_range _ 50 Hm R50).
  pose proof (get_in_range _ 50 Hl R50).
  unfold total_deviation, in_range in *. lia.
Qed.

Lemma compute_health_ignores_health (p : plant) (t : option template_doc) (v : Z) :
  compute_health (set_health_score v p) t = compute_health p t.
Proof. reflexivity. Qed.

Lemma set_health_score_twice (p : plant) (v w : Z) :
  set_health_score w (set_health_score v p) = set_health_score w p.
Proof. reflexivity. Qed.

Lemma find_template_succeeds (ObjectId : string -> option string) (p : plant) (d : store) :
  (truthy (template p) = true -> is_Some (ObjectId (get (template p) ""%string))) ->
  exists t, fst (find_template ObjectId p (Some empty_dict) d) = Ok t.
Proof.
  intros H. unfold find_template.
  destruct (truthy (template p)); [|simpl; eauto].
  destruct (H eq_refl) as [tid Htid].
  unfold bind, lift, read, ret, oid. rewrite Htid. simpl. eauto.
Qed.

(** ** Repeated decay *)

Lemma decay_n_bounds (m : nat) (p : plant) :
  field_in_range (hydration p) -> field_in_range (nutrition p) ->
  field_in_range (sunlight p) ->
  exists p', decay_n m p = Ok p'
    /\ field_in_range (hydration p') /\ field_in_range (nutrition p')
    /\ field_in_range (sunlight p')
    /\ get (hydration p') 0 <= Z.max 0 (get (hydration p) 0 - 5 * Z.of_nat m)
    /\ get (nutrition p') 0 <= Z.max 0 (get (nutrition p) 0 - 2 * Z.of_nat m)
    /\ (get (sunlight p) 0 <= 10 -> get (sunlight p') 0 = get (sunlight p) 0)
    /\ (10 < get (sunlight p) 0 ->
        10 <= get (sunlight p') 0 <= Z.max 10 (get (sunlight p) 0 - Z.of_nat m))
    /\ ((0 < m)%nat -> is_Some (hydration p') /\ is_Some (nutrition p')
                       /\ is_Some (sunlight p')).
Proof.
  intros Hh Hn Hs. induction m as [|m IH].
  - exists p. simpl. split_and!; auto; try lia.
  - destruct IH as (q & Eq & Qh & Qn & Qs & Bh & Bn & Bs1 & Bs2 & _).
    assert (R0 : in_range 0) by (unfold in_range; lia).
    pose proof (get_in_range _ 0 Qh R0) as Rh.
    pose proof (get_in_range _ 0 Qn R0) as Rn.
    pose proof (get_in_range _ 0 Qs R0) as Rs.
    pose proof (get_in_range _ 0 Hh R0) as Rh0.
    pose proof (get_in_range _ 0 Hn R0) as Rn0.
    pose proof (get_in_range _ 0 Hs R0) as Rs0.
    destruct (decay_sunlight_spec _ Rs) as (s' & Es & S1 & S2).
    cbn [decay_n]. rewrite Eq. cbn [rbind]. rewrite apply_decay_eq, Es. cbn [rbind].
    eexists. split; [reflexivity|].
    cbn [hydration nutrition sunlight set_hydration set_nutrition set_sunlight get].
    unfold in_range, clampZ in *.
    split_and!; try (apply field_in_range_Some; unfold in_range; lia); try lia; eauto.
Qed.

(** ** Sensor ingest *)

Lemma sensor_update_total (data : SensorIn) (p : plant) :
  exists ps, sensor_update data p = Ok ps.
Proof.
  unfold sensor_update.
  destruct (moisture data) as [m|]; destruct (light data) as [l|]; cbn [rbind];
    try destruct (py_int_clamp_float m) as [v [-> _]]; cbn [rbind];
    try destruct (py_int_clamp_float (SFmul prec emax (SFdiv prec emax l f1000_0) f100))
      as [w [-> _]]; cbn [rbind]; eauto.
Qed.

Lemma sensor_update_ambient (data : SensorIn) (t' h' : option spec_float) (p : plant) :
  sensor_update (with_ambient data t' h') p = sensor_update data p.
Proof. reflexivity. Qed.

(** ** Sample data and defaults *)

Lemma new_plant_in_range (o t : string) : stats_in_range (new_plant o t).
Proof. unfold stats_in_range, field_in_range, in_range. simpl. split_and!; intros v [= <-]; lia. Qed.

Lemma prune_unrecognized : ~ recognized "prune".
Proof. unfold recognized. intros [H|[H|[H|[H|H]]]]; discriminate. Qed.

(** On a template that is a dict, [compute_health] does not fail on
    missing fields: an absent ideal counts as 50, an absent stat as 0,
    and with the present values in range the score is in range. *)
Lemma compute_health_total_on_dict (p : plant) (t : template_doc) :
  field_in_range (hydration p) -> field_in_range (nutrition p) ->
  field_in_range (sunlight p) -> ideals_in_range t ->
  exists h, compute_health p (Some t) = Ok h /\ in_range h
    /\ h = 100 - (Z.abs (get (hydration p) 0 - get (ideal_moisture t) 50)
                  + Z.abs (get (sunlight p) 0 - get (ideal_light t) 50)
                  + Z.abs (get (nutrition p) 0 - 60) + 2) / 3.
Proof.
  intros Hh Hn Hs Ht.
  pose proof (compute_health_in_range p t Hh Hn Hs Ht) as E.
  eexists. split; [exact E|]. split; [|reflexivity].
  eapply compute_health_range. exact E.
Qed.

Lemma compute_health_empty_dict (p : plant) :
  compute_health p (Some empty_dict)
  = health_of_total (Z.abs (get (hydration p) 0 - 50) + Z.abs (get (sunlight p) 0 - 50)
                     + Z.abs (get (nutrition p) 0 - 60)).
Proof. reflexivity. Qed.

Lemma compute_health_None (p : plant) : compute_health p None = Raise AttributeError.
Proof. reflexivity. Qed.

(** * Properties of the specification *)

(** C1. Clamp invariant: a plant whose hydration, nutrition, sunlight
    and health score lie in [0, 100] is still in the store after any
    sequence of care actions, sensor ingests and growth runs, and its
    four stats still lie in [0, 100]. *)
Theorem stats_stay_in_range (ObjectId : string -> option string)
  (rs : list (request * Z)) (d : store) (k : string) (p : plant) :
  userplants d !! k = Some p ->
  stats_in_range p ->
  exists p', userplants (run ObjectId rs d) !! k = Some p' /\ stats_in_range p'.
Proof.
  intros Hk Hp.
  destruct (run_reaches ObjectId rs d k p Hk) as [p' [Hk' Hr]].
  exists p'. split; [exact Hk'|].
  eapply rtc_engine_step_in_range; eassumption.
Qed.

Lemma stats_stay_in_range_witness :
  userplants demo_store !! "p1"%string = Some (new_plant "u1" "t1")
  /\ stats_in_range (new_plant "u1" "t1")
  /\ exists p', userplants (run any_id demo_requests demo_store) !! "p1"%string = Some p'
       /\ stats_in_range p'.
Proof.
  split; [reflexivity|]. split; [apply new_plant_in_range|].
  apply (stats_stay_in_range any_id demo_requests demo_store "p1" (new_plant "u1" "t1"));
    [reflexivity|apply new_plant_in_range].
Defined.

(** C2. Trim and repot leave the same plant.  On any plant for which
    decay and the health computation succeed, both actions end with the
    health score [compute_health] gives on the decayed stats (the +5 or
    +10 bump is overwritten), with the decayed hydration, nutrition and
    sunlight, and with the same growth points and stage; the stored
    plants differ in the head of the action log only, and the user is
    credited 6 xp for trim and 10 for repot. *)
Theorem trim_repot_same_outcome (ObjectId : string -> option string)
  (id : string) (now : Z) (d : store) (k u : string) (p pd : plant)
  (t : option template_doc) (h : Z) :
  oid ObjectId id = Ok k ->
  userplants d !! k = Some p ->
  fst (find_template ObjectId p (Some empty_dict) d) = Ok t ->
  apply_decay p = Ok pd ->
  compute_health pd t = Ok h ->
  oid ObjectId (owner p) = Ok u ->
  exists p1 p2,
    care_action ObjectId id {| type := "trim" |} now d
      = (Ok (PlantJSON p1 (template_data_of p t)), store_after_care d k p1 u 6)
    /\ care_action ObjectId id {| type := "repot" |} now d
      = (Ok (PlantJSON p2 (template_data_of p t)), store_after_care d k p2 u 10)
    /\ health_score p1 = Some h /\ health_score p2 = Some h
    /\ hydration p1 = hydration pd /\ nutrition p1 = nutrition pd
    /\ sunlight p1 = sunlight pd
    /\ hydration p2 = hydration p1 /\ nutrition p2 = nutrition p1
    /\ sunlight p2 = sunlight p1
    /\ growth_points p2 = growth_points p1 /\ stage p2 = stage p1
    /\ action_log p1
       = Some ({| le_type := "trim"; le_value := 1; le_xp_reward := 6; le_date := now |}
               :: get (action_log p) [])
    /\ p2 = set_action_log
              ({| le_type := "repot"; le_value := 1; le_xp_reward := 10; le_date := now |}
               :: get (action_log p) []) p1.
Proof.
  intros Ek Ep Et Ed Eh Eu.
  set (trim := {| type := "trim" |}). set (repot := {| type := "repot" |}).
  assert (Ea1 : dispatch trim pd
                = Ok (Some (set_health_score (clampZ (get (health_score pd) 0 + 5)) pd, 6))).
  { unfold dispatch. cbn [type trim String.eqb Ascii.eqb Bool.eqb]. rewrite int_clamp_eq. reflexivity. }
  assert (Ea2 : dispatch repot pd
                = Ok (Some (set_health_score (clampZ (get (health_score pd) 0 + 10)) pd, 10))).
  { unfold dispatch. cbn [type repot String.eqb Ascii.eqb Bool.eqb]. rewrite int_clamp_eq. reflexivity. }
  pose proof (care_action_ok ObjectId id trim now d k u p pd _ t 6 h Ek Ep Et Ed Ea1
                ltac:(rewrite compute_health_ignores_health; exact Eh) Eu) as H1.
  pose proof (care_action_ok ObjectId id repot now d k u p pd _ t 10 h Ek Ep Et Ed Ea2
                ltac:(rewrite compute_health_ignores_health; exact Eh) Eu) as H2.
  cbv zeta in H1, H2.
  eexists _, _. split; [exact H1|]. split; [exact H2|].
  destruct (apply_decay_frame _ _ Ed) as (_ & _ & _ & _ & _ & Hlog).
  unfold log_action. rewrite !set_health_score_twice.
  destruct (apply_growth_stats (set_health_score h pd) t) as (G1 & G2 & G3 & G4).
  destruct (apply_growth_frame (set_health_score h pd) t) as (_ & _ & G5).
  cbn [hydration nutrition sunlight health_score growth_points stage action_log
       set_updated_at set_last_action_date set_action_log].
  rewrite G1, G2, G3, G4, G5.
  cbn [hydration nutrition sunlight health_score action_log set_health_score].
  rewrite Hlog.
  split_and!; reflexivity.
Qed.

Lemma trim_repot_same_outcome_witness :
  exists p1 p2,
    care_action any_id "p1" {| type := "trim" |} 9 demo_store
      = (Ok (PlantJSON p1 (Some rose)), store_after_care demo_store "p1" p1 "u1" 6)
    /\ care_action any_id "p1" {| type := "repot" |} 9 demo_store
      = (Ok (PlantJSON p2 (Some rose)), store_after_care demo_store "p1" p2 "u1" 10)
    /\ health_score p1 = Some 83 /\ health_score p2 = Some 83
    /\ hydration p2 = hydration p1 /\ nutrition p2 = nutrition p1
    /\ sunlight p2 = sunlight p1
    /\ growth_points p2 = growth_points p1 /\ stage p2 = stage p1.
Proof.
  destruct (trim_repot_same_outcome any_id "p1" 9 demo_store "p1" "u1"
              (new_plant "u1" "t1")
              (set_sunlight 48 (set_nutrition 48 (set_hydration 45 (new_plant "u1" "t1"))))
              (Some rose) 83
              eq_refl eq_refl eq_refl ltac:(vm_compute; reflexivity)
              ltac:(vm_compute; reflexivity) eq_refl)
    as (p1 & p2 & H1 & H2 & H3 & H4 & _ & _ & _ & H5 & H6 & H7 & H8 & H9 & _).
  exists p1, p2. split_and!; assumption.
Defined.

(** C3. A care action whose type is none of water, fertilize,
    sunlight_add, trim, repot changes nothing in the store: no plant, no
    action log, no user's xp (the decay that runs before the dispatch
    touches the request's own copy of the plant only, and nothing is
    persisted).  On an existing plant whose sunlight is in range and
    whose template reference parses, the answer is the client error 400
    "Unknown action". *)
Theorem unknown_action_rejected (ObjectId : string -> option string)
  (id : string) (a : CareAction) (now : Z) (d : store) :
  ~ recognized (type a) ->
  snd (care_action ObjectId id a now d) = d
  /\ (forall (k : string) (p : plant),
        oid ObjectId id = Ok k ->
        userplants d !! k = Some p ->
        field_in_range (sunlight p) ->
        (truthy (template p) = true -> is_Some (ObjectId (get (template p) ""%string))) ->
        fst (care_action ObjectId id a now d) = Ok (ErrorJSON 400 "Unknown action")).
Proof.
  intros Hn. split.
  - destruct (oid ObjectId id) as [k|] eqn:Ek; [|care_eval].
    destruct (userplants d !! k) as [p|] eqn:Ep; [|care_eval].
    pose proof (find_template_store ObjectId p (Some empty_dict) d) as Hs.
    destruct (find_template ObjectId p (Some empty_dict) d) as [[t|e] d'] eqn:Et;
      simpl in Hs; subst d'; [|care_eval].
    destruct (apply_decay p) as [pd|] eqn:Ed; [|care_eval].
    pose proof (dispatch_unrecognized a pd Hn) as Ea. care_eval.
  - intros k p Ek Ep Hs Ht.
    destruct (find_template_succeeds ObjectId p d Ht) as [t Et].
    apply find_template_pair in Et.
    destruct (apply_decay_succeeds p Hs) as [pd Ed].
    pose proof (dispatch_unrecognized a pd Hn) as Ea. care_eval.
Qed.

Lemma unknown_action_rejected_witness :
  care_action any_id "p1" {| type := "prune" |} 4 demo_store
  = (Ok (ErrorJSON 400 "Unknown action"), demo_store).
Proof.
  destruct (unknown_action_rejected any_id "p1" {| type := "prune" |} 4 demo_store
              prune_unrecognized) as [Hs Hr].
  specialize (Hr "p1"%string (new_plant "u1" "t1") eq_refl eq_refl
                (proj1 (proj2 (proj2 (new_plant_in_range "u1" "t1"))))
                (fun _ => ex_intro _ "t1"%string eq_refl)).
  destruct (care_action any_id "p1" {| type := "prune" |} 4 demo_store) as [r d'].
  simpl in Hs, Hr. rewrite Hs, Hr. reflexivity.
Defined.

(** C4. The water scenario.  A plant with hydration, nutrition and
    sunlight 50 under a template with ideal moisture 60 and ideal light
    70: decay gives 45, 48 and round(50 * 0.95) = 48; water then makes
    the hydration 65; the health score is 87; 5 xp are awarded, and the
    care endpoint stores and credits exactly that. *)
Theorem water_scenario (ObjectId : string -> option string)
  (id : string) (now : Z) (d : store) (k u : string) (p : plant) (t : template_doc) :
  hydration p = Some 50 -> nutrition p = Some 50 -> sunlight p = Some 50 ->
  ideal_moisture t = Some 60 -> ideal_light t = Some 70 ->
  oid ObjectId id = Ok k ->
  userplants d !! k = Some p ->
  fst (find_template ObjectId p (Some empty_dict) d) = Ok (Some t) ->
  oid ObjectId (owner p) = Ok u ->
  py_round (SFmul prec emax (lit 50) f0_95) = Ok 48
  /\ exists pd pw pf,
       apply_decay p = Ok pd
       /\ hydration pd = Some 45 /\ nutrition pd = Some 48 /\ sunlight pd = Some 48
       /\ dispatch {| type := "water" |} pd = Ok (Some (pw, 5))
       /\ hydration pw = Some 65
       /\ compute_health pw (Some t) = Ok 87
       /\ care_action ObjectId id {| type := "water" |} now d
          = (Ok (PlantJSON pf (template_data_of p (Some t))), store_after_care d k pf u 5)
       /\ hydration pf = Some 65 /\ nutrition pf = Some 48 /\ sunlight pf = Some 48
       /\ health_score pf = Some 87.
Proof.
  intros Hh Hn Hs Hm Hl Ek Ep Et Eu.
  split; [vm_compute; reflexivity|].
  set (pd := set_sunlight 48 (set_nutrition 48 (set_hydration 45 p))).
  set (pw := set_hydration 65 pd).
  assert (Ed : apply_decay p = Ok pd).
  { rewrite apply_decay_eq, Hh, Hn, Hs. reflexivity. }
  assert (Ea : dispatch {| type := "water" |} pd = Ok (Some (pw, 5))) by reflexivity.
  assert (Eh : compute_health pw (Some t) = Ok 87).
  { rewrite compute_health_total. unfold total_deviation.
    cbn [hydration nutrition sunlight pw pd set_hydration set_nutrition set_sunlight].
    rewrite Hm, Hl. vm_compute. reflexivity. }
  pose proof (care_action_ok ObjectId id {| type := "water" |} now d k u p pd pw
                (Some t) 5 87 Ek Ep Et Ed Ea Eh Eu) as Hc.
  cbv zeta in Hc.
  exists pd, pw. eexists. split; [exact Ed|].
  split; [reflexivity|]. split; [reflexivity|]. split; [reflexivity|].
  split; [exact Ea|]. split; [reflexivity|]. split; [exact Eh|].
  split; [exact Hc|].
  unfold log_action.
  destruct (apply_growth_stats (set_health_score 87 pw) (Some t)) as (G1 & G2 & G3 & G4).
  cbn [hydration nutrition sunlight health_score
       set_updated_at set_last_action_date set_action_log].
  rewrite G1, G2, G3, G4. split_and!; reflexivity.
Qed.

Lemma water_scenario_witness :
  exists pf,
    care_action any_id "p1" {| type := "water" |} 1 demo_store
    = (Ok (PlantJSON pf (Some rose)), store_after_care demo_store "p1" pf "u1" 5)
    /\ hydration pf = Some 65 /\ nutrition pf = Some 48 /\ sunlight pf = Some 48
    /\ health_score pf = Some 87.
Proof.
  destruct (water_scenario any_id "p1" 1 demo_store "p1" "u1" (new_plant "u1" "t1") rose
              eq_refl eq_refl eq_refl eq_refl eq_refl eq_refl eq_refl eq_refl eq_refl)
    as (_ & pd & pw & pf & _ & _ & _ & _ & _ & _ & _ & Hc & H1 & H2 & H3 & H4).
  exists pf. split_and!; assumption.
Defined.

(** C5, as stated, fails: on the freshly created plant (all stats 50)
    no number of decay passes brings the sunlight to 0; it stays at 10
    or above, because [round(s * 0.95)] returns [s] itself for every
    [s <= 10]. *)
Lemma decay_never_zeroes_sunlight :
  stats_in_range (new_plant "u1" "t1")
  /\ ~ (exists (n : nat) (p' : plant),
          decay_n n (new_plant "u1" "t1") = Ok p' /\ get (sunlight p') 0 = 0).
Proof.
  split; [apply new_plant_in_range|].
  intros (n & p' & E & H0).
  destruct (new_plant_in_range "u1" "t1") as (Hh & Hn & Hs & _).
  destruct (decay_n_bounds n (new_plant "u1" "t1") Hh Hn Hs)
    as (q & Eq & _ & _ & _ & _ & _ & _ & B & _).
  rewrite E in Eq. injection Eq as <-.
  cbn [sunlight new_plant get] in B. lia.
Qed.

(** C5, amended. For every plant with hydration, nutrition and sunlight
    in range there is a number of decay passes from which on the
    hydration is 0, the nutrition is 0 and the sunlight is the smaller
    of its starting value and 10, and they stay so under further
    passes. *)
Theorem decay_settles (p : plant) :
  field_in_range (hydration p) -> field_in_range (nutrition p) ->
  field_in_range (sunlight p) ->
  exists n : nat, forall m : nat, (n <= m)%nat ->
    exists p', decay_n m p = Ok p'
      /\ hydration p' = Some 0 /\ nutrition p' = Some 0
      /\ sunlight p' = Some (Z.min (get (sunlight p) 0) 10).
Proof.
  intros Hh Hn Hs. exists 100%nat. intros m Hm.
  destruct (decay_n_bounds m p Hh Hn Hs)
    as (p' & E & Qh & Qn & Qs & Bh & Bn & Bs1 & Bs2 & Hsome).
  exists p'. split; [exact E|].
  destruct (Hsome ltac:(lia)) as ([h Eh] & [n Enu] & [s Esu]).
  assert (R0 : in_range 0) by (unfold in_range; lia).
  pose proof (get_in_range _ 0 Hh R0) as Rh0.
  pose proof (get_in_range _ 0 Hn R0) as Rn0.
  pose proof (get_in_range _ 0 Hs R0) as Rs0.
  pose proof (Qh h Eh) as Rh. pose proof (Qn n Enu) as Rn. pose proof (Qs s Esu) as Rs.
  rewrite Eh, Enu, Esu in *. cbn [get] in *. unfold in_range in *.
  split_and!; f_equal; lia.
Qed.

Lemma decay_settles_witness :
  exists n : nat, forall m : nat, (n <= m)%nat ->
    exists p', decay_n m (new_plant "u1" "t1") = Ok p'
      /\ hydration p' = Some 0 /\ nutrition p' = Some 0 /\ sunlight p' = Some 10.
Proof.
  destruct (new_plant_in_range "u1" "t1") as (Hh & Hn & Hs & _).
  exact (decay_settles (new_plant "u1" "t1") Hh Hn Hs).
Defined.

(** C6, as stated, fails: the stored stat is [int(clamp(...))], not
    [clamp(...)].  A moisture of 45.7 is left at 45.7 by [clamp] but
    stored as hydration 45; a light of 505 is stored as sunlight 50;
    and in binary64 a light of 290 gives 28.999999999999996, stored as
    sunlight 28. *)
Lemma sensor_value_is_truncated :
  (exists pf,
     userplants (snd (ingest_sensor any_id (reading "p1" (Some f45_7) None) 1 demo_store))
       !! "p1"%string = Some pf
     /\ hydration pf = Some 45
     /\ clamp (PyFloat f45_7) = PyFloat f45_7
     /\ ~ same_value (clamp (PyFloat f45_7)) 45)
  /\ (exists pf,
        userplants (snd (ingest_sensor any_id (reading "p1" None (Some (lit 505))) 1 demo_store))
          !! "p1"%string = Some pf
        /\ sunlight pf = Some 50
        /\ clamp (PyFloat (SFmul prec emax (SFdiv prec emax (lit 505) f1000_0) f100))
           = PyFloat f50_5
        /\ ~ same_value (PyFloat f50_5) 50)
  /\ (exists pf,
        userplants (snd (ingest_sensor any_id (reading "p1" None (Some (lit 290))) 1 demo_store))
          !! "p1"%string = Some pf
        /\ sunlight pf = Some 28).
Proof.
  split_and!.
  - eexists. split; [vm_compute; reflexivity|].
    split; [reflexivity|]. split; [vm_compute; reflexivity|].
    vm_compute. discriminate.
  - eexists. split; [vm_compute; reflexivity|].
    split; [reflexivity|]. split; [vm_compute; reflexivity|].
    vm_compute. discriminate.
  - eexists. split; [vm_compute; reflexivity|]. reflexivity.
Qed.

(** C6, amended. On a plant with stats in range whose template resolves
    to a dict with ideals in range, a sensor ingest succeeds and never
    applies decay: nutrition is left as it is, and so are hydration
    without a moisture reading and sunlight without a light reading.
    With moisture present the hydration becomes [int(clamp(moisture))],
    the clamped value truncated toward zero; with light present the
    sunlight becomes [int(clamp((light / 1000.0) * 100))] in binary64
    arithmetic, which is 50 for light 500, 100 for every light above
    1000 and 0 for every light below 0.  Temperature and humidity do not
    change what is stored for the plant. *)
Theorem ingest_sensor_overwrites (ObjectId : string -> option string)
  (data : SensorIn) (now : Z) (d : store) (k : string) (p : plant) (t : template_doc) :
  oid ObjectId (plant_id data) = Ok k ->
  userplants d !! k = Some p ->
  fst (find_template ObjectId p (Some empty_dict) d) = Ok (Some t) ->
  field_in_range (hydration p) -> field_in_range (nutrition p) ->
  field_in_range (sunlight p) -> ideals_in_range t ->
  exists pf,
    ingest_sensor ObjectId data now d
    = (Ok (PlantJSON pf (template_data_of p (Some t))),
       store_after_sensor d k pf (sensor_doc_of data now))
    /\ nutrition pf = nutrition p
    /\ match moisture data with
       | Some m => exists v, py_int (clamp (PyFloat m)) = Ok v /\ hydration pf = Some v
       | None => hydration pf = hydration p
       end
    /\ match light data with
       | Some l =>
           exists v,
             py_int (clamp (PyFloat (SFmul prec emax (SFdiv prec emax l f1000_0) f100)))
               = Ok v
             /\ sunlight pf = Some v
             /\ (l = lit 500 -> v = 50)
             /\ (num_lt (PyInt 1000) (PyFloat l) = true -> v = 100)
             /\ (num_lt (PyFloat l) (PyInt 0) = true -> v = 0)
       | None => sunlight pf = sunlight p
       end
    /\ (forall temp' humidity' : option spec_float,
          userplants (snd (ingest_sensor ObjectId (with_ambient data temp' humidity') now d))
          = userplants (snd (ingest_sensor ObjectId data now d))).
Proof.
  intros Ek Ep Et Hh Hn Hs Hi.
  destruct (sensor_update_total data p) as [ps Es].
  pose proof (sensor_update_inv data p ps Es) as (En & _ & _ & _ & Em & El).
  assert (Rh : field_in_range (hydration ps)).
  { destruct (moisture data) as [m|].
    - destruct Em as [v [Ev ->]]. apply field_in_range_Some.
      destruct (py_int_clamp_float m) as [v' [Ev' Hv']].
      rewrite Ev in Ev'. injection Ev' as <-. exact Hv'.
    - rewrite Em. exact Hh. }
  assert (Rs : field_in_range (sunlight ps)).
  { destruct (light data) as [l|].
    - destruct El as [v [Ev ->]]. apply field_in_range_Some.
      unfold normalize_light in Ev.
      destruct (py_int_clamp_float (SFmul prec emax (SFdiv prec emax l f1000_0) f100))
        as [v' [Ev' Hv']].
      rewrite Ev in Ev'. injection Ev' as <-. exact Hv'.
    - rewrite El. exact Hs. }
  assert (Rn : field_in_range (nutrition ps)) by (rewrite En; exact Hn).
  pose proof (compute_health_in_range ps t Rh Rn Rs Hi) as Eh.
  pose proof (ingest_sensor_ok ObjectId data now d k p ps (Some t) _ Ek Ep Et Es Eh) as Hc.
  cbv zeta in Hc. eexists. split; [exact Hc|].
  destruct (apply_growth_stats
              (set_health_score (100 - (total_deviation ps t + 2) / 3) ps) (Some t))
    as (G1 & G2 & G3 & _).
  cbn [hydration nutrition sunlight set_updated_at].
  rewrite G1, G2, G3. cbn [hydration nutrition sunlight set_health_score].
  split; [exact En|]. split; [exact Em|]. split.
  - destruct (light data) as [l|]; [|exact El].
    destruct El as [v [Ev Esun]]. exists v.
    split; [exact Ev|]. split; [exact Esun|]. split_and!.
    + intros ->. vm_compute in Ev. congruence.
    + intros Hl. rewrite (normalize_light_above l Hl) in Ev. congruence.
    + intros Hl. rewrite (normalize_light_below l Hl) in Ev. congruence.
  - intros temp' humidity'.
    pose proof (ingest_sensor_ok ObjectId (with_ambient data temp' humidity') now d k p ps
                  (Some t) _ Ek Ep Et Es Eh) as Hc'.
    cbv zeta in Hc'. rewrite Hc, Hc'. reflexivity.
Qed.

Lemma ingest_sensor_overwrites_witness :
  exists pf,
    ingest_sensor any_id (reading "p1" (Some f45_7) (Some (lit 500))) 2 demo_store
    = (Ok (PlantJSON pf (Some rose)),
       store_after_sensor demo_store "p1" pf
         (sensor_doc_of (reading "p1" (Some f45_7) (Some (lit 500))) 2))
    /\ nutrition pf = Some 50
    /\ hydration pf = Some 45
    /\ sunlight pf = Some 50.
Proof.
  destruct (new_plant_in_range "u1" "t1") as (Hh & Hn & Hs & _).
  assert (Hi : ideals_in_range rose).
  { split; intros v [= <-]; unfold in_range; lia. }
  destruct (ingest_sensor_overwrites any_id (reading "p1" (Some f45_7) (Some (lit 500))) 2
              demo_store "p1"%string (new_plant "u1" "t1") rose
              eq_refl eq_refl eq_refl Hh Hn Hs Hi)
    as (pf & Hc & H1 & H2 & H3 & _).
  exists pf. split; [exact Hc|]. split; [exact H1|].
  cbn [moisture light reading] in H2, H3.
  destruct H2 as (v & Ev & ->). destruct H3 as (w & Ew & -> & _).
  vm_compute in Ev. vm_compute in Ew.
  injection Ev as <-. injection Ew as <-. split; reflexivity.
Defined.

(** C7. [apply_growth] adds exactly 10 growth points when the health
    score exceeds 70 and leaves them as they are otherwise; the stage
    it stores is mature iff the resulting points are at least 500,
    juvenile iff at least 250 and below 500, sprout iff at least 100
    and below 250, seed iff below 100.  A plant at 95 points with
    health 75 reaches 105 points and goes from seed to sprout. *)
Theorem apply_growth_spec (p : plant) (t : option template_doc) :
  let p' := apply_growth p t in
  let gp' := get (growth_points p') 0 in
  (70 < get (health_score p) 0 ->
     growth_points p' = Some (get (growth_points p) 0 + 10))
  /\ (get (health_score p) 0 <= 70 -> growth_points p' = growth_points p)
  /\ (stage p' = Some "mature"%string <-> 500 <= gp')
  /\ (stage p' = Some "juvenile"%string <-> 250 <= gp' < 500)
  /\ (stage p' = Some "sprout"%string <-> 100 <= gp' < 250)
  /\ (stage p' = Some "seed"%string <-> gp' < 100)
  /\ (growth_points p = Some 95 -> health_score p = Some 75 ->
      stage_of_points 95 = "seed"%string
      /\ growth_points p' = Some 105 /\ stage p' = Some "sprout"%string).
Proof.
  intros p' gp'.
  pose proof (apply_growth_points p t) as Hgp.
  pose proof (apply_growth_stage p t) as Hst.
  fold p' in Hgp, Hst. fold gp' in Hst.
  split_and!.
  - intros H. apply Z.ltb_lt in H. rewrite H in Hgp. exact Hgp.
  - intros H. apply Z.ltb_ge in H. rewrite H in Hgp. exact Hgp.
  - rewrite Hst. unfold stage_of_points.
    destruct (Z.leb_spec 500 gp'); [split; [lia|reflexivity]|].
    destruct (Z.leb_spec 250 gp'); [split; [discriminate|lia]|].
    destruct (Z.leb_spec 100 gp'); split; (discriminate || lia).
  - rewrite Hst. unfold stage_of_points.
    destruct (Z.leb_spec 500 gp'); [split; [discriminate|lia]|].
    destruct (Z.leb_spec 250 gp'); [split; [lia|reflexivity]|].
    destruct (Z.leb_spec 100 gp'); split; (discriminate || lia).
  - rewrite Hst. unfold stage_of_points.
    destruct (Z.leb_spec 500 gp'); [split; [discriminate|lia]|].
    destruct (Z.leb_spec 250 gp'); [split; [discriminate|lia]|].
    destruct (Z.leb_spec 100 gp'); split; (discriminate || lia || reflexivity).
  - rewrite Hst. unfold stage_of_points.
    destruct (Z.leb_spec 500 gp'); [split; [discriminate|lia]|].
    destruct (Z.leb_spec 250 gp'); [split; [discriminate|lia]|].
    destruct (Z.leb_spec 100 gp'); split; (discriminate || lia || reflexivity).
  - intros Hg Hh. split; [reflexivity|].
    unfold gp' in Hst. rewrite Hh, Hg in Hgp.
    change (growth_points p' = Some 105) in Hgp.
    rewrite Hgp in Hst. split; [exact Hgp|exact Hst].
Qed.

Lemma apply_growth_spec_witness :
  growth_points seedling = Some 95 /\ health_score seedling = Some 75
  /\ growth_points (apply_growth seedling (Some rose)) = Some 105
  /\ stage (apply_growth seedling (Some rose)) = Some "sprout"%string.
Proof.
  split; [reflexivity|]. split; [reflexivity|].
  pose proof (apply_growth_spec seedling (Some rose)) as H. cbv zeta in H.
  destruct H as (_ & _ & _ & _ & _ & _ & H).
  destruct (H eq_refl eq_refl) as (_ & H1 & H2). split; assumption.
Defined.

(** C8. Across any sequence of care actions, sensor ingests and growth
    runs, the growth points of a plant never decrease: at any two points
    of the sequence the later value is at least the earlier one.  Once
    an operation has changed the plant, its stored stage is the function
    [stage_of_points] of its current growth points, whatever came
    before; and from a point where the stage agrees with the growth
    points (as at creation) it never moves down in
    seed < sprout < juvenile < mature. *)
Theorem growth_never_decreases (ObjectId : string -> option string)
  (rs1 rs2 : list (request * Z)) (d : store) (k : string) (p : plant) :
  userplants d !! k = Some p ->
  exists p1 p2,
    userplants (run ObjectId rs1 d) !! k = Some p1
    /\ userplants (run ObjectId (rs1 ++ rs2) d) !! k = Some p2
    /\ get (growth_points p) 0 <= get (growth_points p1) 0
    /\ get (growth_points p1) 0 <= get (growth_points p2) 0
    /\ (p2 = p1 \/ stage p2 = Some (stage_of_points (get (growth_points p2) 0)))
    /\ (stage p1 = Some (stage_of_points (get (growth_points p1) 0)) ->
        stage p2 = Some (stage_of_points (get (growth_points p2) 0))
        /\ stage_rank (stage p1) <= stage_rank (stage p2)).
Proof.
  intros Hk.
  destruct (run_reaches ObjectId rs1 d k p Hk) as [p1 [Hk1 Hr1]].
  destruct (run_reaches ObjectId rs2 (run ObjectId rs1 d) k p1 Hk1) as [p2 [Hk2 Hr2]].
  exists p1, p2. rewrite run_app.
  split; [exact Hk1|]. split; [exact Hk2|].
  apply rtc_engine_step_growth in Hr1. destruct Hr1 as [Hle1 _].
  apply rtc_engine_step_growth in Hr2. destruct Hr2 as [Hle Hc].
  split; [exact Hle1|]. split; [exact Hle|]. split; [exact Hc|].
  intros H0.
  assert (Hc' : stage p2 = Some (stage_of_points (get (growth_points p2) 0))).
  { destruct Hc as [->|Hc]; assumption. }
  split; [exact Hc'|]. rewrite H0, Hc'. apply stage_rank_mono. exact Hle.
Qed.

Lemma growth_never_decreases_witness :
  userplants demo_store !! "p1"%string = Some (new_plant "u1" "t1")
  /\ exists p1 p2,
    userplants (run any_id (take 2 demo_requests) demo_store) !! "p1"%string = Some p1
    /\ userplants (run any_id demo_requests demo_store) !! "p1"%string = Some p2
    /\ get (growth_points (new_plant "u1" "t1")) 0 <= get (growth_points p1) 0
    /\ get (growth_points p1) 0 <= get (growth_points p2) 0.
Proof.
  split; [reflexivity|].
  destruct (growth_never_decreases any_id (take 2 demo_requests) (drop 2 demo_requests)
              demo_store "p1" (new_plant "u1" "t1") eq_refl)
    as (p1 & p2 & H1 & H2 & H3 & H4 & _).
  exists p1, p2. split_and!; assumption.
Defined.

(** C9. A sensor reading with neither moisture nor light leaves
    hydration, nutrition and sunlight as they are, yet stores the
    recomputed health score and applies growth: 10 more growth points
    whenever that score exceeds 70, and the stage of the resulting
    points.  Such a reading can therefore change the stored health
    score, add growth points and advance the stage although no stat
    changed, as it does on the sample seedling. *)
Theorem silent_reading_still_grows :
  (forall (ObjectId : string -> option string) (data : SensorIn) (now : Z)
          (d : store) (k : string) (p : plant) (t : option template_doc) (h : Z),
     moisture data = None -> light data = None ->
     oid ObjectId (plant_id data) = Ok k ->
     userplants d !! k = Some p ->
     fst (find_template ObjectId p (Some empty_dict) d) = Ok t ->
     compute_health p t = Ok h ->
     exists pf,
       ingest_sensor ObjectId data now d
       = (Ok (PlantJSON pf (template_data_of p t)),
          store_after_sensor d k pf (sensor_doc_of data now))
       /\ hydration pf = hydration p /\ nutrition pf = nutrition p
       /\ sunlight pf = sunlight p
       /\ health_score pf = Some h
       /\ (70 < h -> growth_points pf = Some (get (growth_points p) 0 + 10))
       /\ (h <= 70 -> growth_points pf = growth_points p)
       /\ stage pf = Some (stage_of_points (get (growth_points pf) 0)))
  /\ (exists pf,
        userplants (snd (ingest_sensor any_id (reading "p2" None None) 7 seedling_store))
          !! "p2"%string = Some pf
        /\ hydration pf = hydration seedling /\ nutrition pf = nutrition seedling
        /\ sunlight pf = sunlight seedling
        /\ health_score seedling = Some 75 /\ health_score pf = Some 86
        /\ growth_points seedling = Some 95 /\ growth_points pf = Some 105
        /\ stage seedling = Some "seed"%string /\ stage pf = Some "sprout"%string).
Proof.
  split.
  - intros ObjectId data now d k p t h Hm Hl Ek Ep Et Eh.
    assert (Es : sensor_update data p = Ok p).
    { unfold sensor_update. rewrite Hm, Hl. reflexivity. }
    pose proof (ingest_sensor_ok ObjectId data now d k p p t h Ek Ep Et Es Eh) as Hc.
    cbv zeta in Hc. eexists. split; [exact Hc|].
    destruct (apply_growth_stats (set_health_score h p) t) as (G1 & G2 & G3 & G4).
    pose proof (apply_growth_points (set_health_score h p) t) as Hgp.
    pose proof (apply_growth_stage (set_health_score h p) t) as Hst.
    cbn [health_score growth_points set_health_score get] in Hgp.
    cbn [hydration nutrition sunlight health_score growth_points stage set_updated_at].
    rewrite G1, G2, G3, G4.
    split_and!; try reflexivity; try exact Hst.
    + intros H. apply Z.ltb_lt in H. rewrite H in Hgp. exact Hgp.
    + intros H. apply Z.ltb_ge in H. rewrite H in Hgp. exact Hgp.
  - eexists. split; [vm_compute; reflexivity|].
    split_and!; reflexivity.
Qed.

Lemma silent_reading_still_grows_witness :
  exists pf,
    ingest_sensor any_id (reading "p2" None None) 7 seedling_store
    = (Ok (PlantJSON pf (Some rose)),
       store_after_sensor seedling_store "p2" pf (sensor_doc_of (reading "p2" None None) 7))
    /\ hydration pf = Some 50 /\ nutrition pf = Some 50 /\ sunlight pf = Some 50
    /\ health_score pf = Some 86
    /\ growth_points pf = Some 105.
Proof.
  destruct (proj1 silent_reading_still_grows any_id (reading "p2" None None) 7
              seedling_store "p2"%string seedling (Some rose) 86
              eq_refl eq_refl eq_refl eq_refl eq_refl ltac:(vm_compute; reflexivity))
    as (pf & Hc & H1 & H2 & H3 & H4 & H5 & _).
  exists pf. split_and!; try assumption. apply H5. lia.
Defined.

(** C10. The failing input: a plant whose template id names no
    template.  [find_one] answers [None], and the first [template.get]
    of [compute_health] raises; the care action, the sensor ingest and
    the growth run all fail and store nothing.  A plant without any
    template reference does get [{}] and the defaults 50 and 50. *)
Theorem dangling_template_raises :
  care_action any_id "p1" {| type := "water" |} 1 dangling_store
    = (Raise AttributeError, dangling_store)
  /\ ingest_sensor any_id (reading "p1" None None) 1 dangling_store
    = (Raise AttributeError, dangling_store)
  /\ run_growth any_id "u1" 1 dangling_store
    = (Raise AttributeError, dangling_store)
  /\ (exists pf,
        fst (care_action any_id "p3" {| type := "water" |} 1 untemplated_store)
          = Ok (PlantJSON pf None)
        /\ health_score pf = Some 90).
Proof.
  split; [vm_compute; reflexivity|].
  split; [vm_compute; reflexivity|].
  split; [vm_compute; reflexivity|].
  eexists. split; [vm_compute; reflexivity|reflexivity].
Qed.

(** * Further properties

    ** The complete outcome of a request *)

Section Outcomes.

Variable ObjectId : string -> option string.

(** Every way a care action can end: nothing stored and no plant in the
    answer; the plant stored and the owner's id rejected; or the plant
    stored, the owner credited and the stored plant answered. *)
Lemma care_action_cases (id : string) (a : CareAction) (now : Z) (d : store) :
  (exists r, care_action ObjectId id a now d = (r, d) /\ no_plant_answer r)
  \/ exists k p t pd pa xp_reward h,
       oid ObjectId id = Ok k /\ userplants d !! k = Some p
       /\ fst (find_template ObjectId p (Some empty_dict) d) = Ok t
       /\ apply_decay p = Ok pd
       /\ dispatch a pd = Ok (Some (pa, xp_reward))
       /\ compute_health pa t = Ok h
       /\ ((exists e, oid ObjectId (owner p) = Raise e
              /\ care_action ObjectId id a now d
                 = (Raise e,
                    store_plant_only d k
                      (log_action a xp_reward now (apply_growth (set_health_score h pa) t))))
           \/ (exists u, oid ObjectId (owner p) = Ok u
                 /\ care_action ObjectId id a now d
                    = (Ok (PlantJSON
                             (log_action a xp_reward now
                                (apply_growth (set_health_score h pa) t))
                             (template_data_of p t)),
                       store_after_care d k
                         (log_action a xp_reward now
                            (apply_growth (set_health_score h pa) t))
                         u xp_reward))).
Proof.
  destruct (oid ObjectId id) as [k|] eqn:Ek;
    [|left; eexists; split; [care_eval|exact I]].
  destruct (userplants d !! k) as [p|] eqn:Ep;
    [|left; eexists; split; [care_eval|exact I]].
  pose proof (find_template_store ObjectId p (Some empty_dict) d) as Hs.
  destruct (find_template ObjectId p (Some empty_dict) d) as [[t|e] d'] eqn:Et;
    simpl in Hs; subst d'; [|left; eexists; split; [care_eval|exact I]].
  destruct (apply_decay p) as [pd|] eqn:Ed;
    [|left; eexists; split; [care_eval|exact I]].
  destruct (dispatch a pd) as [[[pa xp_reward]|]|] eqn:Ea;
    try (left; eexists; split; [care_eval|exact I]).
  destruct (compute_health pa t) as [h|] eqn:Eh;
    [|left; eexists; split; [care_eval|exact I]].
  right. exists k, p, t, pd, pa, xp_reward, h.
  assert (Et' : fst (find_template ObjectId p (Some empty_dict) d) = Ok t)
    by (rewrite Et; reflexivity).
  repeat (split; [first [assumption | reflexivity]|]).
  destruct (oid ObjectId (owner p)) as [u|e] eqn:Eu.
  - right. exists u. split; [reflexivity|].
    exact (care_action_ok ObjectId id a now d k u p pd pa t xp_reward h
             Ek Ep Et' Ed Ea Eh Eu).
  - left. exists e. split; [reflexivity|].
    set (pf := log_action a xp_reward now (apply_growth (set_health_score h pa) t)).
    assert (Hown : owner pf = owner p).
    { destruct (apply_decay_frame _ _ Ed) as (O1 & _).
      destruct (dispatch_frame _ _ _ _ Ea) as (O2 & _).
      destruct (apply_growth_frame (set_health_score h pa) t) as (O3 & _).
      unfold pf, log_action.
      cbn [owner set_updated_at set_last_action_date set_action_log].
      rewrite O3. cbn [owner set_health_score]. congruence. }
    unfold care_action, bind, lift, read, ret. eval_with_eqs.
    cbv zeta. fold (log_action a xp_reward now (apply_growth (set_health_score h pa) t)).
    fold pf. unfold update_plant. rewrite Ep, Hown, Eu. reflexivity.
Qed.

(** Every way a sensor ingest can end: nothing stored and no plant in
    the answer, or the plant and the reading stored and the stored plant
    answered. *)
Lemma ingest_sensor_cases (data : SensorIn) (now : Z) (d : store) :
  (exists r, ingest_sensor ObjectId data now d = (r, d) /\ no_plant_answer r)
  \/ exists k p t ps h,
       oid ObjectId (plant_id data) = Ok k /\ userplants d !! k = Some p
       /\ fst (find_template ObjectId p (Some empty_dict) d) = Ok t
       /\ sensor_update data p = Ok ps
       /\ compute_health ps t = Ok h
       /\ ingest_sensor ObjectId data now d
          = (Ok (PlantJSON (set_updated_at now (apply_growth (set_health_score h ps) t))
                   (template_data_of p t)),
             store_after_sensor d k
               (set_updated_at now (apply_growth (set_health_score h ps) t))
               (sensor_doc_of data now)).
Proof.
  destruct (oid ObjectId (plant_id data)) as [k|] eqn:Ek;
    [|left; eexists; split; [sensor_eval|exact I]].
  destruct (userplants d !! k) as [p|] eqn:Ep;
    [|left; eexists; split; [sensor_eval|exact I]].
  pose proof (find_template_store ObjectId p (Some empty_dict) d) as Hs.
  destruct (find_template ObjectId p (Some empty_dict) d) as [[t|e] d'] eqn:Et;
    simpl in Hs; subst d'; [|left; eexists; split; [sensor_eval|exact I]].
  assert (Et' : fst (find_template ObjectId p (Some empty_dict) d) = Ok t)
    by (rewrite Et; reflexivity).
  destruct (sensor_update data p) as [ps|e] eqn:Es.
  - destruct (compute_health ps t) as [h|e] eqn:Eh.
    + right. exists k, p, t, ps, h.
      repeat (split; [first [assumption | reflexivity]|]).
      exact (ingest_sensor_ok ObjectId data now d k p ps t h Ek Ep Et' Es Eh).
    + left. unfold sensor_update in Es.
      destruct (match moisture data with
                | Some m => rbind (py_int (clamp (PyFloat m))) (fun v => Ok (set_hydration v p))
                | None => Ok p
                end) as [p1|] eqn:E1; [|discriminate].
      cbn [rbind] in Es. eexists. split; [sensor_eval|exact I].
  - exfalso. destruct (sensor_update_total data p) as [ps Es']. congruence.
Qed.

End Outcomes.

(** ** What a request leaves alone *)

Section Frames.

Variable ObjectId : string -> option string.

Lemma growth_loop_frame (plants : list (string * plant)) (now : Z) :
  forall (updated : Z) (d : store),
  planttemplates (snd (growth_loop ObjectId plants now updated d)) = planttemplates d
  /\ users (snd (growth_loop ObjectId plants now updated d)) = users d
  /\ sensordata (snd (growth_loop ObjectId plants now updated d)) = sensordata d.
Proof.
  induction plants as [|[k1 p1] rest IH]; intros updated d.
  - repeat split.
  - pose proof (find_template_store ObjectId p1 (Some empty_dict) d) as Hs.
    destruct (find_template ObjectId p1 (Some empty_dict) d) as [[t|e] d'] eqn:Et;
      simpl in Hs; subst d'; [|loop_eval; repeat split].
    destruct (apply_decay p1) as [pd|] eqn:Ed; [|loop_eval; repeat split].
    destruct (compute_health pd t) as [h|] eqn:Eh; [|loop_eval; repeat split].
    loop_eval. cbv zeta. set (pf := set_updated_at now _).
    destruct (update_plant k1 pf d) as [[[]|e] d1] eqn:Eu;
      [|unfold update_plant in Eu; discriminate].
    destruct (IH (updated + 1) d1) as (I1 & I2 & I3).
    rewrite I1, I2, I3.
    unfold update_plant in Eu. injection Eu as <-.
    destruct (userplants d !! k1); repeat split.
Qed.

Lemma run_growth_frame (user_id : string) (now : Z) (d : store) :
  planttemplates (snd (run_growth ObjectId user_id now d)) = planttemplates d
  /\ users (snd (run_growth ObjectId user_id now d)) = users d
  /\ sensordata (snd (run_growth ObjectId user_id now d)) = sensordata d.
Proof.
  unfold run_growth, bind, read, ret.
  set (plants := filter _ _).
  pose proof (growth_loop_frame plants now 0 d) as H.
  destruct (growth_loop ObjectId plants now 0 d) as [[n|e] d1]; exact H.
Qed.

(** The reward of a dispatched action is the one of its type. *)
Lemma dispatch_reward (a : CareAction) (p pa : plant) (xp_reward : Z) :
  dispatch a p = Ok (Some (pa, xp_reward)) ->
  recognized (type a) /\ xp_reward = reward_of (type a) /\ 4 <= xp_reward <= 10.
Proof.
  intros H. apply dispatch_inv in H. unfold recognized.
  destruct H as [(E & -> & _)|[(E & -> & _)|[(E & -> & _)|[(E & -> & _)|(E & -> & _)]]]];
    rewrite E; split_and!; auto 6; try reflexivity; lia.
Qed.

(** One request: templates are untouched; users are untouched or one of
    them is credited a reward of 4 to 10 by a care action; the sensor
    documents are untouched or a sensor ingest appends its reading. *)
Lemma handle_frame (r : request) (now : Z) (d : store) :
  planttemplates (snd (handle ObjectId r now d)) = planttemplates d
  /\ (users (snd (handle ObjectId r now d)) = users d
      \/ exists id a u xp_reward,
           r = Care id a /\ 4 <= xp_reward <= 10
           /\ users (snd (handle ObjectId r now d)) = alter (inc_xp xp_reward) u (users d))
  /\ (sensordata (snd (handle ObjectId r now d)) = sensordata d
      \/ exists data,
           r = Sensor data
           /\ sensordata (snd (handle ObjectId r now d))
              = sensordata d ++ [sensor_doc_of data now]).
Proof.
  destruct r as [id a|data|uid]; cbn [handle].
  - destruct (care_action_cases ObjectId id a now d)
      as [(r & -> & _)|(k & p & t & pd & pa & xp & h & _ & _ & _ & _ & Ea & _
                        & [(e & _ & ->)|(u & _ & ->)])];
      cbn [snd store_plant_only store_after_care planttemplates users sensordata];
      split_and!; auto.
    right. exists id, a, u, xp. split_and!; try reflexivity;
      destruct (dispatch_reward _ _ _ _ Ea) as (_ & _ & Hx); lia.
  - destruct (ingest_sensor_cases ObjectId data now d)
      as [(r & -> & _)|(k & p & t & ps & h & _ & _ & _ & _ & _ & ->)];
      cbn [snd store_after_sensor planttemplates users sensordata];
      split_and!; auto.
    right. exists data. split; reflexivity.
  - destruct (run_growth_frame uid now d) as (H1 & H2 & H3).
    rewrite H1, H2, H3. split_and!; auto.
Qed.

Lemma sensordata_run (rs : list (request * Z)) :
  forall d : store,
  exists new, sensordata (run ObjectId rs d) = sensordata d ++ new
    /\ (length new <= sensor_requests rs)%nat.
Proof.
  induction rs as [|[r now] rs IH]; intros d; cbn [run].
  - exists []. rewrite app_nil_r. split; [reflexivity|simpl; lia].
  - destruct (IH (snd (handle ObjectId r now d))) as (new & E & Hlen).
    destruct (handle_frame r now d) as (_ & _ & [Hs|(data & -> & Hs)]).
    + exists new. rewrite E, Hs. split; [reflexivity|].
      destruct r; simpl; lia.
    + exists (sensor_doc_of data now :: new). rewrite E, Hs, <- app_assoc.
      split; [reflexivity|simpl; lia].
Qed.

Lemma planttemplates_run (rs : list (request * Z)) :
  forall d : store, planttemplates (run ObjectId rs d) = planttemplates d.
Proof.
  induction rs as [|[r now] rs IH]; intros d; cbn [run]; [reflexivity|].
  rewrite IH. apply handle_frame.
Qed.

End Frames.

(** X1. Across any sequence of care actions, sensor ingests and growth
    runs the plant templates are never modified, no plant is created or
    deleted, and the sensor documents already stored are kept in order:
    the collection only grows at its end, by at most one document per
    sensor request. *)
Theorem run_store_frame (ObjectId : string -> option string)
  (rs : list (request * Z)) (d : store) :
  planttemplates (run ObjectId rs d) = planttemplates d
  /\ (forall k, is_Some (userplants (run ObjectId rs d) !! k)
                <-> is_Some (userplants d !! k))
  /\ exists new, sensordata (run ObjectId rs d) = sensordata d ++ new
       /\ (length new <= sensor_requests rs)%nat.
Proof.
  split; [apply planttemplates_run|]. split; [|apply sensordata_run].
  intros k. split.
  - intros [p' Hp'].
    destruct (run_userplants ObjectId rs d k p' Hp') as [p [Hp _]]. eauto.
  - apply run_keeps.
Qed.

(** ** Users *)

Lemma handle_user (ObjectId : string -> option string) (r : request) (now : Z)
  (d : store) (u : string) :
  match users d !! u with
  | Some usr =>
      exists usr', users (snd (handle ObjectId r now d)) !! u = Some usr'
        /\ xp usr <= xp usr' <= xp usr + 10
        /\ name usr' = name usr /\ email usr' = email usr /\ level usr' = level usr
        /\ streak usr' = streak usr /\ badges usr' = badges usr
  | None => users (snd (handle ObjectId r now d)) !! u = None
  end.
Proof.
  destruct (handle_frame ObjectId r now d) as (_ & [->|(id & a & u0 & x & _ & Hx & ->)] & _).
  - destruct (users d !! u) as [usr|]; [|reflexivity].
    exists usr. split_and!; auto; lia.
  - rewrite lookup_alter. case_decide as Hu.
    + subst u0. destruct (users d !! u) as [usr|]; [|reflexivity].
      exists (inc_xp x usr). cbn. split_and!; auto; lia.
    + destruct (users d !! u) as [usr|]; [|reflexivity].
      exists usr. split_and!; auto; lia.
Qed.

(** X2. Across any sequence of requests a user document is never
    created or deleted, its xp never decreases and grows by at most 10
    per request, and nothing else in it changes: name, email, level,
    streak and badges stay as they were (the level in particular is
    never recomputed from the xp). *)
Theorem users_only_gain_xp (ObjectId : string -> option string)
  (rs : list (request * Z)) (d : store) (u : string) :
  match users d !! u with
  | Some usr =>
      exists usr', users (run ObjectId rs d) !! u = Some usr'
        /\ xp usr <= xp usr' <= xp usr + 10 * Z.of_nat (length rs)
        /\ name usr' = name usr /\ email usr' = email usr /\ level usr' = level usr
        /\ streak usr' = streak usr /\ badges usr' = badges usr
  | None => users (run ObjectId rs d) !! u = None
  end.
Proof.
  revert d. induction rs as [|[r now] rs IH]; intros d; cbn [run].
  - destruct (users d !! u) as [usr|]; [|reflexivity].
    exists usr. simpl. split_and!; auto; lia.
  - pose proof (handle_user ObjectId r now d u) as H1.
    pose proof (IH (snd (handle ObjectId r now d))) as H2.
    destruct (users d !! u) as [usr|].
    + destruct H1 as (usr1 & E1 & Hx1 & N1 & M1 & L1 & S1 & B1).
      rewrite E1 in H2.
      destruct H2 as (usr2 & E2 & Hx2 & N2 & M2 & L2 & S2 & B2).
      exists usr2. split; [exact E2|].
      rewrite N2, M2, L2, S2, B2. cbn [length].
      split_and!; auto; lia.
    + rewrite H1 in H2. exact H2.
Qed.

(** ** One request, one plant *)

Lemma growth_loop_owner (ObjectId : string -> option string)
  (plants : list (string * plant)) (now : Z) (k : string) (p : plant) :
  (forall q, In (k, q) plants -> False) ->
  forall (updated : Z) (d : store),
  userplants d !! k = Some p ->
  userplants (snd (growth_loop ObjectId plants now updated d)) !! k = Some p.
Proof.
  intros Hnot updated d Hk.
  destruct (growth_loop_keeps ObjectId plants now k updated d ltac:(eauto)) as [p' Hp'].
  destruct (growth_loop_userplants ObjectId plants now updated d k p' Hp')
    as [H|(q & Hin & _)]; [congruence|].
  exfalso. eapply Hnot. exact Hin.
Qed.

(** X3. A request changes only the plant it is addressed to: a care
    action or a sensor reading leaves every plant under another id as it
    is, and a growth run leaves every plant of another owner as it is. *)
Theorem other_plants_untouched (ObjectId : string -> option string)
  (r : request) (now : Z) (d : store) (k : string) (p : plant) :
  userplants d !! k = Some p ->
  ~ addressed ObjectId r k p ->
  userplants (snd (handle ObjectId r now d)) !! k = Some p.
Proof.
  intros Hk Hn. destruct r as [id a|data|uid]; cbn [handle addressed] in *.
  - destruct (care_action_userplants ObjectId id a now d)
      as [->|(k0 & p0 & t & pd & pa & xp & h & Ek & _ & _ & _ & _ & _ & ->)];
      [exact Hk|].
    rewrite lookup_insert_ne; [exact Hk|]. intros ->. exact (Hn Ek).
  - destruct (ingest_sensor_userplants ObjectId data now d)
      as [->|(k0 & p0 & t & ps & h & Ek & _ & _ & _ & _ & ->)]; [exact Hk|].
    rewrite lookup_insert_ne; [exact Hk|]. intros ->. exact (Hn Ek).
  - unfold run_growth, bind, read, ret.
    set (plants := filter _ _).
    assert (Hnot : forall q, In (k, q) plants -> False).
    { intros q Hin. apply list_elem_of_In in Hin. unfold plants in Hin.
      apply list_elem_of_filter in Hin. destruct Hin as [Hown Hin].
      apply elem_of_map_to_list in Hin. cbn in Hown.
      rewrite Hk in Hin. injection Hin as <-. exact (Hn Hown). }
    pose proof (growth_loop_owner ObjectId plants now k p Hnot 0 d Hk) as Hl.
    destruct (growth_loop ObjectId plants now 0 d) as [[n|e] d1]; exact Hl.
Qed.

Lemma other_plants_untouched_witness :
  userplants (snd (handle any_id (Growth "u2") 3 demo_store)) !! "p1"%string
  = Some (new_plant "u1" "t1").
Proof.
  apply (other_plants_untouched any_id (Growth "u2") 3 demo_store "p1" (new_plant "u1" "t1"));
    [reflexivity|]. cbn. discriminate.
Defined.

(** ** The answer and the store *)

Section Answers.

Variable ObjectId : string -> option string.

Lemma get_plant_stored (id k : string) (p pf : plant) (o t : option template_doc)
  (d d' : store) :
  oid ObjectId id = Ok k ->
  userplants d' !! k = Some pf ->
  template pf = template p ->
  planttemplates d' = planttemplates d ->
  fst (find_template ObjectId p o d) = Ok t ->
  get_plant ObjectId id d' = (Ok (PlantJSON pf (template_data_of p t)), d').
Proof.
  intros Ek Ep Ht Hd Et.
  unfold get_plant, bind, lift, read, ret. rewrite Ek, Ep.
  rewrite (find_template_frame ObjectId p pf o None t d d' Ht Hd Et). reflexivity.
Qed.

Lemma care_stored_template (a : CareAction) (p pd pa : plant) (t : option template_doc)
  (xp_reward h now : Z) :
  apply_decay p = Ok pd ->
  dispatch a pd = Ok (Some (pa, xp_reward)) ->
  template (log_action a xp_reward now (apply_growth (set_health_score h pa) t))
  = template p.
Proof.
  intros Ed Ea.
  destruct (apply_decay_frame _ _ Ed) as (_ & T1 & _).
  destruct (dispatch_frame _ _ _ _ Ea) as (_ & T2 & _).
  destruct (apply_growth_frame (set_health_score h pa) t) as (_ & T3 & _).
  unfold log_action. cbn [template set_updated_at set_last_action_date set_action_log].
  rewrite T3. cbn [template set_health_score]. congruence.
Qed.

Lemma sensor_stored_template (data : SensorIn) (p ps : plant) (t : option template_doc)
  (h now : Z) :
  sensor_update data p = Ok ps ->
  template (set_updated_at now (apply_growth (set_health_score h ps) t)) = template p.
Proof.
  intros Es.
  destruct (sensor_update_frame _ _ _ Es) as (_ & T1).
  destruct (apply_growth_frame (set_health_score h ps) t) as (_ & T3 & _).
  cbn [template set_updated_at]. rewrite T3. exact T1.
Qed.

End Answers.

(** X4. Read your writes.  Whenever a request answers with a plant,
    that plant is the document now stored under the requested id, and
    [get_plant] on the resulting store gives the very same answer and
    changes nothing. *)
Theorem answered_plant_is_stored (ObjectId : string -> option string)
  (r : request) (now : Z) (d : store) (doc : plant) (td : option template_doc) :
  fst (handle ObjectId r now d) = Ok (PlantJSON doc td) ->
  exists id k,
    ((exists a, r = Care id a)
     \/ (exists data, r = Sensor data /\ plant_id data = id))
    /\ oid ObjectId id = Ok k
    /\ userplants (snd (handle ObjectId r now d)) !! k = Some doc
    /\ get_plant ObjectId id (snd (handle ObjectId r now d))
       = (Ok (PlantJSON doc td), snd (handle ObjectId r now d)).
Proof.
  destruct r as [id a|data|uid]; cbn [handle].
  - destruct (care_action_cases ObjectId id a now d)
      as [(r & -> & Hno)|(k & p & t & pd & pa & xp & h & Ek & Ep & Et & Ed & Ea & Eh
                          & [(e & _ & ->)|(u & _ & ->)])]; cbn [fst snd].
    + intros ->. destruct Hno.
    + discriminate.
    + intros [= <- <-]. exists id, k. split; [left; eauto|].
      split; [exact Ek|].
      assert (Hl : userplants (store_after_care d k
                      (log_action a xp now (apply_growth (set_health_score h pa) t)) u xp)
                   !! k
                   = Some (log_action a xp now (apply_growth (set_health_score h pa) t)))
        by (cbn [store_after_care userplants]; apply lookup_insert_eq).
      split; [exact Hl|].
      exact (get_plant_stored ObjectId id k p _ (Some empty_dict) t d _ Ek Hl
               (care_stored_template a p pd pa t xp h now Ed Ea) eq_refl Et).
  - destruct (ingest_sensor_cases ObjectId data now d)
      as [(r & -> & Hno)|(k & p & t & ps & h & Ek & Ep & Et & Es & Eh & ->)];
      cbn [fst snd].
    + intros ->. destruct Hno.
    + intros [= <- <-]. exists (plant_id data), k.
      split; [right; eauto|]. split; [exact Ek|].
      assert (Hl : userplants (store_after_sensor d k
                      (set_updated_at now (apply_growth (set_health_score h ps) t))
                      (sensor_doc_of data now)) !! k
                   = Some (set_updated_at now (apply_growth (set_health_score h ps) t)))
        by (cbn [store_after_sensor userplants]; apply lookup_insert_eq).
      split; [exact Hl|].
      exact (get_plant_stored ObjectId (plant_id data) k p _ (Some empty_dict) t d _ Ek Hl
               (sensor_stored_template data p ps t h now Es) eq_refl Et).
  - unfold run_growth, bind, read, ret.
    destruct (growth_loop ObjectId _ now 0 d) as [[n|e] d1]; discriminate.
Qed.

Lemma answered_plant_is_stored_witness :
  exists doc,
    fst (handle any_id (Care "p1" {| type := "water" |}) 1 demo_store)
      = Ok (PlantJSON doc (Some rose))
    /\ userplants (snd (handle any_id (Care "p1" {| type := "water" |}) 1 demo_store))
         !! "p1"%string = Some doc.
Proof.
  eexists. split; [vm_compute; reflexivity|].
  destruct (answered_plant_is_stored any_id (Care "p1" {| type := "water" |}) 1 demo_store
              _ (Some rose) ltac:(vm_compute; reflexivity))
    as (id & k & [(a & Hr)|(data & Hr & _)] & Ek & Hl & _); [|discriminate].
  injection Hr as <- _. injection Ek as <-. exact Hl.
Defined.

(** ** Counting the steps of a run *)

(** A property of a plant before and after [n] requests follows from
    its behaviour over one engine step. *)
Lemma run_counted (ObjectId : string -> option string)
  (P : nat -> plant -> plant -> Prop) :
  (forall p, P O p p) ->
  (forall n p q q', (q = p \/ engine_step p q) -> P n q q' -> P (S n) p q') ->
  forall (rs : list (request * Z)) (d : store) (k : string) (p : plant),
  userplants d !! k = Some p ->
  exists p', userplants (run ObjectId rs d) !! k = Some p' /\ P (length rs) p p'.
Proof.
  intros H0 HS rs. induction rs as [|[r now] rs IH]; intros d k p Hk; cbn [run length].
  - eauto.
  - destruct (handle_keeps ObjectId r now d k ltac:(eauto)) as [q Hq].
    destruct (handle_userplants ObjectId r now d k q Hq) as (p0 & Hp0 & Hstep).
    rewrite Hk in Hp0. injection Hp0 as <-.
    destruct (IH _ k q Hq) as (p' & Hp' & HP).
    exists p'. split; [exact Hp'|]. eapply HS; eassumption.
Qed.




Lemma engine_step_points (p p' : plant) :
  engine_step p p' ->
  get (growth_points p') 0 = get (growth_points p) 0
  \/ get (growth_points p') 0 = get (growth_points p) 0 + 10.
Proof.
  intros Hstep.
  assert (Hg : forall h px t, growth_points px = growth_points p ->
     get (growth_points (apply_growth (set_health_score h px) t)) 0 = get (growth_points p) 0
     \/ get (growth_points (apply_growth (set_health_score h px) t)) 0
        = get (growth_points p) 0 + 10).
  { intros h px t Hpx. rewrite apply_growth_points.
    cbn [health_score growth_points set_health_score get]. rewrite Hpx.
    destruct (70 <? h); cbn [get]; auto. }
  destruct Hstep as [p t pd pa xp_reward h action now Ed Ea Eh
                    |p t pd h now Ed Eh
                    |p t data ps h now Es Eh].
  - unfold log_action.
    cbn [growth_points set_updated_at set_last_action_date set_action_log].
    apply Hg.
    destruct (apply_decay_frame _ _ Ed) as (_ & _ & G1 & _).
    destruct (dispatch_frame _ _ _ _ Ea) as (_ & _ & G2 & _). congruence.
  - cbn [growth_points set_updated_at]. apply Hg.
    destruct (apply_decay_frame _ _ Ed) as (_ & _ & G1 & _). exact G1.
  - cbn [growth_points set_updated_at]. apply Hg.
    apply sensor_update_inv in Es. destruct Es as (_ & _ & G & _). exact G.
Qed.

(** X6. Growth is slow and regular: over any sequence of [n] requests
    the growth points of a plant rise by a multiple of 10 that is at
    most [10 * n]; no single request adds more than 10. *)
Theorem growth_points_step_by_ten (ObjectId : string -> option string)
  (rs : list (request * Z)) (d : store) (k : string) (p : plant) :
  userplants d !! k = Some p ->
  exists p' (j : nat),
    userplants (run ObjectId rs d) !! k = Some p'
    /\ (j <= length rs)%nat
    /\ get (growth_points p') 0 = get (growth_points p) 0 + 10 * Z.of_nat j.
Proof.
  intros Hk.
  destruct (run_counted ObjectId
              (fun n p p' => exists j : nat,
                 (j <= n)%nat
                 /\ get (growth_points p') 0 = get (growth_points p) 0 + 10 * Z.of_nat j))
    with (rs := rs) (d := d) (k := k) (p := p) as (p' & Hp' & j & Hj & E).
  - intros q. exists 0%nat. split; [lia|]. lia.
  - intros n q q1 q' Hstep (j & Hj & E).
    destruct Hstep as [->|Hstep].
    + exists j. split; [lia|exact E].
    + apply engine_step_points in Hstep. destruct Hstep as [Eg|Eg].
      * exists j. split; [lia|]. lia.
      * exists (S j). split; [lia|]. lia.
  - exact Hk.
  - exists p', j. split_and!; assumption.
Qed.

Lemma growth_points_step_by_ten_witness :
  exists p' (j : nat),
    userplants (run any_id demo_requests demo_store) !! "p1"%string = Some p'
    /\ (j <= 5)%nat
    /\ get (growth_points p') 0 = 0 + 10 * Z.of_nat j.
Proof.
  exact (growth_points_step_by_ten any_id demo_requests demo_store "p1"
           (new_plant "u1" "t1") eq_refl).
Defined.

(** ** Growth runs *)

Section GrowthRuns.

Variable ObjectId : string -> option string.

Lemma find_template_same (p : plant) (o : option template_doc) (d d' : store) :
  planttemplates d' = planttemplates d ->
  fst (find_template ObjectId p o d') = fst (find_template ObjectId p o d).
Proof.
  intros H. unfold find_template. destruct (truthy (template p)); [|reflexivity].
  unfold bind, lift, read, ret. destruct (oid ObjectId _); simpl; [|reflexivity].
  rewrite H. reflexivity.
Qed.

Lemma tick_inv (p q : plant) (t : option template_doc) (now : Z) :
  tick p t now = Ok q ->
  exists pd h, apply_decay p = Ok pd /\ compute_health pd t = Ok h
    /\ q = set_updated_at now (apply_growth (set_health_score h pd) t).
Proof.
  unfold tick. destruct (apply_decay p) as [pd|] eqn:Ed; [|discriminate]. cbn [rbind].
  destruct (compute_health pd t) as [h|] eqn:Eh; [|discriminate]. cbn [rbind].
  intros [= <-]. exists pd, h. split_and!; reflexivity || assumption.
Qed.

(** One turn of the loop on a plant whose tick succeeds. *)
Lemma growth_loop_cons_ok (k : string) (p q : plant) (t : option template_doc)
  (rest : list (string * plant)) (now updated : Z) (d : store) :
  is_Some (userplants d !! k) ->
  fst (find_template ObjectId p (Some empty_dict) d) = Ok t ->
  tick p t now = Ok q ->
  growth_loop ObjectId ((k, p) :: rest) now updated d
  = growth_loop ObjectId rest now (updated + 1) (store_plant_only d k q).
Proof.
  intros [p0 Hk] Et Hq.
  apply find_template_pair in Et.
  destruct (tick_inv _ _ _ _ Hq) as (pd & h & Ed & Eh & ->).
  loop_eval. cbv zeta. unfold update_plant. rewrite Hk. reflexivity.
Qed.

(** One turn of the loop on a plant whose tick raises. *)
Lemma growth_loop_cons_raise (k : string) (p : plant) (e : exn)
  (rest : list (string * plant)) (now updated : Z) (d : store) :
  (fst (find_template ObjectId p (Some empty_dict) d) = Raise e
   \/ exists t, fst (find_template ObjectId p (Some empty_dict) d) = Ok t
        /\ tick p t now = Raise e) ->
  growth_loop ObjectId ((k, p) :: rest) now updated d = (Raise e, d).
Proof.
  pose proof (find_template_store ObjectId p (Some empty_dict) d) as Hs.
  intros [Et|(t & Et & Ht)];
    destruct (find_template ObjectId p (Some empty_dict) d) as [[t0|e0] d'] eqn:E0;
    simpl in Hs, Et; subst d'; try discriminate.
  - injection Et as ->. loop_eval. reflexivity.
  - injection Et as ->. unfold tick in Ht.
    destruct (apply_decay p) as [pd|e1] eqn:Ed; cbn [rbind] in Ht.
    + destruct (compute_health pd t) as [h|e2] eqn:Eh; cbn [rbind] in Ht; [discriminate|].
      injection Ht as ->. loop_eval. reflexivity.
    + injection Ht as ->. loop_eval. reflexivity.
Qed.

Lemma growth_loop_all (now : Z) (plants : list (string * plant)) :
  forall (updated : Z) (d : store),
  NoDup (map fst plants) ->
  (forall k p, In (k, p) plants ->
     is_Some (userplants d !! k)
     /\ exists t q, fst (find_template ObjectId p (Some empty_dict) d) = Ok t
          /\ tick p t now = Ok q) ->
  fst (growth_loop ObjectId plants now updated d)
  = Ok (updated + Z.of_nat (length plants))
  /\ forall k p, In (k, p) plants ->
       exists t q, fst (find_template ObjectId p (Some empty_dict) d) = Ok t
         /\ tick p t now = Ok q
         /\ userplants (snd (growth_loop ObjectId plants now updated d)) !! k = Some q.
Proof.
  induction plants as [|[k1 p1] rest IH]; intros updated d Hnd Hall.
  - split; [cbn; f_equal; lia|]. intros k p [].
  - apply NoDup_cons in Hnd. destruct Hnd as [Hk1 Hnd].
    destruct (Hall k1 p1 ltac:(left; reflexivity)) as (Hs1 & t1 & q1 & Et1 & Hq1).
    rewrite (growth_loop_cons_ok k1 p1 q1 t1 rest now updated d Hs1 Et1 Hq1).
    set (d1 := store_plant_only d k1 q1).
    assert (Hall1 : forall k p, In (k, p) rest ->
              is_Some (userplants d1 !! k)
              /\ exists t q, fst (find_template ObjectId p (Some empty_dict) d1) = Ok t
                   /\ tick p t now = Ok q).
    { intros k p Hin.
      destruct (Hall k p ltac:(right; exact Hin)) as (Hs & t & q & Et & Hq).
      split.
      - unfold d1. cbn [store_plant_only userplants].
        destruct (decide (k1 = k)) as [->|Hne].
        + rewrite lookup_insert_eq. eauto.
        + rewrite lookup_insert_ne by exact Hne. exact Hs.
      - exists t, q. split; [|exact Hq].
        rewrite (find_template_same p (Some empty_dict) d d1 eq_refl). exact Et. }
    destruct (IH (updated + 1) d1 Hnd Hall1) as [Hres Heach].
    split.
    + rewrite Hres. f_equal. cbn [length]. lia.
    + intros k p [[= <- <-]|Hin].
      * exists t1, q1. split; [exact Et1|]. split; [exact Hq1|].
        apply growth_loop_owner.
        -- intros q Hq. apply Hk1. apply list_elem_of_fmap. exists (k1, q).
           split; [reflexivity|apply list_elem_of_In; exact Hq].
        -- unfold d1. cbn [store_plant_only userplants]. apply lookup_insert_eq.
      * destruct (Heach k p Hin) as (t & q & Et & Hq & Hl).
        exists t, q. split; [|split; [exact Hq|exact Hl]].
        rewrite <- (find_template_same p (Some empty_dict) d d1 eq_refl). exact Et.
Qed.

Lemma NoDup_fst_filter {A} (P : string * A -> Prop) `{forall x, Decision (P x)}
  (l : list (string * A)) :
  NoDup (map fst l) -> NoDup (map fst (filter P l)).
Proof.
  induction l as [|x l IH]; intros Hnd; [constructor|].
  cbn [map] in Hnd. apply NoDup_cons in Hnd. destruct Hnd as [Hx Hnd].
  rewrite filter_cons. destruct (decide (P x)).
  - cbn [map]. apply NoDup_cons. split; [|apply IH; exact Hnd].
    intros Hin. apply Hx.
    apply list_elem_of_fmap in Hin. destruct Hin as (y & Ey & Hy).
    apply list_elem_of_filter in Hy. destruct Hy as [_ Hy].
    apply list_elem_of_fmap. exists y. split; assumption.
  - apply IH. exact Hnd.
Qed.

End GrowthRuns.

(** X7. A growth run whose ticks all succeed reports the number of the
    user's plants and has replaced each of them by its tick: decay, then
    the recomputed health score, then growth, the instant of the run as
    [updated_at]. *)
Theorem run_growth_ticks_every_plant (ObjectId : string -> option string)
  (user_id : string) (now : Z) (d : store) :
  (forall k p, userplants d !! k = Some p -> owner p = user_id ->
     exists t q, fst (find_template ObjectId p (Some empty_dict) d) = Ok t
       /\ tick p t now = Ok q) ->
  fst (run_growth ObjectId user_id now d)
  = Ok (UpdatedJSON
          (Z.of_nat (length (filter (fun kp => owner (snd kp) = user_id)
                               (map_to_list (userplants d))))))
  /\ forall k p, userplants d !! k = Some p -> owner p = user_id ->
       exists t q, fst (find_template ObjectId p (Some empty_dict) d) = Ok t
         /\ tick p t now = Ok q
         /\ userplants (snd (run_growth ObjectId user_id now d)) !! k = Some q.
Proof.
  intros Hall. unfold run_growth, bind, read, ret.
  set (plants := filter _ _).
  assert (Hin : forall k p, In (k, p) plants <-> userplants d !! k = Some p /\ owner p = user_id).
  { intros k p. unfold plants. rewrite <- list_elem_of_In, list_elem_of_filter.
    rewrite elem_of_map_to_list. cbn. tauto. }
  assert (Hnd : NoDup (map fst plants)).
  { unfold plants. apply NoDup_fst_filter. apply NoDup_fst_map_to_list. }
  destruct (growth_loop_all ObjectId now plants 0 d Hnd) as [Hres Heach].
  { intros k p Hkp. apply Hin in Hkp. destruct Hkp as [Hk Ho].
    split; [eauto|]. exact (Hall k p Hk Ho). }
  destruct (growth_loop ObjectId plants now 0 d) as [[n|e] d1] eqn:El;
    cbn [fst snd] in *; [|discriminate].
  injection Hres as ->. split; [reflexivity|].
  intros k p Hk Ho. apply Heach. apply Hin. split; assumption.
Qed.

Lemma run_growth_ticks_every_plant_witness :
  fst (run_growth any_id "u1" 3 demo_store) = Ok (UpdatedJSON 1)
  /\ exists q, tick (new_plant "u1" "t1") (Some rose) 3 = Ok q
       /\ userplants (snd (run_growth any_id "u1" 3 demo_store)) !! "p1"%string = Some q.
Proof.
  assert (Hq : exists q, tick (new_plant "u1" "t1") (Some rose) 3 = Ok q).
  { eexists. vm_compute. reflexivity. }
  destruct Hq as [q Hq].
  assert (Et : fst (find_template any_id (new_plant "u1" "t1") (Some empty_dict) demo_store)
               = Ok (Some rose)) by reflexivity.
  assert (Hall : forall k p, userplants demo_store !! k = Some p -> owner p = "u1"%string ->
            exists t q, fst (find_template any_id p (Some empty_dict) demo_store) = Ok t
              /\ tick p t 3 = Ok q).
  { intros k p Hk _. cbn [userplants demo_store] in Hk.
    apply lookup_singleton_Some in Hk. destruct Hk as [_ <-].
    exists (Some rose), q. split; assumption. }
  destruct (run_growth_ticks_every_plant any_id "u1" 3 demo_store Hall) as [Hres Heach].
  split; [exact Hres|].
  destruct (Heach "p1"%string (new_plant "u1" "t1") eq_refl eq_refl)
    as (t & q' & Et' & Hq' & Hl).
  exists q'. split; [|exact Hl].
  rewrite Et in Et'. injection Et' as <-. exact Hq'.
Defined.

(** X8. A growth run is not atomic.  When the tick of a plant raises
    (its template does not resolve, say), the run fails with that
    exception, yet the plants the loop ticked before it stay updated in
    the store. *)
Theorem growth_loop_keeps_earlier_updates (ObjectId : string -> option string)
  (k1 k2 : string) (p1 p2 q1 : plant) (t1 : option template_doc) (e : exn)
  (rest : list (string * plant)) (now updated : Z) (d : store) :
  is_Some (userplants d !! k1) ->
  fst (find_template ObjectId p1 (Some empty_dict) d) = Ok t1 ->
  tick p1 t1 now = Ok q1 ->
  (fst (find_template ObjectId p2 (Some empty_dict) d) = Raise e
   \/ exists t2, fst (find_template ObjectId p2 (Some empty_dict) d) = Ok t2
        /\ tick p2 t2 now = Raise e) ->
  growth_loop ObjectId ((k1, p1) :: (k2, p2) :: rest) now updated d
  = (Raise e, store_plant_only d k1 q1).
Proof.
  intros Hs Et Hq Hfail.
  rewrite (growth_loop_cons_ok ObjectId k1 p1 q1 t1 _ now updated d Hs Et Hq).
  apply growth_loop_cons_raise.
  destruct Hfail as [Hf|(t2 & Et2 & Ht2)].
  - left. rewrite (find_template_same ObjectId p2 (Some empty_dict) d (store_plant_only d k1 q1) eq_refl). exact Hf.
  - right. exists t2. split; [|exact Ht2].
    rewrite (find_template_same ObjectId p2 (Some empty_dict) d (store_plant_only d k1 q1) eq_refl). exact Et2.
Qed.

Lemma growth_loop_keeps_earlier_updates_witness :
  exists q1,
    tick (new_plant "u1" "t1") (Some rose) 3 = Ok q1
    /\ growth_loop any_id [("p1"%string, new_plant "u1" "t1");
                           ("p9"%string, new_plant "u1" "t9")] 3 0 mixed_store
       = (Raise AttributeError, store_plant_only mixed_store "p1" q1).
Proof.
  assert (Hq : exists q, tick (new_plant "u1" "t1") (Some rose) 3 = Ok q).
  { eexists. vm_compute. reflexivity. }
  destruct Hq as [q1 Hq]. exists q1. split; [exact Hq|].
  apply (growth_loop_keeps_earlier_updates any_id "p1" "p9" (new_plant "u1" "t1")
           (new_plant "u1" "t9") q1 (Some rose) AttributeError [] 3 0 mixed_store).
  - exists (new_plant "u1" "t1"). reflexivity.
  - reflexivity.
  - exact Hq.
  - right. exists None. split; [reflexivity|]. vm_compute. reflexivity.
Defined.

(** ** Care actions that succeed *)

Lemma dispatch_recognized (a : CareAction) (p : plant) :
  recognized (type a) ->
  exists pa, dispatch a p = Ok (Some (pa, reward_of (type a))).
Proof.
  intros H. unfold dispatch. rewrite !int_clamp_eq. unfold reward_of.
  destruct H as [E|[E|[E|[E|E]]]]; rewrite E; simpl; eexists; reflexivity.
Qed.

(** After decay and a recognized action the three stats are stored
    values in range, whatever they were. *)
Lemma care_fields (a : CareAction) (p pd pa : plant) (xp_reward : Z) :
  apply_decay p = Ok pd ->
  dispatch a pd = Ok (Some (pa, xp_reward)) ->
  field_in_range (hydration pa) /\ field_in_range (nutrition pa)
  /\ field_in_range (sunlight pa).
Proof.
  intros Ed Ea. apply apply_decay_inv in Ed. destruct Ed as [s' [Es ->]].
  apply decay_sunlight_range in Es. apply dispatch_inv in Ea.
  destruct Ea as [(_ & _ & ->)|[(_ & _ & ->)|[(_ & _ & ->)|[(_ & _ & ->)|(_ & _ & ->)]]]];
    cbn [hydration nutrition sunlight set_hydration set_nutrition set_sunlight
         set_health_score];
    split_and!; apply field_in_range_Some; auto using clampZ_range.
Qed.

Lemma care_step_succeeds (a : CareAction) (p : plant) (t : template_doc) :
  field_in_range (sunlight p) -> ideals_in_range t -> recognized (type a) ->
  exists pd pa h,
    apply_decay p = Ok pd
    /\ dispatch a pd = Ok (Some (pa, reward_of (type a)))
    /\ compute_health pa (Some t) = Ok h.
Proof.
  intros Hs Ht Ha.
  destruct (apply_decay_succeeds p Hs) as [pd Ed].
  destruct (dispatch_recognized a pd Ha) as [pa Ea].
  destruct (care_fields a p pd pa _ Ed Ea) as (F1 & F2 & F3).
  exists pd, pa. eexists. split_and!; [exact Ed|exact Ea|].
  apply compute_health_in_range; assumption.
Qed.

(** X9. A recognized care action on a stored plant never fails when the
    plant's sunlight is in range, its template resolves to a dict with
    ideals in range and its owner id parses: the answer is the updated
    plant, that plant is what the store now holds, its stats are in
    range, and the owner is credited the reward of the action type.
    Hydration, nutrition and health score may be anything, even
    absent. *)
Theorem care_action_succeeds (ObjectId : string -> option string)
  (id : string) (a : CareAction) (now : Z) (d : store) (k u : string)
  (p : plant) (t : template_doc) :
  oid ObjectId id = Ok k ->
  userplants d !! k = Some p ->
  field_in_range (sunlight p) ->
  fst (find_template ObjectId p (Some empty_dict) d) = Ok (Some t) ->
  ideals_in_range t ->
  oid ObjectId (owner p) = Ok u ->
  recognized (type a) ->
  exists pf,
    care_action ObjectId id a now d
    = (Ok (PlantJSON pf (template_data_of p (Some t))),
       store_after_care d k pf u (reward_of (type a)))
    /\ engine_step p pf
    /\ is_Some (hydration pf) /\ is_Some (nutrition pf) /\ is_Some (sunlight pf)
    /\ is_Some (health_score pf)
    /\ in_range (get (hydration pf) 0) /\ in_range (get (nutrition pf) 0)
    /\ in_range (get (sunlight pf) 0) /\ in_range (get (health_score pf) 0).
Proof.
  intros Ek Ep Hs Et Ht Eu Ha.
  destruct (care_step_succeeds a p t Hs Ht Ha) as (pd & pa & h & Ed & Ea & Eh).
  exists (log_action a (reward_of (type a)) now (apply_growth (set_health_score h pa) (Some t))).
  split; [exact (care_action_ok ObjectId id a now d k u p pd pa (Some t) _ h
                   Ek Ep Et Ed Ea Eh Eu)|].
  split; [exact (step_care p (Some t) pd pa _ h a now Ed Ea Eh)|].
  destruct (apply_growth_stats (set_health_score h pa) (Some t)) as (E1 & E2 & E3 & E4).
  unfold log_action.
  cbn [hydration nutrition sunlight health_score set_updated_at set_last_action_date
       set_action_log].
  rewrite E1, E2, E3, E4.
  apply compute_health_range in Eh.
  apply apply_decay_inv in Ed. destruct Ed as [s' [Es ->]].
  apply decay_sunlight_range in Es. apply dispatch_inv in Ea.
  destruct Ea as [(_ & _ & ->)|[(_ & _ & ->)|[(_ & _ & ->)|[(_ & _ & ->)|(_ & _ & ->)]]]];
    cbn [hydration nutrition sunlight health_score set_hydration set_nutrition
         set_sunlight set_health_score get];
    split_and!; eauto using clampZ_range.
Qed.

Lemma care_action_succeeds_witness :
  exists pf,
    care_action any_id "p1" {| type := "fertilize" |} 1 demo_store
    = (Ok (PlantJSON pf (Some rose)), store_after_care demo_store "p1" pf "u1" 7)
    /\ in_range (get (nutrition pf) 0).
Proof.
  destruct (care_action_succeeds any_id "p1" {| type := "fertilize" |} 1 demo_store
              "p1" "u1" (new_plant "u1" "t1") rose)
    as (pf & E & _ & _ & _ & _ & _ & _ & Hn & _).
  - reflexivity.
  - reflexivity.
  - intros v [= <-]. unfold in_range. lia.
  - reflexivity.
  - split; intros v [= <-]; unfold in_range; lia.
  - reflexivity.
  - right. left. reflexivity.
  - exists pf. split; [exact E|exact Hn].
Defined.

(** ** Plant creation *)

Section Creation.

Variable ObjectId : string -> option string.

Lemma create_user_plant_ok (payload : PlantCreate.t) (now : Z) (new_id : string)
  (d : store) (ku kt : string) :
  oid ObjectId (PlantCreate.user_id payload) = Ok ku ->
  oid ObjectId (PlantCreate.template_id payload) = Ok kt ->
  is_Some (users d !! ku) -> is_Some (planttemplates d !! kt) ->
  create_user_plant ObjectId payload now new_id d
  = (Ok (CreatedJSON new_id), store_plant_only d new_id (created_doc ku kt payload now)).
Proof.
  intros Eu Et [usr Hu] [t Ht].
  unfold create_user_plant, bind, lift, read, ret. rewrite Eu, Et. cbv beta iota.
  rewrite Hu, Ht. reflexivity.
Qed.

Lemma create_user_plant_invalid (payload : PlantCreate.t) (now : Z) (new_id : string)
  (d : store) (ku kt : string) :
  oid ObjectId (PlantCreate.user_id payload) = Ok ku ->
  oid ObjectId (PlantCreate.template_id payload) = Ok kt ->
  users d !! ku = None \/ planttemplates d !! kt = None ->
  create_user_plant ObjectId payload now new_id d
  = (Ok (InvalidJSON 400 "Invalid user or template"), d).
Proof.
  intros Eu Et H.
  unfold create_user_plant, bind, lift, read, ret. rewrite Eu, Et. cbv beta iota.
  destruct H as [H|H]; rewrite H; [|destruct (users d !! ku)]; reflexivity.
Qed.

Lemma oid_Ok (s k : string) : oid ObjectId s = Ok k <-> ObjectId s = Some k.
Proof.
  unfold oid. destruct (ObjectId s); split; intros H; try discriminate;
    injection H as ->; reflexivity.
Qed.

Lemma round_trip_key (s k : string) :
  ids_round_trip ObjectId -> oid ObjectId s = Ok k ->
  oid ObjectId k = Ok k /\ truthy (Some k) = true.
Proof.
  intros [Hrt He] H. apply oid_Ok in H. pose proof (Hrt s k H) as Hk.
  split; [apply oid_Ok; exact Hk|].
  cbn [truthy]. destruct (String.eqb_spec k ""%string) as [->|]; [|reflexivity].
  rewrite He in Hk. discriminate.
Qed.

(** The template of a created plant resolves in every store that holds
    the template. *)
Lemma created_template (payload : PlantCreate.t) (now : Z) (ku kt s : string)
  (o : option template_doc) (d : store) :
  ids_round_trip ObjectId -> oid ObjectId s = Ok kt ->
  find_template ObjectId (created_doc ku kt payload now) o d
  = (Ok (planttemplates d !! kt), d).
Proof.
  intros Hrt Et. destruct (round_trip_key s kt Hrt Et) as [Ek Htr].
  unfold find_template. cbn [template created_doc]. rewrite Htr.
  cbn [get]. unfold bind, lift, read, ret. rewrite Ek. reflexivity.
Qed.

End Creation.

(** X10. Creation, then reading.  For an existing user and an existing
    template [create_user_plant] answers the new id and adds exactly one
    document, the seed plant (stats 50, health 100, no points, empty
    log) owned by that user; every plant already stored, every template,
    user and sensor document is kept.  [get_plant] on the answered id
    then returns that very document together with the template it was
    created from. *)
Theorem created_plant_is_readable (ObjectId : string -> option string)
  (payload : PlantCreate.t) (now : Z) (new_id : string) (d : store)
  (ku kt : string) (t : template_doc) :
  ids_round_trip ObjectId ->
  oid ObjectId (PlantCreate.user_id payload) = Ok ku ->
  oid ObjectId (PlantCreate.template_id payload) = Ok kt ->
  is_Some (users d !! ku) ->
  planttemplates d !! kt = Some t ->
  ObjectId new_id = Some new_id ->
  userplants d !! new_id = None ->
  exists d',
    create_user_plant ObjectId payload now new_id d = (Ok (CreatedJSON new_id), d')
    /\ get_plant ObjectId new_id d'
       = (Ok (PlantJSON (created_doc ku kt payload now) (Some t)), d')
    /\ (forall k p, userplants d !! k = Some p -> userplants d' !! k = Some p)
    /\ (forall k, is_Some (userplants d' !! k) -> k = new_id \/ is_Some (userplants d !! k))
    /\ planttemplates d' = planttemplates d /\ users d' = users d
    /\ sensordata d' = sensordata d.
Proof.
  intros Hrt Eu Et Hu Ht Hn Hfresh.
  exists (store_plant_only d new_id (created_doc ku kt payload now)).
  split; [apply create_user_plant_ok; eauto|].
  split.
  - unfold get_plant, bind, lift, read, ret.
    rewrite (proj2 (oid_Ok ObjectId new_id new_id) Hn).
    cbn [store_plant_only userplants]. rewrite lookup_insert_eq.
    rewrite (created_template ObjectId payload now ku kt _ None _ Hrt Et).
    cbn [store_plant_only planttemplates]. rewrite Ht. reflexivity.
  - cbn [store_plant_only userplants planttemplates users sensordata].
    split_and!; try reflexivity.
    + intros k p Hk. rewrite lookup_insert_ne; [exact Hk|].
      intros <-. rewrite Hfresh in Hk. discriminate.
    + intros k Hk. destruct (decide (k = new_id)) as [->|Hne]; [left; reflexivity|].
      right. rewrite lookup_insert_ne in Hk by congruence. exact Hk.
Qed.

Lemma created_plant_is_readable_witness :
  exists d',
    create_user_plant nonempty_id rosie 5 "p2" demo_store = (Ok (CreatedJSON "p2"), d')
    /\ get_plant nonempty_id "p2" d'
       = (Ok (PlantJSON (created_doc "u1" "t1" rosie 5) (Some rose)), d').
Proof.
  destruct (created_plant_is_readable nonempty_id rosie 5 "p2" demo_store "u1" "t1" rose)
    as (d' & E1 & E2 & _).
  - split; [|reflexivity].
    intros s k. unfold nonempty_id.
    destruct (String.eqb_spec s ""%string) as [->|Hs]; [discriminate|].
    intros [= <-]. destruct (String.eqb_spec s ""%string); [contradiction|reflexivity].
  - reflexivity.
  - reflexivity.
  - exists demo_user. reflexivity.
  - reflexivity.
  - reflexivity.
  - reflexivity.
  - exists d'. split; [exact E1|exact E2].
Defined.

(** X11. Creation, then care.  The plant [create_user_plant] makes from
    a template with ideals in range accepts every recognized care
    action: the action answers with the updated plant, whose log holds
    that one action, and the user the plant was created for is credited
    the reward. *)
Theorem created_plant_accepts_care (ObjectId : string -> option string)
  (payload : PlantCreate.t) (now later : Z) (new_id : string) (d : store)
  (ku kt : string) (usr : user) (t : template_doc) (a : CareAction) :
  ids_round_trip ObjectId ->
  oid ObjectId (PlantCreate.user_id payload) = Ok ku ->
  oid ObjectId (PlantCreate.template_id payload) = Ok kt ->
  users d !! ku = Some usr ->
  planttemplates d !! kt = Some t ->
  ideals_in_range t ->
  ObjectId new_id = Some new_id ->
  recognized (type a) ->
  exists d' pf d'',
    create_user_plant ObjectId payload now new_id d = (Ok (CreatedJSON new_id), d')
    /\ care_action ObjectId new_id a later d' = (Ok (PlantJSON pf (Some t)), d'')
    /\ userplants d'' !! new_id = Some pf
    /\ owner pf = ku
    /\ action_log pf
       = Some [ {| le_type := type a; le_value := 1;
                   le_xp_reward := reward_of (type a); le_date := later |} ]
    /\ users d'' !! ku = Some (inc_xp (reward_of (type a)) usr).
Proof.
  intros Hrt Eu Et Hu Ht Hi Hn Ha.
  set (doc := created_doc ku kt payload now).
  set (d' := store_plant_only d new_id doc).
  assert (Hs : field_in_range (sunlight doc)).
  { intros v [= <-]. unfold in_range. lia. }
  destruct (care_step_succeeds a doc t Hs Hi Ha) as (pd & pa & h & Ed & Ea & Eh).
  destruct (round_trip_key ObjectId _ _ Hrt Eu) as [Eku _].
  destruct (round_trip_key ObjectId _ _ Hrt Et) as [_ Htr].
  assert (Ef : fst (find_template ObjectId doc (Some empty_dict) d') = Ok (Some t)).
  { unfold doc. rewrite (created_template ObjectId payload now ku kt _ _ _ Hrt Et).
    cbn [fst d' store_plant_only planttemplates]. rewrite Ht. reflexivity. }
  assert (Ep : userplants d' !! new_id = Some doc).
  { cbn [d' store_plant_only userplants]. apply lookup_insert_eq. }
  pose proof (care_action_ok ObjectId new_id a later d' new_id ku doc pd pa (Some t) _ h
                (proj2 (oid_Ok ObjectId new_id new_id) Hn) Ep Ef Ed Ea Eh Eku) as Ec.
  cbv zeta in Ec.
  destruct (apply_decay_frame _ _ Ed) as (Fo & _ & _ & _ & _ & Fl).
  destruct (dispatch_frame _ _ _ _ Ea) as (Go & _ & _ & _ & Gl).
  destruct (apply_growth_frame (set_health_score h pa) (Some t)) as (Ho & _ & Hl).
  eexists d', _, _. split; [apply create_user_plant_ok; eauto|].
  split.
  { rewrite Ec. unfold template_data_of. cbn [doc created_doc template].
    rewrite Htr. reflexivity. }
  cbn [store_after_care userplants users].
  split_and!.
  - apply lookup_insert_eq.
  - unfold log_action. cbn [owner set_updated_at set_last_action_date set_action_log].
    rewrite Ho. cbn [owner set_health_score]. rewrite Go, Fo. reflexivity.
  - unfold log_action.
    cbn [action_log set_updated_at set_last_action_date set_action_log].
    rewrite Hl. cbn [action_log set_health_score]. rewrite Gl, Fl. reflexivity.
  - cbn [d' store_plant_only users]. rewrite lookup_alter_eq, Hu. reflexivity.
Qed.

Lemma created_plant_accepts_care_witness :
  exists d' pf d'',
    create_user_plant nonempty_id rosie 5 "p2" demo_store = (Ok (CreatedJSON "p2"), d')
    /\ care_action nonempty_id "p2" {| type := "water" |} 6 d'
       = (Ok (PlantJSON pf (Some rose)), d'')
    /\ users d'' !! "u1"%string = Some (inc_xp 5 demo_user).
Proof.
  destruct (created_plant_accepts_care nonempty_id rosie 5 6 "p2" demo_store "u1" "t1"
              demo_user rose {| type := "water" |})
    as (d' & pf & d'' & E1 & E2 & _ & _ & _ & E3).
  - split; [|reflexivity].
    intros s k. unfold nonempty_id.
    destruct (String.eqb_spec s ""%string) as [->|Hs]; [discriminate|].
    intros [= <-]. destruct (String.eqb_spec s ""%string); [contradiction|reflexivity].
  - reflexivity.
  - reflexivity.
  - reflexivity.
  - reflexivity.
  - split; intros v [= <-]; unfold in_range; lia.
  - reflexivity.
  - left. reflexivity.
  - exists d', pf, d''. split_and!; [exact E1|exact E2|exact E3].
Defined.

(** ** Requests that are turned down *)

(** X12. An id that [ObjectId] rejects makes every endpoint that takes
    one raise [InvalidId] before anything is read or written: reading
    or caring for a plant, ingesting a reading, chatting, and creating a
    plant with such a user id or template id. *)
Theorem malformed_id_raises (ObjectId : string -> option string)
  (id : string) (d : store) :
  ObjectId id = None ->
  get_plant ObjectId id d = (Raise InvalidId, d)
  /\ (forall a now, care_action ObjectId id a now d = (Raise InvalidId, d))
  /\ (forall data now, plant_id data = id ->
        ingest_sensor ObjectId data now d = (Raise InvalidId, d))
  /\ (forall body, ChatIn.plant_id body = id ->
        ai_chat ObjectId body d = (Raise InvalidId, d))
  /\ (forall payload now new_id,
        PlantCreate.user_id payload = id \/ PlantCreate.template_id payload = id ->
        create_user_plant ObjectId payload now new_id d = (Raise InvalidId, d)).
Proof.
  intros H. split_and!.
  - unfold get_plant, bind, lift, oid. rewrite H. reflexivity.
  - intros a now. unfold care_action, bind, lift, oid. rewrite H. reflexivity.
  - intros data now <-. unfold ingest_sensor, bind, lift, oid. rewrite H. reflexivity.
  - intros body <-. unfold ai_chat, bind, lift, oid. rewrite H. reflexivity.
  - intros payload now new_id [<-|<-];
      unfold create_user_plant, bind, lift, read, oid; rewrite ?H; [reflexivity|].
    destruct (ObjectId (PlantCreate.user_id payload)); reflexivity.
Qed.

Lemma malformed_id_raises_witness :
  care_action nonempty_id "" {| type := "water" |} 1 demo_store
  = (Raise InvalidId, demo_store).
Proof.
  destruct (malformed_id_raises nonempty_id "" demo_store) as (_ & H & _).
  - reflexivity.
  - exact (H {| type := "water" |} 1).
Defined.

(** X13. An id that parses but names no plant: [get_plant],
    [care_action] and [ingest_sensor] answer 404, [ai_chat] answers an
    ordinary message, and none of them changes the store.  In
    particular the reading sent for an unknown plant is dropped, not
    recorded in [sensordata]. *)
Theorem unknown_plant_not_found (ObjectId : string -> option string)
  (id k : string) (d : store) :
  oid ObjectId id = Ok k ->
  userplants d !! k = None ->
  get_plant ObjectId id d = (Ok (ErrorJSON 404 "Not found"), d)
  /\ (forall a now,
        care_action ObjectId id a now d = (Ok (ErrorJSON 404 "Plant not found"), d))
  /\ (forall data now, plant_id data = id ->
        ingest_sensor ObjectId data now d = (Ok (ErrorJSON 404 "Plant not found"), d))
  /\ (forall body, ChatIn.plant_id body = id ->
        ai_chat ObjectId body d = (Ok "I couldn't find that plant."%string, d)).
Proof.
  intros Ek Hk. split_and!.
  - unfold get_plant, bind, lift, read, ret. rewrite Ek. cbv beta iota.
    rewrite Hk. reflexivity.
  - intros a now. unfold care_action, bind, lift, read, ret. rewrite Ek.
    cbv beta iota. rewrite Hk. reflexivity.
  - intros data now <-. unfold ingest_sensor, bind, lift, read, ret. rewrite Ek.
    cbv beta iota. rewrite Hk. reflexivity.
  - intros body <-. unfold ai_chat, bind, lift, read, ret. rewrite Ek.
    cbv beta iota. rewrite Hk. reflexivity.
Qed.

Lemma unknown_plant_not_found_witness :
  ingest_sensor any_id (reading "p5" (Some (lit 40)) None) 1 demo_store
  = (Ok (ErrorJSON 404 "Plant not found"), demo_store).
Proof.
  destruct (unknown_plant_not_found any_id "p5" "p5" demo_store) as (_ & _ & H & _).
  - reflexivity.
  - reflexivity.
  - exact (H (reading "p5" (Some (lit 40)) None) 1 eq_refl).
Defined.

(** X14. With two ids that parse, [create_user_plant] creates a plant
    exactly when both the user and the template exist; otherwise it
    answers 400 and the store is left as it was. *)
Theorem creation_needs_user_and_template (ObjectId : string -> option string)
  (payload : PlantCreate.t) (now : Z) (new_id : string) (d : store) (ku kt : string) :
  oid ObjectId (PlantCreate.user_id payload) = Ok ku ->
  oid ObjectId (PlantCreate.template_id payload) = Ok kt ->
  (fst (create_user_plant ObjectId payload now new_id d) = Ok (CreatedJSON new_id)
   <-> is_Some (users d !! ku) /\ is_Some (planttemplates d !! kt))
  /\ (users d !! ku = None \/ planttemplates d !! kt = None ->
      create_user_plant ObjectId payload now new_id d
      = (Ok (InvalidJSON 400 "Invalid user or template"), d)).
Proof.
  intros Eu Et. split; [|apply create_user_plant_invalid; assumption].
  split.
  - intros H.
    destruct (users d !! ku) as [usr|] eqn:Hu;
      [destruct (planttemplates d !! kt) as [t|] eqn:Ht; [split; eauto|]|];
      rewrite (create_user_plant_invalid ObjectId payload now new_id d ku kt Eu Et) in H;
      auto; discriminate.
  - intros [Hu Ht]. rewrite (create_user_plant_ok ObjectId payload now new_id d ku kt);
      auto.
Qed.

Lemma creation_needs_user_and_template_witness :
  create_user_plant any_id
    {| PlantCreate.user_id := "u1"; PlantCreate.template_id := "t9";
       PlantCreate.nickname := "Fern" |} 5 "p2" demo_store
  = (Ok (InvalidJSON 400 "Invalid user or template"), demo_store).
Proof.
  destruct (creation_needs_user_and_template any_id
              {| PlantCreate.user_id := "u1"; PlantCreate.template_id := "t9";
                 PlantCreate.nickname := "Fern" |} 5 "p2" demo_store "u1" "t9")
    as (_ & H).
  - reflexivity.
  - reflexivity.
  - apply H. right. reflexivity.
Defined.

(** ** Rewards that are lost *)

(** X15. A care action is not atomic.  When the owner recorded in the
    plant is not an id, the action has already stored the updated plant
    with its new log entry when crediting the reward raises
    [InvalidId]: the request fails, the plant stays changed, and no
    user is credited. *)
Theorem care_action_not_atomic (ObjectId : string -> option string)
  (id : string) (a : CareAction) (now : Z) (d : store) (k : string)
  (p : plant) (t : template_doc) :
  oid ObjectId id = Ok k ->
  userplants d !! k = Some p ->
  field_in_range (sunlight p) ->
  fst (find_template ObjectId p (Some empty_dict) d) = Ok (Some t) ->
  ideals_in_range t ->
  recognized (type a) ->
  ObjectId (owner p) = None ->
  exists pf,
    care_action ObjectId id a now d = (Raise InvalidId, store_plant_only d k pf)
    /\ engine_step p pf
    /\ action_log pf
       = Some ({| le_type := type a; le_value := 1;
                  le_xp_reward := reward_of (type a); le_date := now |}
               :: get (action_log p) [])
    /\ users (store_plant_only d k pf) = users d.
Proof.
  intros Ek Ep Hs Et Ht Ha Ho.
  destruct (care_step_succeeds a p t Hs Ht Ha) as (pd & pa & h & Ed & Ea & Eh).
  destruct (apply_growth_frame (set_health_score h pa) (Some t)) as (Fo & _ & Fl).
  destruct (dispatch_frame _ _ _ _ Ea) as (Go & _ & _ & _ & Gl).
  destruct (apply_decay_frame _ _ Ed) as (Do & _ & _ & _ & _ & Dl).
  exists (log_action a (reward_of (type a)) now (apply_growth (set_health_score h pa) (Some t))).
  split_and!.
  - unfold care_action, bind, lift, read, ret.
    rewrite Ek. cbv beta iota. rewrite Ep.
    rewrite (find_template_pair ObjectId _ _ _ _ Et), Ed. cbv beta iota.
    rewrite Ea. cbv beta iota. rewrite Eh. cbv beta iota.
    unfold update_plant at 1. rewrite Ep. unfold oid at 1.
    cbn [owner set_updated_at set_last_action_date set_action_log].
    rewrite Fo. cbn [owner set_health_score]. rewrite Go, Do, Ho. reflexivity.
  - exact (step_care p (Some t) pd pa _ h a now Ed Ea Eh).
  - unfold log_action.
    cbn [action_log set_updated_at set_last_action_date set_action_log].
    rewrite Fl. cbn [action_log set_health_score]. rewrite Gl, Dl. reflexivity.
  - reflexivity.
Qed.

Lemma care_action_not_atomic_witness :
  exists pf,
    care_action nonempty_id "p1" {| type := "water" |} 1 orphan_store
    = (Raise InvalidId, store_plant_only orphan_store "p1" pf)
    /\ action_log pf
       = Some [ {| le_type := "water"; le_value := 1; le_xp_reward := 5; le_date := 1 |} ].
Proof.
  destruct (care_action_not_atomic nonempty_id "p1" {| type := "water" |} 1 orphan_store
              "p1" (new_plant "" "t1") rose)
    as (pf & E & _ & El & _).
  - reflexivity.
  - reflexivity.
  - intros v [= <-]. unfold in_range. lia.
  - reflexivity.
  - split; intros v [= <-]; unfold in_range; lia.
  - left. reflexivity.
  - reflexivity.
  - exists pf. split; [exact E|exact El].
Defined.

(** X16. A reward can be lost silently.  When the owner recorded in
    the plant parses but names no stored user, a recognized care action
    succeeds all the same: the updated plant is answered and stored,
    the [users] collection is left exactly as it was, and nobody
    receives the xp. *)
Theorem reward_lost_without_owner (ObjectId : string -> option string)
  (id : string) (a : CareAction) (now : Z) (d : store) (k u : string)
  (p : plant) (t : template_doc) :
  oid ObjectId id = Ok k ->
  userplants d !! k = Some p ->
  field_in_range (sunlight p) ->
  fst (find_template ObjectId p (Some empty_dict) d) = Ok (Some t) ->
  ideals_in_range t ->
  recognized (type a) ->
  oid ObjectId (owner p) = Ok u ->
  users d !! u = None ->
  exists pf,
    care_action ObjectId id a now d
    = (Ok (PlantJSON pf (template_data_of p (Some t))), store_plant_only d k pf)
    /\ engine_step p pf.
Proof.
  intros Ek Ep Hs Et Ht Ha Eu Hu.
  destruct (care_step_succeeds a p t Hs Ht Ha) as (pd & pa & h & Ed & Ea & Eh).
  eexists. split; [|exact (step_care p (Some t) pd pa _ h a now Ed Ea Eh)].
  rewrite (care_action_ok ObjectId id a now d k u p pd pa (Some t) _ h
             Ek Ep Et Ed Ea Eh Eu).
  cbv zeta. unfold store_after_care, store_plant_only. do 3 f_equal.
  apply map_eq. intros i. destruct (decide (i = u)) as [->|Hne].
  - rewrite lookup_alter_eq, Hu. reflexivity.
  - rewrite lookup_alter_ne by congruence. reflexivity.
Qed.

Lemma reward_lost_without_owner_witness :
  exists pf,
    care_action any_id "p1" {| type := "repot" |} 1 ownerless_store
    = (Ok (PlantJSON pf (Some rose)), store_plant_only ownerless_store "p1" pf).
Proof.
  destruct (reward_lost_without_owner any_id "p1" {| type := "repot" |} 1 ownerless_store
              "p1" "u7" (new_plant "u7" "t1") rose)
    as (pf & E & _).
  - reflexivity.
  - reflexivity.
  - intros v [= <-]. unfold in_range. lia.
  - reflexivity.
  - split; intros v [= <-]; unfold in_range; lia.
  - right. right. right. right. reflexivity.
  - reflexivity.
  - reflexivity.
  - exists pf. exact E.
Defined.

(** ** Chat and listing *)

Lemma chat_tips_great (p : plant) (tmpl : template_doc) :
  (String.concat " " (chat_tips p tmpl) = doing_great <-> content p tmpl)
  /\ (1 <= length (chat_tips p tmpl) <= 4)%nat.
Proof.
  unfold chat_tips, content.
  destruct (Z.ltb_spec (get (hydration p) 0) (get (ideal_moisture tmpl) 50 - 10));
    destruct (Z.ltb_spec (get (nutrition p) 0) 50);
    destruct (Z.ltb_spec (get (sunlight p) 0) (get (ideal_light tmpl) 60 - 10));
    destruct (Z.ltb_spec (get (health_score p) 100) 70);
    cbn [app length];
    (split; [|lia]);
    (split;
     [ intros Heq; first [ split_and!; lia | exfalso; vm_compute in Heq; discriminate ]
     | intros (C1 & C2 & C3 & C4); first [ reflexivity | exfalso; lia ] ]).
Qed.

(** X17. [ai_chat] only reads.  For a stored plant whose template
    resolves it answers between one and four tips joined by spaces and
    leaves the store as it is; the answer is the "doing great" message
    exactly when the plant needs nothing: hydration no more than 10
    below the ideal moisture, nutrition at least 50, sunlight no more
    than 10 below the ideal light (60 when the template gives none),
    and health score at least 70 (100 when the plant has none). *)
Theorem chat_praises_content_plants (ObjectId : string -> option string)
  (body : ChatIn.t) (d : store) (k : string) (p : plant) (tmpl : template_doc) :
  oid ObjectId (ChatIn.plant_id body) = Ok k ->
  userplants d !! k = Some p ->
  fst (find_template ObjectId p (Some empty_dict) d) = Ok (Some tmpl) ->
  exists answer,
    ai_chat ObjectId body d = (Ok answer, d)
    /\ answer = String.concat " " (chat_tips p tmpl)
    /\ (1 <= length (chat_tips p tmpl) <= 4)%nat
    /\ (answer = doing_great <-> content p tmpl).
Proof.
  intros Ek Ep Et. exists (String.concat " " (chat_tips p tmpl)).
  destruct (chat_tips_great p tmpl) as [Hg Hl].
  split; [|split; [reflexivity|split; [exact Hl|exact Hg]]].
  unfold ai_chat, bind, lift, read, ret. rewrite Ek. cbv beta iota. rewrite Ep.
  rewrite (find_template_pair ObjectId _ _ _ _ Et). reflexivity.
Qed.

Lemma chat_praises_content_plants_witness :
  ai_chat any_id {| ChatIn.plant_id := "p3"; ChatIn.question := None |} untemplated_store
  = (Ok "Your plant is doing great! Keep up the consistent care."%string,
     untemplated_store).
Proof.
  destruct (chat_praises_content_plants any_id
              {| ChatIn.plant_id := "p3"; ChatIn.question := None |} untemplated_store
              "p3" untemplated empty_dict)
    as (answer & E & _ & _ & Hg).
  - reflexivity.
  - reflexivity.
  - reflexivity.
  - rewrite E. f_equal. f_equal. apply Hg.
    unfold content, untemplated, empty_dict, get, hydration, nutrition, sunlight,
      health_score, ideal_moisture, ideal_light. lia.
Defined.

Lemma In_take {A} (n : nat) (l : list A) (x : A) : In x (take n l) -> In x l.
Proof.
  intros H. rewrite <- (take_drop n l). apply in_or_app. left. exact H.
Qed.

Lemma NoDup_take_fst {A} (n : nat) (l : list (string * A)) :
  NoDup (map fst l) -> NoDup (map fst (take n l)).
Proof.
  intros H. rewrite <- (take_drop n l) in H. rewrite map_app in H.
  apply NoDup_app in H. apply H.
Qed.

(** X18. [list_user_plants] only reads.  It answers at most 200 items,
    no plant twice; each item is a stored plant, under its id, whose
    owner is the requested user; and when the user has at most 200
    plants, every one of them is listed. *)
Theorem list_user_plants_spec (user_id : string) (d : store) :
  exists items,
    list_user_plants user_id d = (Ok items, d)
    /\ (length items <= 200)%nat
    /\ NoDup (map fst items)
    /\ (forall k p, In (k, p) items -> userplants d !! k = Some p /\ owner p = user_id)
    /\ ((length (filter (fun kp => owner (snd kp) = user_id)
                   (map_to_list (userplants d))) <= 200)%nat ->
        forall k p, userplants d !! k = Some p -> owner p = user_id -> In (k, p) items).
Proof.
  eexists. split; [reflexivity|]. split_and!.
  - rewrite length_take. lia.
  - apply NoDup_take_fst, NoDup_fst_filter, NoDup_fst_map_to_list.
  - intros k p H. apply In_take in H. apply list_elem_of_In in H.
    apply list_elem_of_filter in H. destruct H as [Ho H].
    apply elem_of_map_to_list in H. split; [exact H|exact Ho].
  - intros Hlen k p Hk Ho. rewrite take_ge by lia.
    apply list_elem_of_In. apply list_elem_of_filter. split; [exact Ho|].
    apply elem_of_map_to_list. exact Hk.
Qed.

(** ** The health score and what it allows *)

Lemma health_score_bounds_aux (p : plant) (t : template_doc) :
  field_in_range (hydration p) -> field_in_range (nutrition p) ->
  field_in_range (sunlight p) -> ideals_in_range t ->
  exists h,
    compute_health p (Some t) = Ok h
    /\ 13 <= h <= 100
    /\ (h = 100 <-> get (hydration p) 0 = get (ideal_moisture t) 50
                    /\ get (sunlight p) 0 = get (ideal_light t) 50
                    /\ get (nutrition p) 0 = 60)
    /\ (70 < h <-> total_deviation p t <= 87).
Proof.
  intros Hh Hn Hs [Hm Hl].
  exists (100 - (total_deviation p t + 2) / 3).
  split; [apply compute_health_in_range; try assumption; split; assumption|].
  assert (Rh : in_range (get (hydration p) 0)) by (apply get_in_range; unfold in_range; auto; lia).
  assert (Rn : in_range (get (nutrition p) 0)) by (apply get_in_range; unfold in_range; auto; lia).
  assert (Rs : in_range (get (sunlight p) 0)) by (apply get_in_range; unfold in_range; auto; lia).
  assert (Rm : in_range (get (ideal_moisture t) 50)) by (apply get_in_range; unfold in_range; auto; lia).
  assert (Rl : in_range (get (ideal_light t) 50)) by (apply get_in_range; unfold in_range; auto; lia).
  unfold total_deviation. unfold in_range in Rh, Rn, Rs, Rm, Rl.
  generalize dependent (get (hydration p) 0). intros a Ra.
  generalize dependent (get (nutrition p) 0). intros b Rb.
  generalize dependent (get (sunlight p) 0). intros c Rc.
  generalize dependent (get (ideal_moisture t) 50). intros m Rm.
  generalize dependent (get (ideal_light t) 50). intros l Rl.
  pose proof (Z.div_mod (Z.abs (a - m) + Z.abs (c - l) + Z.abs (b - 60) + 2) 3 ltac:(lia)) as Hd.
  pose proof (Z.mod_pos_bound (Z.abs (a - m) + Z.abs (c - l) + Z.abs (b - 60) + 2) 3 ltac:(lia)) as Hb.
  split_and!; try split; lia.
Qed.



(** One decay pass takes at most 5 of an in-range sunlight and never
    adds to it. *)
Lemma decay_sunlight_drop (s : Z) :
  0 <= s <= 100 -> exists s', decay_sunlight s = Ok s' /\ s - 5 <= s' <= s.
Proof.
  intros Hs.
  pose proof (Zrange_forallb
    (fun s => is_ok_with (fun s' => (s - 5 <=? s') && (s' <=? s)) (decay_sunlight s))
    0 101 ltac:(vm_compute; reflexivity) s ltac:(lia)) as H.
  apply is_ok_with_inv in H. destruct H as [s' [E H]]. exists s'. split; [exact E|].
  apply andb_true_iff in H. destruct H as [H1 H2].
  apply Z.leb_le in H1. apply Z.leb_le in H2. lia.
Qed.

(** X20. What a growth tick needs.  On a plant with stats in range and
    a template with ideals in range a tick always succeeds, and it adds
    its 10 growth points exactly when the stats left by the decay of
    that same tick deviate from the ideals by at most 87 in total;
    otherwise the points stay as they are. *)
Theorem tick_grows_iff_close_to_ideal (p : plant) (t : template_doc) (now : Z) :
  field_in_range (hydration p) -> field_in_range (nutrition p) ->
  field_in_range (sunlight p) -> ideals_in_range t ->
  exists pd q,
    apply_decay p = Ok pd
    /\ tick p (Some t) now = Ok q
    /\ (total_deviation pd t <= 87 ->
        growth_points q = Some (get (growth_points p) 0 + 10))
    /\ (87 < total_deviation pd t -> growth_points q = growth_points p).
Proof.
  intros Hh Hn Hs Hi.
  destruct (apply_decay_succeeds p Hs) as [pd Ed].
  pose proof (apply_decay_inv p pd Ed) as [s' [Es Epd]].
  destruct (apply_decay_frame p pd Ed) as (_ & _ & Fg & _).
  apply decay_sunlight_range in Es.
  assert (Fh : field_in_range (hydration pd)).
  { rewrite Epd. cbn [hydration set_sunlight set_nutrition set_hydration].
    apply field_in_range_Some, clampZ_range. }
  assert (Fn : field_in_range (nutrition pd)).
  { rewrite Epd. cbn [nutrition set_sunlight set_nutrition set_hydration].
    apply field_in_range_Some, clampZ_range. }
  assert (Fs : field_in_range (sunlight pd)).
  { rewrite Epd. cbn [sunlight set_sunlight set_nutrition set_hydration].
    apply field_in_range_Some, Es. }
  destruct (health_score_bounds_aux pd t Fh Fn Fs Hi) as (h & Eh & _ & _ & Hg).
  exists pd. eexists. split; [exact Ed|].
  split; [unfold tick; rewrite Ed; cbn [rbind]; rewrite Eh; reflexivity|].
  cbn [growth_points set_updated_at]. rewrite apply_growth_points.
  cbn [health_score growth_points set_health_score get]. rewrite Fg.
  destruct (Z.ltb_spec 70 h) as [C|C]; split; intros H; try reflexivity; exfalso; lia.
Qed.

Lemma tick_grows_iff_close_to_ideal_witness :
  exists q,
    tick (new_plant "u1" "t1") (Some rose) 3 = Ok q /\ growth_points q = Some 10.
Proof.
  destruct (tick_grows_iff_close_to_ideal (new_plant "u1" "t1") rose 3)
    as (pd & q & Ed & Eq & Hg & _).
  - intros v [= <-]. unfold in_range. lia.
  - intros v [= <-]. unfold in_range. lia.
  - intros v [= <-]. unfold in_range. lia.
  - split; intros v [= <-]; unfold in_range; lia.
  - exists q. split; [exact Eq|]. apply Hg.
    vm_compute in Ed. injection Ed as <-. vm_compute. discriminate.
Defined.

(** ** What a care action nets *)

(** X21. A care action aimed at a stat never leaves that stat lower
    than it found it, although decay runs first: from an in-range value
    [v], water leaves the hydration at least [min 100 (v + 15)],
    fertilize the nutrition at least [min 100 (v + 13)] and
    sunlight_add the sunlight at least [min 100 (v + 5)]; the stat
    rises strictly unless it already was 100, and never passes 100. *)
Theorem care_raises_its_stat (a : CareAction) (p pd pa : plant) (xp_reward : Z) :
  type a = "water"%string \/ type a = "fertilize"%string
  \/ type a = "sunlight_add"%string ->
  field_in_range (hydration p) -> field_in_range (nutrition p) ->
  field_in_range (sunlight p) ->
  apply_decay p = Ok pd ->
  dispatch a pd = Ok (Some (pa, xp_reward)) ->
  exists v',
    target_stat (type a) pa = Some v'
    /\ Z.min 100 (get (target_stat (type a) p) 0 + net_gain (type a)) <= v' <= 100
    /\ get (target_stat (type a) p) 0 <= v'
    /\ (get (target_stat (type a) p) 0 < 100 -> get (target_stat (type a) p) 0 < v').
Proof.
  intros Ht Hh Hn Hs Ed Ea.
  assert (Rh : in_range (get (hydration p) 0)) by (apply get_in_range; unfold in_range; auto; lia).
  assert (Rn : in_range (get (nutrition p) 0)) by (apply get_in_range; unfold in_range; auto; lia).
  assert (Rs : in_range (get (sunlight p) 0)) by (apply get_in_range; unfold in_range; auto; lia).
  apply apply_decay_inv in Ed. destruct Ed as [s' [Es ->]].
  destruct (decay_sunlight_drop _ Rs) as (s'' & Es' & Hd).
  rewrite Es in Es'. injection Es' as <-.
  apply dispatch_inv in Ea. unfold in_range in Rh, Rn, Rs.
  destruct Ea as [(E & _ & ->)|[(E & _ & ->)|[(E & _ & ->)|[(E & _ & ->)|(E & _ & ->)]]]];
    rewrite E in *; unfold target_stat, net_gain, clampZ;
    cbn [String.eqb Ascii.eqb Bool.eqb hydration nutrition sunlight set_hydration
         set_nutrition set_sunlight get];
    try (destruct Ht as [Ht|[Ht|Ht]]; discriminate Ht);
    eexists; (split; [reflexivity|]); lia.
Qed.

Lemma care_raises_its_stat_witness :
  exists pd pa v',
    apply_decay (new_plant "u1" "t1") = Ok pd
    /\ dispatch {| type := "sunlight_add" |} pd = Ok (Some (pa, 4))
    /\ sunlight pa = Some v' /\ 55 <= v' <= 100.
Proof.
  assert (Hd : exists pd, apply_decay (new_plant "u1" "t1") = Ok pd).
  { eexists. vm_compute. reflexivity. }
  destruct Hd as [pd Ed].
  assert (Ha : exists pa, dispatch {| type := "sunlight_add" |} pd = Ok (Some (pa, 4))).
  { vm_compute in Ed. injection Ed as <-. eexists. vm_compute. reflexivity. }
  destruct Ha as [pa Ea].
  destruct (care_raises_its_stat {| type := "sunlight_add" |} (new_plant "u1" "t1") pd pa 4)
    as (v' & Ev & Hv & _).
  - right. right. reflexivity.
  - intros v [= <-]. unfold in_range. lia.
  - intros v [= <-]. unfold in_range. lia.
  - intros v [= <-]. unfold in_range. lia.
  - exact Ed.
  - exact Ea.
  - exists pd, pa, v'. split_and!; [exact Ed|exact Ea|exact Ev| |]; 
      unfold target_stat, net_gain in Hv; cbn in Hv; lia.
Defined.

(** ** Readings that are not numbers *)

Lemma sensor_step_succeeds (data : SensorIn) (p : plant) (t : template_doc) :
  field_in_range (hydration p) -> field_in_range (nutrition p) ->
  field_in_range (sunlight p) -> ideals_in_range t ->
  exists ps h, sensor_update data p = Ok ps /\ compute_health ps (Some t) = Ok h.
Proof.
  intros Hh Hn Hs Hi.
  destruct (sensor_update_total data p) as [ps Es].
  pose proof (sensor_update_inv data p ps Es) as (En & _ & _ & _ & Em & El).
  exists ps. eexists. split; [exact Es|].
  apply compute_health_in_range; [ | | |exact Hi].
  - destruct (moisture data) as [m|]; [|rewrite Em; exact Hh].
    destruct Em as [v [Ev ->]]. apply field_in_range_Some.
    destruct (py_int_clamp_float m) as [v' [Ev' Hv']].
    rewrite Ev in Ev'. injection Ev' as <-. exact Hv'.
  - rewrite En. exact Hn.
  - destruct (light data) as [l|]; [|rewrite El; exact Hs].
    destruct El as [v [Ev ->]]. apply field_in_range_Some.
    unfold normalize_light in Ev.
    destruct (py_int_clamp_float (SFmul prec emax (SFdiv prec emax l f1000_0) f100))
      as [v' [Ev' Hv']].
    rewrite Ev in Ev'. injection Ev' as <-. exact Hv'.
Qed.

(** X22. A reading that is not a number is taken for a full one.
    [clamp] is [max(0, min(100, v))], and [min(100, nan)] is 100
    because no comparison with a NaN holds; so a NaN moisture stores
    hydration 100 and a NaN light stores sunlight 100, and the ingest
    succeeds as for any other reading. *)
Theorem nan_reading_fills_the_stat (ObjectId : string -> option string)
  (data : SensorIn) (now : Z) (d : store) (k : string) (p : plant) (t : template_doc) :
  oid ObjectId (plant_id data) = Ok k ->
  userplants d !! k = Some p ->
  fst (find_template ObjectId p (Some empty_dict) d) = Ok (Some t) ->
  field_in_range (hydration p) -> field_in_range (nutrition p) ->
  field_in_range (sunlight p) -> ideals_in_range t ->
  exists pf,
    ingest_sensor ObjectId data now d
    = (Ok (PlantJSON pf (template_data_of p (Some t))),
       store_after_sensor d k pf (sensor_doc_of data now))
    /\ (moisture data = Some S754_nan -> hydration pf = Some 100)
    /\ (light data = Some S754_nan -> sunlight pf = Some 100).
Proof.
  intros Ek Ep Et Hh Hn Hs Hi.
  destruct (sensor_step_succeeds data p t Hh Hn Hs Hi) as (ps & h & Es & Eh).
  pose proof (ingest_sensor_ok ObjectId data now d k p ps (Some t) _ Ek Ep Et Es Eh) as Hc.
  cbv zeta in Hc. eexists. split; [exact Hc|].
  pose proof (sensor_update_inv data p ps Es) as (_ & _ & _ & _ & Em & El).
  destruct (apply_growth_stats (set_health_score h ps) (Some t)) as (G1 & _ & G3 & _).
  cbn [hydration sunlight set_updated_at]. rewrite G1, G3.
  cbn [hydration sunlight set_health_score]. split.
  - intros E. rewrite E in Em. destruct Em as [v [Ev ->]].
    vm_compute in Ev. congruence.
  - intros E. rewrite E in El. destruct El as [v [Ev ->]].
    vm_compute in Ev. congruence.
Qed.

Lemma nan_reading_fills_the_stat_witness :
  exists pf,
    ingest_sensor any_id (reading "p1" (Some S754_nan) (Some S754_nan)) 2 demo_store
    = (Ok (PlantJSON pf (Some rose)),
       store_after_sensor demo_store "p1" pf
         (sensor_doc_of (reading "p1" (Some S754_nan) (Some S754_nan)) 2))
    /\ hydration pf = Some 100 /\ sunlight pf = Some 100.
Proof.
  destruct (nan_reading_fills_the_stat any_id
              (reading "p1" (Some S754_nan) (Some S754_nan)) 2 demo_store "p1"
              (new_plant "u1" "t1") rose)
    as (pf & E & Hm & Hl).
  - reflexivity.
  - reflexivity.
  - reflexivity.
  - intros v [= <-]. unfold in_range. lia.
  - intros v [= <-]. unfold in_range. lia.
  - intros v [= <-]. unfold in_range. lia.
  - split; intros v [= <-]; unfold in_range; lia.
  - exists pf. split_and!; [exact E|exact (Hm eq_refl)|exact (Hl eq_refl)].
Defined.

(** ** A template that is gone *)

(** X23. A plant whose template id parses but names no template can
    still be read: [get_plant] answers the plant with no template data.
    Every endpoint that goes on to use the template fails on it with
    [AttributeError] and stores nothing: [ai_chat], [ingest_sensor]
    whatever the reading, and [care_action] for every recognized type
    (given a sunlight in range, so that decay succeeds first). *)
Theorem missing_template_blocks_all_but_reading (ObjectId : string -> option string)
  (id k : string) (d : store) (p : plant) :
  oid ObjectId id = Ok k ->
  userplants d !! k = Some p ->
  fst (find_template ObjectId p (Some empty_dict) d) = Ok None ->
  field_in_range (sunlight p) ->
  get_plant ObjectId id d = (Ok (PlantJSON p None), d)
  /\ (forall body, ChatIn.plant_id body = id ->
        ai_chat ObjectId body d = (Raise AttributeError, d))
  /\ (forall data now, plant_id data = id ->
        ingest_sensor ObjectId data now d = (Raise AttributeError, d))
  /\ (forall a now, recognized (type a) ->
        care_action ObjectId id a now d = (Raise AttributeError, d)).
Proof.
  intros Ek Ep Et Hs.
  pose proof (find_template_pair ObjectId _ _ _ _ Et) as Ef.
  assert (Htr : truthy (template p) = true).
  { revert Et. unfold find_template. destruct (truthy (template p)); [reflexivity|].
    cbn. discriminate. }
  pose proof (find_template_frame ObjectId p p (Some empty_dict) None None d d
                eq_refl eq_refl Et) as Eg.
  rewrite Htr in Eg.
  split_and!.
  - unfold get_plant, bind, lift, read, ret. rewrite Ek. cbv beta iota.
    rewrite Ep, Eg. reflexivity.
  - intros body <-. unfold ai_chat, bind, lift, read, ret. rewrite Ek. cbv beta iota.
    rewrite Ep, Ef. reflexivity.
  - intros data now <-. destruct (sensor_update_total data p) as [ps Es].
    unfold sensor_update in Es.
    unfold ingest_sensor, bind, lift, read, ret. rewrite Ek. cbv beta iota.
    rewrite Ep, Ef.
    destruct (moisture data) as [m|].
    + destruct (py_int (clamp (PyFloat m))) as [v|e]; [|discriminate Es].
      cbn [rbind] in Es |- *.
      destruct (light data) as [l|].
      * destruct (py_int (clamp (PyFloat (SFmul prec emax (SFdiv prec emax l f1000_0) f100))))
          as [w|e]; [|discriminate Es].
        reflexivity.
      * reflexivity.
    + cbn [rbind] in Es |- *.
      destruct (light data) as [l|].
      * destruct (py_int (clamp (PyFloat (SFmul prec emax (SFdiv prec emax l f1000_0) f100))))
          as [w|e]; [|discriminate Es].
        reflexivity.
      * reflexivity.
  - intros a now Ha.
    destruct (apply_decay_succeeds p Hs) as [pd Ed].
    destruct (dispatch_recognized a pd Ha) as [pa Ea].
    unfold care_action, bind, lift, read, ret. rewrite Ek. cbv beta iota.
    rewrite Ep, Ef, Ed. cbv beta iota. rewrite Ea. reflexivity.
Qed.

Lemma missing_template_blocks_all_but_reading_witness :
  get_plant any_id "p1" dangling_store
    = (Ok (PlantJSON (new_plant "u1" "t9") None), dangling_store)
  /\ ai_chat any_id {| ChatIn.plant_id := "p1"; ChatIn.question := None |} dangling_store
    = (Raise AttributeError, dangling_store).
Proof.
  destruct (missing_template_blocks_all_but_reading any_id "p1" "p1" dangling_store
              (new_plant "u1" "t9"))
    as (Hg & Hc & _).
  - reflexivity.
  - reflexivity.
  - reflexivity.
  - intros v [= <-]. unfold in_range. lia.
  - split; [exact Hg|]. apply Hc. reflexivity.
Defined.
